(** * Phystech: a social-network account class (phystech.py)

    A shallow embedding of the class [Phystech] and a verification of the
    relationship operations (friend requests, friendship, blocking,
    history).

    Python objects are mutable and are handled by reference, so the
    program state is written out:

    - every [Phystech] object lives in [__all_users]; a reference to an
      object ([ref]) is its position in creation order.  [__init__] adds
      every object to the class-level set and nothing removes one, so the
      object store and that set coincide;
    - every Python [set] is an object of its own in the store [sets]; an
      account holds four references to sets ([loc]).  The constructor
      stores the caller's [friends] set without copying it, so two accounts
      may share one set object;
    - the class attributes [Phystech.__uid] and [__user_history], the text
      written by [print] and the wall clock read by [strftime(gmtime())]
      are fields of the state as well.

    A method is a function in the monad [M]: it takes the state and returns
    the state it leaves behind together with its outcome, which is a
    returned value or a raised exception.  An exception does not roll the
    state back. *)

From stdpp Require Import gmap strings list fin_maps pretty.

Open Scope Z_scope.

(** ** Data *)

(** A reference to a [Phystech] object and a reference to a [set] object. *)
Abbreviation ref := nat.
Abbreviation loc := nat.

(** [datetime(year=..., month=..., day=...)], only ever stored. *)
Record datetime := { dt_year : Z; dt_month : Z; dt_day : Z }.

(** The instance attributes assigned by [__init__]. *)
Record Phystech := {
  name : string;
  status : option string;
  last_online : string;
  __uid : Z;
  _birthday : option datetime;
  _friends : loc;
  _block_users : loc;
  _incoming_friend_requests : loc;
  _outcoming_friend_requests : loc;
  _graduation_year : option Z;
  __login : string;
  __password : string
}.

(** The argument of a [KeyError]: the message of [_get_phystech_object], or
    the missing key of [set.remove] and of a dictionary subscript. *)
Inductive py_key :=
  | PyStr (s : string)
  | PyInt (n : Z).

Inductive exn :=
  | KeyError (arg : py_key)
  | AssertionError (msg : string).

(** The program state. *)
Record World := {
  Phystech__uid : Z;                              (* class attribute __uid *)
  __all_users : list Phystech;                    (* class attribute __all_users *)
  __user_history : gmap Z (list (string * string)); (* class attribute __user_history *)
  sets : gmap loc (gset Z);                       (* the set objects *)
  stdout : list string;                           (* lines written by print *)
  clock : nat → string;                           (* the n-th reading of the wall clock *)
  clock_reads : nat                               (* readings taken so far *)
}.

(** ** The monad of methods *)

(** [Dangling] is the outcome of following a reference to an object that was
    never constructed; no Python program can do that, and every theorem
    below is about references to constructed objects. *)
Inductive outcome (A : Type) :=
  | Ok (a : A)
  | Raise (e : exn)
  | Dangling.
Arguments Ok {A} a.
Arguments Raise {A} e.
Arguments Dangling {A}.

Definition M (A : Type) : Type := World → World * outcome A.

Definition M_ret {A} (a : A) : M A := λ w, (w, Ok a).

Definition M_bind {A B} (f : A → M B) (m : M A) : M B :=
  λ w, match m w with
       | (w', Ok a) => f a w'
       | (w', Raise e) => (w', Raise e)
       | (w', Dangling) => (w', Dangling)
       end.

Global Instance M_mret : MRet M := @M_ret.
Global Instance M_mbind : MBind M := @M_bind.

Definition raise {A} (e : exn) : M A := λ w, (w, Raise e).

(** ** State transformers *)

Definition w_tick (w : World) : World :=
  {| Phystech__uid := Phystech__uid w; __all_users := __all_users w;
     __user_history := __user_history w; sets := sets w; stdout := stdout w;
     clock := clock w; clock_reads := S (clock_reads w) |}.

Definition w_set_counter (n : Z) (w : World) : World :=
  {| Phystech__uid := n; __all_users := __all_users w;
     __user_history := __user_history w; sets := sets w; stdout := stdout w;
     clock := clock w; clock_reads := clock_reads w |}.

Definition w_set_users (us : list Phystech) (w : World) : World :=
  {| Phystech__uid := Phystech__uid w; __all_users := us;
     __user_history := __user_history w; sets := sets w; stdout := stdout w;
     clock := clock w; clock_reads := clock_reads w |}.

Definition w_set_history (h : gmap Z (list (string * string))) (w : World) : World :=
  {| Phystech__uid := Phystech__uid w; __all_users := __all_users w;
     __user_history := h; sets := sets w; stdout := stdout w;
     clock := clock w; clock_reads := clock_reads w |}.

Definition w_set_sets (s : gmap loc (gset Z)) (w : World) : World :=
  {| Phystech__uid := Phystech__uid w; __all_users := __all_users w;
     __user_history := __user_history w; sets := s; stdout := stdout w;
     clock := clock w; clock_reads := clock_reads w |}.

Definition w_print (line : string) (w : World) : World :=
  {| Phystech__uid := Phystech__uid w; __all_users := __all_users w;
     __user_history := __user_history w; sets := sets w;
     stdout := stdout w ++ [line];
     clock := clock w; clock_reads := clock_reads w |}.

Definition touch (t : string) (o : Phystech) : Phystech :=
  {| name := name o; status := status o; last_online := t; __uid := __uid o;
     _birthday := _birthday o; _friends := _friends o;
     _block_users := _block_users o;
     _incoming_friend_requests := _incoming_friend_requests o;
     _outcoming_friend_requests := _outcoming_friend_requests o;
     _graduation_year := _graduation_year o;
     __login := __login o; __password := __password o |}.

(** ** Primitive steps *)

(** [strftime("%Y-%m-%d %H:%M:%S", gmtime())] *)
Definition strftime_gmtime : M string :=
  λ w, (w_tick w, Ok (clock w (clock_reads w))).

(** [print(line)] *)
Definition print (line : string) : M unit :=
  λ w, (w_print line w, Ok tt).

(** Following a reference. *)
Definition deref (r : ref) : M Phystech :=
  λ w, match __all_users w !! r with
       | Some o => (w, Ok o)
       | None => (w, Dangling)
       end.

(** Reading an attribute: [r.f] *)
Definition attr {A} (f : Phystech → A) (r : ref) : M A :=
  o ← deref r; mret (f o).

(** [r.last_online = t] *)
Definition set_last_online (r : ref) (t : string) : M unit :=
  λ w, match __all_users w !! r with
       | Some _ => (w_set_users (alter (touch t) r (__all_users w)) w, Ok tt)
       | None => (w, Dangling)
       end.

(** [Phystech.__user_history[uid].append(record)]: the subscript raises
    [KeyError(uid)] when the key is missing. *)
Definition history_append (uid : Z) (record : string * string) : M unit :=
  λ w, match __user_history w !! uid with
       | Some h => (w_set_history (<[uid := h ++ [record]]> (__user_history w)) w, Ok tt)
       | None => (w, Raise (KeyError (PyInt uid)))
       end.

(** The contents of a set object. *)
Definition set_read (l : loc) : M (gset Z) :=
  λ w, (w, Ok (sets w !!! l)).

Definition set_write (l : loc) (s : gset Z) : M unit :=
  λ w, (w_set_sets (<[l := s]> (sets w)) w, Ok tt).

(** [set()] and set displays: a new set object. *)
Definition set_alloc (s : gset Z) : M loc :=
  λ w, let l := fresh (dom (sets w)) in
       (w_set_sets (<[l := s]> (sets w)) w, Ok l).

(** [x in l] *)
Definition set_contains (l : loc) (x : Z) : M bool :=
  s ← set_read l; mret (bool_decide (x ∈ s)).

(** [l.add(x)] *)
Definition set_add (l : loc) (x : Z) : M unit :=
  s ← set_read l; set_write l ({[x]} ∪ s).

(** [l.remove(x)]: raises [KeyError(x)] when [x] is not a member. *)
Definition set_remove (l : loc) (x : Z) : M unit :=
  s ← set_read l;
  if bool_decide (x ∈ s) then set_write l (s ∖ {[x]})
  else raise (KeyError (PyInt x)).

(** [l1.intersection(l2)]: a new set object. *)
Definition set_intersection (l1 l2 : loc) : M loc :=
  s1 ← set_read l1; s2 ← set_read l2; set_alloc (s1 ∩ s2).

(** ** The class *)

(** [_initialize_friends]: [not friends] holds for [None] and for an empty
    set; otherwise the caller's set object itself is returned. *)
Definition _initialize_friends (friends : option loc) : M loc :=
  match friends with
  | None => set_alloc ∅
  | Some l =>
      s ← set_read l;
      if bool_decide (s = ∅) then set_alloc ∅ else mret l
  end.

(** [self.__uid = Phystech.__uid; Phystech.__uid += 1] *)
Definition take_uid : M Z :=
  λ w, (w_set_counter (Phystech__uid w + 1) w, Ok (Phystech__uid w)).

(** [self.__all_users.add(self)]: the object joins the store. *)
Definition register (self : Phystech) : M ref :=
  λ w, (w_set_users (__all_users w ++ [self]) w, Ok (length (__all_users w))).

(** [self.__user_history[uid] = [record]] *)
Definition history_start (uid : Z) (record : string * string) : M unit :=
  λ w, (w_set_history (<[uid := [record]]> (__user_history w)) w, Ok tt).

Definition __init__ (name login password : string)
    (graduation_year : option Z) (birthday : option datetime)
    (status : option string) (friends : option loc) : M ref :=
  now ← strftime_gmtime;
  uid ← take_uid;
  fr ← _initialize_friends friends;
  blk ← set_alloc ∅;
  inc ← set_alloc ∅;
  out ← set_alloc ∅;
  self ← register
    {| name := name; status := status; last_online := now; __uid := uid;
       _birthday := birthday; _friends := fr; _block_users := blk;
       _incoming_friend_requests := inc; _outcoming_friend_requests := out;
       _graduation_year := graduation_year;
       __login := login; __password := password |};
  history_start uid (now, "Create an account"%string);;
  mret self.

Definition _get_uid (self : ref) : M Z := attr __uid self.

Definition _get_name (self : ref) : M string := attr name self.

Definition _update_online_status (self : ref) (action : string) : M unit :=
  now ← strftime_gmtime;
  set_last_online self now;;
  t ← attr last_online self;
  uid ← attr __uid self;
  history_append uid (t, action).

(** The loop over [__all_users] returns the first object whose uid matches.
    The iteration order of a Python set is unspecified; the objects are
    visited here in creation order, and [find_user_any_order] shows that
    the order is immaterial. *)
Definition find_user (user_uid : Z) (users : list Phystech) : option (nat * Phystech) :=
  list_find (λ user, __uid user = user_uid) users.

(** [KeyError(f'Id {user_uid} wasn\'t found!')] *)
Definition not_found (user_uid : Z) : exn :=
  KeyError (PyStr ("Id " +:+ pretty user_uid +:+ " wasn't found!")).

Definition _get_phystech_object (user_uid : Z) : M ref :=
  λ w, match find_user user_uid (__all_users w) with
       | Some (r, _) => (w, Ok r)
       | None => (w, Raise (not_found user_uid))
       end.

Definition _get_user_history (user_uid : Z) : M (list (string * string)) :=
  λ w, match __user_history w !! user_uid with
       | Some h => (w, Ok h)
       | None => (w, Raise (KeyError (PyInt user_uid)))
       end.

(** [if flag: self._update_online_status(action)] *)
Definition log_if (flag : bool) (self : ref) (action : string) : M unit :=
  if flag then _update_online_status self action else mret tt.

Definition get_block_users_list (self : ref) (flag : bool) : M loc :=
  log_if flag self "Get blocked users";;
  attr _block_users self.

Definition get_friends_list (self : ref) (flag : bool) : M loc :=
  log_if flag self "Get friends";;
  attr _friends self.

Definition get_incoming_friend_requests_list (self : ref) (flag : bool) : M loc :=
  log_if flag self "Get incoming requests";;
  attr _incoming_friend_requests self.

Definition get_outcoming_friend_requests_list (self : ref) (flag : bool) : M loc :=
  log_if flag self "Get outcoming friends";;
  attr _outcoming_friend_requests self.

(** [if not user: user = self._get_phystech_object(user_uid)]; an object is
    always true, so only [None] is looked up. *)
Definition resolve (user_uid : Z) (user : option ref) : M ref :=
  match user with
  | Some u => mret u
  | None => _get_phystech_object user_uid
  end.

(** [assert self != user, msg]: objects are compared by identity. *)
Definition assert_not_self (self user : ref) (msg : string) : M unit :=
  if bool_decide (self = user) then raise (AssertionError msg) else mret tt.

Definition get_mutual_friends (self : ref) (uid_user : Z) (user : option ref) : M loc :=
  _update_online_status self "Get mutual friends";;
  user ← resolve uid_user user;
  mine ← attr _friends self;
  theirs ← attr _friends user;
  set_intersection mine theirs.

(** [describe_human] returns [user.__str__()]; the text is a rendering of
    the resolved object, which is what is returned here. *)
Definition describe_human (self : ref) (uid_user : Z) : M ref :=
  _update_online_status self ("Describe " +:+ pretty uid_user);;
  _get_phystech_object uid_user.

Definition accept_friend_request (self : ref) (user_uid : Z) (decision : bool)
    (user : option ref) : M unit :=
  _update_online_status self "Accept friend";;
  user ← resolve user_uid user;
  uu ← _get_uid user;
  incoming ← get_incoming_friend_requests_list self false;
  pending ← set_contains incoming uu;
  if negb pending then
    print "Such user isn't in your friend requests. Check id one more time"
  else
    (if decision then
       mine ← attr _friends self;
       uu ← _get_uid user;
       set_add mine uu;;
       theirs ← attr _friends user;
       me ← attr __uid self;
       set_add theirs me
     else mret tt);;
    incoming ← attr _incoming_friend_requests self;
    uu ← _get_uid user;
    set_remove incoming uu;;
    outcoming ← attr _outcoming_friend_requests user;
    me ← attr __uid self;
    set_remove outcoming me.

Definition unblock_user (self : ref) (user_uid : Z) (user : option ref)
    (flag : bool) : M unit :=
  log_if flag self "Unblock user";;
  user ← resolve user_uid user;
  assert_not_self self user "You can't block yourself!";;
  uu ← _get_uid user;
  blocked ← get_block_users_list self false;
  is_blocked ← set_contains blocked uu;
  if negb is_blocked then
    (if flag then
       n ← _get_name user; print (n +:+ " isn't blocked")
     else mret tt)
  else
    blocked ← attr _block_users self;
    uu ← _get_uid user;
    set_remove blocked uu;;
    (if flag then
       n ← _get_name user; print ("You're unblocked " +:+ n)
     else mret tt).

Definition remove_friend (self : ref) (user_uid : Z) (user : option ref)
    (flag : bool) : M unit :=
  _update_online_status self "Remove friend";;
  user ← resolve user_uid user;
  assert_not_self self user "You can't remove yourself from  friends!";;
  uu ← _get_uid user;
  friends ← get_friends_list self false;
  is_friend ← set_contains friends uu;
  if negb is_friend then
    (if flag then
       n ← _get_name user; print (n +:+ " isn't your friend")
     else mret tt)
  else
    mine ← attr _friends self;
    uu ← _get_uid user;
    set_remove mine uu;;
    theirs ← attr _friends user;
    me ← attr __uid self;
    set_remove theirs me;;
    n ← _get_name user;
    print ("You' deleted " +:+ n +:+ " from your friends").

Definition block_user (self : ref) (user_uid : Z) (user : option ref) : M unit :=
  _update_online_status self "Block user";;
  user ← resolve user_uid user;
  assert_not_self self user "You can't block yourself!";;
  uu ← _get_uid user;
  blocked ← get_block_users_list self false;
  is_blocked ← set_contains blocked uu;
  if (is_blocked : bool) then
    n ← _get_name user; print ("You've already blocked " +:+ n)
  else
    blocked ← attr _block_users self;
    uu ← _get_uid user;
    set_add blocked uu;;
    remove_friend self user_uid (Some user) false;;
    uu ← _get_uid user;
    accept_friend_request self uu false (Some user);;
    n ← _get_name user; print ("You blocked " +:+ n).

Definition add_friend (self : ref) (user_uid : Z) (user : option ref) : M unit :=
  _update_online_status self "Add friend";;
  user ← resolve user_uid user;
  assert_not_self self user "You can't add yourself to friends!";;
  me ← attr __uid self;
  their_blocked ← get_block_users_list user false;
  am_blocked ← set_contains their_blocked me;
  if (am_blocked : bool) then
    n ← _get_name user;
    print ("You can't add " +:+ n +:+ " due to you're blocked")
  else
    uu ← _get_uid user;
    friends ← get_friends_list self false;
    is_friend ← set_contains friends uu;
    if (is_friend : bool) then
      n ← _get_name user;
      print ("You've been already a friend of " +:+ n)
    else
      me ← attr __uid self;
      their_incoming ← get_incoming_friend_requests_list user false;
      requested ← set_contains their_incoming me;
      if (requested : bool) then
        n ← _get_name user;
        print ("You've already sent a friend request to " +:+ n)
      else
        uu ← _get_uid user;
        unblock_user self uu (Some user) false;;
        outcoming ← attr _outcoming_friend_requests self;
        uu ← _get_uid user;
        set_add outcoming uu;;
        their_incoming ← attr _incoming_friend_requests user;
        me ← attr __uid self;
        set_add their_incoming me;;
        print "Your request was sent".

(** The state when the class body has been executed. *)
Definition class_created (clk : nat → string) : World :=
  {| Phystech__uid := 0; __all_users := []; __user_history := ∅; sets := ∅;
     stdout := []; clock := clk; clock_reads := 0 |}.

(** ** Views of the state *)

(** The members of the set that attribute [f] of object [r] refers to. *)
Definition contents (f : Phystech → loc) (w : World) (r : ref) : gset Z :=
  match __all_users w !! r with
  | Some o => sets w !!! f o
  | None => ∅
  end.

Definition friends_of := contents _friends.
Definition blocked_of := contents _block_users.
Definition incoming_of := contents _incoming_friend_requests.
Definition outgoing_of := contents _outcoming_friend_requests.

(** The history list of object [r]. *)
Definition history_of (w : World) (r : ref) : list (string * string) :=
  match __all_users w !! r with
  | Some o => default [] (__user_history w !! __uid o)
  | None => []
  end.

(** The [last_online] attribute of object [r]. *)
Definition last_online_of (w : World) (r : ref) : option string :=
  last_online <$> __all_users w !! r.

(** The caller names the peer [b] by passing the object, or by passing
    [b]'s uid and no object. *)
Definition names (user_uid : Z) (user : option ref) (b : ref) (ob : Phystech) : Prop :=
  user = Some b ∨ (user = None ∧ user_uid = __uid ob).

(** ** Well-formed states

    What [__init__] establishes and every method keeps: the n-th object
    carries uid n and has a history list; the three sets that [__init__]
    creates for an object ([set()]) are referred to by that object only,
    except that the [_friends] attribute of a younger object may refer to
    any older set. *)

Inductive own_field := Blocked | Incoming | Outcoming.

Definition own_loc (f : own_field) (o : Phystech) : loc :=
  match f with
  | Blocked => _block_users o
  | Incoming => _incoming_friend_requests o
  | Outcoming => _outcoming_friend_requests o
  end.

Record wf (w : World) : Prop := {
  wf_uid : ∀ r o, __all_users w !! r = Some o → __uid o = Z.of_nat r;
  wf_counter : Phystech__uid w = Z.of_nat (length (__all_users w));
  wf_history : ∀ r o, __all_users w !! r = Some o →
    is_Some (__user_history w !! __uid o);
  wf_alloc_friends : ∀ r o, __all_users w !! r = Some o →
    _friends o ∈ dom (sets w);
  wf_alloc_own : ∀ r o f, __all_users w !! r = Some o →
    own_loc f o ∈ dom (sets w);
  wf_own : ∀ r1 r2 o1 o2 f1 f2,
    __all_users w !! r1 = Some o1 → __all_users w !! r2 = Some o2 →
    own_loc f1 o1 = own_loc f2 o2 → r1 = r2 ∧ f1 = f2;
  wf_friends : ∀ r1 r2 o1 o2 f,
    __all_users w !! r1 = Some o1 → __all_users w !! r2 = Some o2 →
    own_loc f o1 = _friends o2 → (r1 < r2)%nat
}.

(** The state after [_update_online_status] on an object with uid [uid]. *)
Definition logged (self : ref) (uid : Z) (action : string) (w : World) : World :=
  let t := clock w (clock_reads w) in
  w_set_history
    (<[uid := (__user_history w !!! uid) ++ [(t, action)]]> (__user_history w))
    (w_set_users (alter (touch t) self (__all_users w)) (w_tick w)).

(** ** Method calls as data

    A call of one of the public methods on an acting account, with the
    arguments the caller passes; [invoke] runs the method and drops the
    value it returns. *)

Inductive call :=
  | AddFriend (user_uid : Z) (user : option ref)
  | AcceptFriendRequest (user_uid : Z) (decision : bool) (user : option ref)
  | RemoveFriend (user_uid : Z) (user : option ref) (flag : bool)
  | BlockUser (user_uid : Z) (user : option ref)
  | UnblockUser (user_uid : Z) (user : option ref) (flag : bool)
  | GetMutualFriends (uid_user : Z) (user : option ref)
  | DescribeHuman (uid_user : Z)
  | GetBlockUsersList (flag : bool)
  | GetFriendsList (flag : bool)
  | GetIncomingFriendRequestsList (flag : bool)
  | GetOutcomingFriendRequestsList (flag : bool).

Definition invoke (self : ref) (c : call) : M unit :=
  match c with
  | AddFriend user_uid user => add_friend self user_uid user
  | AcceptFriendRequest user_uid decision user =>
      accept_friend_request self user_uid decision user
  | RemoveFriend user_uid user flag => remove_friend self user_uid user flag
  | BlockUser user_uid user => block_user self user_uid user
  | UnblockUser user_uid user flag => unblock_user self user_uid user flag
  | GetMutualFriends uid_user user =>
      get_mutual_friends self uid_user user;; mret tt
  | DescribeHuman uid_user => describe_human self uid_user;; mret tt
  | GetBlockUsersList flag => get_block_users_list self flag;; mret tt
  | GetFriendsList flag => get_friends_list self flag;; mret tt
  | GetIncomingFriendRequestsList flag =>
      get_incoming_friend_requests_list self flag;; mret tt
  | GetOutcomingFriendRequestsList flag =>
      get_outcoming_friend_requests_list self flag;; mret tt
  end.

(** The label the method writes to the history of the acting account. *)
Definition label (c : call) : string :=
  match c with
  | AddFriend _ _ => "Add friend"
  | AcceptFriendRequest _ _ _ => "Accept friend"
  | RemoveFriend _ _ _ => "Remove friend"
  | BlockUser _ _ => "Block user"
  | UnblockUser _ _ _ => "Unblock user"
  | GetMutualFriends _ _ => "Get mutual friends"
  | DescribeHuman uid_user => "Describe " +:+ pretty uid_user
  | GetBlockUsersList _ => "Get blocked users"
  | GetFriendsList _ => "Get friends"
  | GetIncomingFriendRequestsList _ => "Get incoming requests"
  | GetOutcomingFriendRequestsList _ => "Get outcoming friends"
  end.

(** The four relationship operations that check [self != user]. *)
Definition checks_self (c : call) : option (Z * option ref * string) :=
  match c with
  | AddFriend user_uid user =>
      Some (user_uid, user, "You can't add yourself to friends!"%string)
  | RemoveFriend user_uid user _ =>
      Some (user_uid, user, "You can't remove yourself from  friends!"%string)
  | BlockUser user_uid user => Some (user_uid, user, "You can't block yourself!"%string)
  | UnblockUser user_uid user _ =>
      Some (user_uid, user, "You can't block yourself!"%string)
  | _ => None
  end.

(** Whether the call logs: every method does, except a getter or
    [unblock_user] called with [flag=False]. *)
Definition logs (c : call) : bool :=
  match c with
  | UnblockUser _ _ flag | GetBlockUsersList flag | GetFriendsList flag
  | GetIncomingFriendRequestsList flag | GetOutcomingFriendRequestsList flag => flag
  | _ => true
  end.


(** The calls that look the peer up by uid. *)
Definition resolves_by_uid (c : call) : option Z :=
  match c with
  | AddFriend user_uid None | AcceptFriendRequest user_uid _ None
  | RemoveFriend user_uid None _ | BlockUser user_uid None
  | UnblockUser user_uid None _ | GetMutualFriends user_uid None
  | DescribeHuman user_uid => Some user_uid
  | _ => None
  end.

(** Some account carries the uid. *)
Definition known (w : World) (user_uid : Z) : Prop :=
  ∃ r o, __all_users w !! r = Some o ∧ __uid o = user_uid.

(** ** Notions used in the proofs *)

(** The n-th object carries uid n. *)
Definition uids_ok (l : list Phystech) : Prop :=
  ∀ r o, l !! r = Some o → __uid o = Z.of_nat r.

(** The six sets that [__init__] created for two different accounts are six
    different objects, neither account's [_friends] is one of its own three,
    and the uids differ. *)
Record apart (oa ob : Phystech) : Prop := {
  apart_uid : __uid oa ≠ __uid ob;
  apart_own : ∀ f g, own_loc f oa ≠ own_loc g ob;
  apart_own_l : ∀ f g, f ≠ g → own_loc f oa ≠ own_loc g oa;
  apart_own_r : ∀ f g, f ≠ g → own_loc f ob ≠ own_loc g ob;
  apart_friends_l : ∀ f, own_loc f oa ≠ _friends oa;
  apart_friends_r : ∀ f, own_loc f ob ≠ _friends ob
}.

(** [w'] has the objects of [w] with the same attributes, [last_online]
    apart, and at least its sets and history lists. *)
Record extends (w w' : World) : Prop := {
  ext_users : touch "" <$> __all_users w' = touch "" <$> __all_users w;
  ext_counter : Phystech__uid w' = Phystech__uid w;
  ext_sets : dom (sets w) ⊆ dom (sets w');
  ext_history : dom (__user_history w) ⊆ dom (__user_history w')
}.

(** A method that only ever extends the state. *)
Definition stable {A} (m : M A) : Prop := ∀ w, extends w (m w).1.


(** ** Symmetric friendship *)

(** Friendship is symmetric: one account's uid is in the other's friends
    exactly when the other's uid is in its own. *)
Definition symmetric (w : World) : Prop :=
  ∀ r1 r2 o1 o2,
    __all_users w !! r1 = Some o1 → __all_users w !! r2 = Some o2 →
    __uid o1 ∈ friends_of w r2 ↔ __uid o2 ∈ friends_of w r1.

(** Every account's [_friends] is a set object of its own: no other account
    refers to it, as friends or as one of its own three sets. *)
Record friends_unshared (w : World) : Prop := {
  unshared_friends : ∀ r1 r2 o1 o2,
    __all_users w !! r1 = Some o1 → __all_users w !! r2 = Some o2 →
    _friends o1 = _friends o2 → r1 = r2;
  unshared_own : ∀ r1 r2 o1 o2 f,
    __all_users w !! r1 = Some o1 → __all_users w !! r2 = Some o2 →
    own_loc f o1 ≠ _friends o2
}.

(** The object a call passes as [user], if it passes one. *)
Definition user_of (c : call) : option ref :=
  match c with
  | AddFriend _ user | AcceptFriendRequest _ _ user | RemoveFriend _ user _
  | BlockUser _ user | UnblockUser _ user _ | GetMutualFriends _ user => user
  | _ => None
  end.

(** How a method changes the friends of one account. *)
Inductive change := Keep | Add (x : Z) | Remove (x : Z).

Definition apply_change (c : change) (s : gset Z) : gset Z :=
  match c with
  | Keep => s
  | Add x => {[x]} ∪ s
  | Remove x => s ∖ {[x]}
  end.

(** [w'] has the objects of [w], and the friends of each account have
    changed as [d] says. *)
Record friends_changed (d : ref → change) (w w' : World) : Prop := {
  changed_users : touch "" <$> __all_users w' = touch "" <$> __all_users w;
  changed_friends : ∀ r o, __all_users w !! r = Some o →
    sets w' !!! _friends o = apply_change (d r) (sets w !!! _friends o)
}.

(** The three ways a method changes friendships: not at all, by making
    [a] and [b] friends, by ending their friendship. *)
Definition no_change : ref → change := λ _, Keep.

Definition befriend (a b : ref) (ua ub : Z) : ref → change :=
  λ r, if decide (r = a) then Add ub else if decide (r = b) then Add ua else Keep.

Definition unfriend (a b : ref) (ua ub : Z) : ref → change :=
  λ r, if decide (r = a) then Remove ub else if decide (r = b) then Remove ua else Keep.

(** The change is one of the three. *)
Definition symmetric_change (w w' : World) : Prop :=
  ∃ d, friends_changed d w w' ∧
    (d = no_change ∨
     ∃ a b oa ob, __all_users w !! a = Some oa ∧ __all_users w !! b = Some ob ∧
       (d = befriend a b (__uid oa) (__uid ob) ∨
        d = unfriend a b (__uid oa) (__uid ob))).


(** ** What a call changes *)

(** Requests are paired: the uid of one account is among the incoming
    requests of another exactly when the uid of the other is among its own
    outcoming requests. *)
Definition requests_paired (w : World) : Prop :=
  ∀ r1 r2 o1 o2,
    __all_users w !! r1 = Some o1 → __all_users w !! r2 = Some o2 →
    __uid o1 ∈ incoming_of w r2 ↔ __uid o2 ∈ outgoing_of w r1.

(** How a method changes the four sets of every account. *)
Record effect := {
  on_friends : ref → change;
  on_blocked : ref → change;
  on_incoming : ref → change;
  on_outgoing : ref → change
}.

(** [w'] has the objects of [w], and the sets of each account have changed
    as [e] says. *)
Record sets_changed (e : effect) (w w' : World) : Prop := {
  sc_users : touch "" <$> __all_users w' = touch "" <$> __all_users w;
  sc_friends : ∀ r o, __all_users w !! r = Some o →
    sets w' !!! _friends o = apply_change (on_friends e r) (sets w !!! _friends o);
  sc_blocked : ∀ r o, __all_users w !! r = Some o →
    sets w' !!! _block_users o =
      apply_change (on_blocked e r) (sets w !!! _block_users o);
  sc_incoming : ∀ r o, __all_users w !! r = Some o →
    sets w' !!! _incoming_friend_requests o =
      apply_change (on_incoming e r) (sets w !!! _incoming_friend_requests o);
  sc_outgoing : ∀ r o, __all_users w !! r = Some o →
    sets w' !!! _outcoming_friend_requests o =
      apply_change (on_outgoing e r) (sets w !!! _outcoming_friend_requests o)
}.

(** A change of one set of the account [a] alone. *)
Definition only (a : ref) (c : change) : ref → change :=
  λ r, if decide (r = a) then c else Keep.

(** What a call of the account [a] (uid [ua]) on the peer [b] (uid [ub])
    can do: to the friends, nothing, or make the two friends, or end their
    friendship; to the blocked sets, nothing, or put [b] into the blocked set
    of [a], or take it out; to the requests, nothing, or record a request of
    [a] to [b], or take away the request of [b] to [a]. *)
Record call_effect (a b : ref) (ua ub : Z) (e : effect) : Prop := {
  ce_friends :
    on_friends e = no_change ∨ on_friends e = befriend a b ua ub ∨
    on_friends e = unfriend a b ua ub;
  ce_blocked :
    on_blocked e = no_change ∨ on_blocked e = only a (Add ub) ∨
    on_blocked e = only a (Remove ub);
  ce_requests :
    (on_incoming e = no_change ∧ on_outgoing e = no_change) ∨
    (on_incoming e = only b (Add ua) ∧ on_outgoing e = only a (Add ub)) ∨
    (on_incoming e = only a (Remove ub) ∧ on_outgoing e = only b (Remove ua))
}.

(** No set changes. *)
Definition quiet : effect :=
  {| on_friends := no_change; on_blocked := no_change;
     on_incoming := no_change; on_outgoing := no_change |}.

(** The uid and the object by which a call names its peer. *)
Definition peer_of (c : call) : option (Z * option ref) :=
  match c with
  | AddFriend u p | AcceptFriendRequest u _ p | RemoveFriend u p _
  | BlockUser u p | UnblockUser u p _ | GetMutualFriends u p => Some (u, p)
  | DescribeHuman u => Some (u, None)
  | _ => None
  end.

(** The state [w'] after the call of a method of [a] that names its peer as
    [t] says: either no set has changed, or the call has found the peer and
    has had one of its effects. *)
Definition call_changes (a : ref) (oa : Phystech) (t : option (Z * option ref))
    (w w' : World) : Prop :=
  ∃ e, sets_changed e w w' ∧
    (e = quiet ∨
     ∃ u p b ob, t = Some (u, p) ∧ __all_users w !! b = Some ob ∧
       names u p b ob ∧ call_effect a b (__uid oa) (__uid ob) e).


(** ** Histories *)

(** Every run of [m] relates the state before to the state after by [R]. *)
Definition keeps (R : relation World) {A} (m : M A) : Prop :=
  ∀ w, R w (m w).1.

(** A step that leaves the accounts and the history lists as they are. *)
Definition inert {A} (m : M A) : Prop :=
  ∀ w, __all_users (m w).1 = __all_users w ∧
       __user_history (m w).1 = __user_history w.

(** A relation that holds between states with the same accounts and the
    same history lists. *)
Class Inert (R : relation World) : Prop :=
  inert_related : ∀ w w',
    extends w w' → __all_users w' = __all_users w →
    __user_history w' = __user_history w → R w w'.

(** History lists only grow, at the end. *)
Definition grows (w w' : World) : Prop :=
  ∀ k h, __user_history w !! k = Some h →
    ∃ h', __user_history w' !! k = Some (h ++ h').

(** No history list has changed. *)
Definition same_history (w w' : World) : Prop :=
  __user_history w' = __user_history w.

(** The [last_online] attribute of every account is the time of the latest
    record of its history list. *)
Definition online_at_last_record (w : World) : Prop :=
  ∀ r o, __all_users w !! r = Some o →
    ∃ h action, __user_history w !! __uid o = Some (h ++ [(last_online o, action)]).

(** The state is extended, and the property above is kept in well-formed
    states. *)
Definition keeps_online (w w' : World) : Prop :=
  extends w w' ∧ (wf w → online_at_last_record w → online_at_last_record w').


(** ** Example states *)

(** A clock that shows the number of readings taken. *)
Definition counting_clock (n : nat) : string := pretty n.

(** The state a method leaves behind. *)
Definition after {A} (m : M A) (w : World) : World := (m w).1.

(** [Phystech(name, "login", "password", friends=friends)] *)
Definition new_account (name : string) (friends : option loc) : M ref :=
  __init__ name "login" "password" None None None friends.

(** Three accounts with uids 0, 1 and 2 and no relationship between them,
    as after the module body. *)
Definition one_account : World :=
  after (new_account "ov" None) (class_created counting_clock).
Definition two_accounts : World := after (new_account "piter" None) one_account.
Definition three_accounts : World := after (new_account "john" None) two_accounts.

(** Two accounts, and the caller has built the set [{0, 1}]; it is the set
    object 8. *)
Definition two_accounts_and_a_set : World := after (set_alloc {[0; 1]}) two_accounts.

(** Account 0 has asked account 1 to be friends, and account 1 has
    accepted. *)
Definition request_sent : World := after (invoke 0 (AddFriend 1 None)) three_accounts.
Definition two_friends : World :=
  after (invoke 1 (AcceptFriendRequest 0 true None)) request_sent.

(** Account 1 has asked account 0 to be friends. *)
Definition request_received : World :=
  after (invoke 1 (AddFriend 0 None)) three_accounts.


(** Account 0 has the friends 1 and 2; the accounts 1 and 2 were both
    constructed with the one set [{0}] that the caller built, the set
    object 4. *)
Definition shared_friends : World :=
  after (new_account "john" (Some 4%nat))
    (after (new_account "piter" (Some 4%nat))
       (after (set_alloc {[0]})
          (after (new_account "ov" (Some 0%nat))
             (after (set_alloc {[1; 2]}) (class_created counting_clock))))).

(** Account 2 was constructed with the friends 0 and 1, who do not list
    it. *)
Definition one_sided_friends : World :=
  after (new_account "john" (Some 8%nat)) two_accounts_and_a_set.

(** Account 2 is a friend of account 0 and of account 1: each of the two
    has asked, and account 2 has accepted. *)
Definition common_friend : World :=
  after (invoke 2 (AcceptFriendRequest 1 true None))
    (after (invoke 1 (AddFriend 2 None))
       (after (invoke 2 (AcceptFriendRequest 0 true None))
          (after (invoke 0 (AddFriend 2 None)) three_accounts))).

(** Account 0 has blocked account 1. *)
Definition one_blocked : World :=
  after (invoke 0 (BlockUser 1 None)) three_accounts.

(** ** The getters *)

(** The four sets of an account, the attribute that refers to each and the
    getter that returns it. *)
Inductive set_attr := FriendsSet | BlockedSet | IncomingSet | OutcomingSet.

Definition attr_of (k : set_attr) : Phystech → loc :=
  match k with
  | FriendsSet => _friends
  | BlockedSet => _block_users
  | IncomingSet => _incoming_friend_requests
  | OutcomingSet => _outcoming_friend_requests
  end.

Definition getter (k : set_attr) : ref → bool → M loc :=
  match k with
  | FriendsSet => get_friends_list
  | BlockedSet => get_block_users_list
  | IncomingSet => get_incoming_friend_requests_list
  | OutcomingSet => get_outcoming_friend_requests_list
  end.

(** The state after a sequence of calls, each by its acting account. *)
Fixpoint after_calls (cs : list (ref * call)) (w : World) : World :=
  match cs with
  | [] => w
  | (self, c) :: cs => after_calls cs (after (invoke self c) w)
  end.
(** * Proofs *)

(** ** Running the monad *)

Ltac monad_unfold :=
  cbv beta iota delta
    [mbind M_mbind M_bind mret M_mret M_ret raise attr deref strftime_gmtime
     set_last_online history_append print set_read set_write set_contains
     set_add set_remove _get_uid _get_name].

Ltac world_simpl :=
  unfold logged, w_tick, w_set_counter, w_set_users, w_set_history,
    w_set_sets, w_print;
  cbn [Phystech__uid __all_users __user_history sets stdout clock clock_reads
       w_tick w_set_counter w_set_users w_set_history w_set_sets w_print
       name status last_online __uid _birthday _friends _block_users
       _incoming_friend_requests _outcoming_friend_requests touch
       fmap option_fmap option_map].

Ltac look :=
  repeat (world_simpl;
    first
      [ rewrite list_lookup_alter_eq
      | rewrite list_lookup_alter_ne by done
      | match goal with
        | H : __all_users ?w !! ?r = Some _ |- context [__all_users ?w !! ?r] =>
            rewrite H
        | H : __user_history ?w !! ?r = Some _ |- context [__user_history ?w !! ?r] =>
            rewrite H
        end
      | rewrite lookup_insert_eq
      | rewrite lookup_insert_ne by done
      | rewrite lookup_total_insert_eq ]).

Lemma bind_Ok {A B} (m : M A) (f : A → M B) w w1 a :
  m w = (w1, Ok a) → (m ≫= f) w = f a w1.
Proof. intros H. monad_unfold. by rewrite H. Qed.

Lemma bind_Raise {A B} (m : M A) (f : A → M B) w w1 e :
  m w = (w1, Raise e) → (m ≫= f) w = (w1, Raise e).
Proof. intros H. monad_unfold. by rewrite H. Qed.

Lemma bind_assoc {A B C} (m : M A) (f : A → M B) (g : B → M C) w :
  ((m ≫= f) ≫= g) w = (m ≫= (λ x, f x ≫= g)) w.
Proof. monad_unfold. by destruct (m w) as [w' [a|e|]]. Qed.

Lemma attr_run {A} (f : Phystech → A) r o w :
  __all_users w !! r = Some o → attr f r w = (w, Ok (f o)).
Proof. intros H. monad_unfold. by rewrite H. Qed.

Lemma update_online_status_run self o action w :
  __all_users w !! self = Some o →
  is_Some (__user_history w !! __uid o) →
  _update_online_status self action w = (logged self (__uid o) action w, Ok tt).
Proof.
  intros Ho [h Hh]. unfold _update_online_status. monad_unfold. look.
  by rewrite (lookup_total_correct _ _ _ Hh).
Qed.

(** ** Looking an account up by uid *)

Lemma wf_uids_ok w : wf w → uids_ok (__all_users w).
Proof. intros Hwf r o. by apply wf_uid. Qed.

Lemma uids_ok_touch t i l : uids_ok l → uids_ok (alter (touch t) i l).
Proof.
  intros Hl r o. destruct (decide (i = r)) as [->|Hne].
  - rewrite list_lookup_alter_eq. destruct (l !! r) as [o'|] eqn:E; [|done].
    intros ?; simplify_eq/=. by apply Hl.
  - rewrite list_lookup_alter_ne by done. apply Hl.
Qed.

Lemma find_user_touch t i u l :
  fst <$> find_user u (alter (touch t) i l) = fst <$> find_user u l.
Proof.
  unfold find_user. revert i. induction l as [|o l IH]; intros i; [done|].
  assert (Hshift : ∀ x : option (nat * Phystech),
    fst <$> (prod_map S id <$> x) = S <$> (fst <$> x)) by (by intros [[??]|]).
  destruct i as [|i]; cbn [alter list_alter list_find].
  - cbn [touch __uid]. by case_decide.
  - case_decide; [done|]. rewrite !Hshift. f_equal. apply IH.
Qed.

Lemma find_user_uids_ok u (l : list Phystech) r o :
  uids_ok l → l !! r = Some o → u = __uid o → fst <$> find_user u l = Some r.
Proof.
  intros Hwf Hr ->. unfold find_user.
  destruct (list_find _ l) as [[i x]|] eqn:E.
  - apply list_find_Some in E as (Hi & Hx & _).
    apply Hwf in Hi, Hr. cbn. f_equal. lia.
  - apply list_find_None in E. rewrite Forall_forall in E.
    exfalso. eapply E; [by eapply list_elem_of_lookup_2|done].
Qed.

Lemma get_phystech_object_run u r w :
  fst <$> find_user u (__all_users w) = Some r →
  _get_phystech_object u w = (w, Ok r).
Proof.
  unfold _get_phystech_object. destruct (find_user _ _) as [[??]|]; cbn; congruence.
Qed.

Lemma resolve_run user_uid user b ob ob' w :
  names user_uid user b ob →
  __all_users w !! b = Some ob' →
  __uid ob' = __uid ob →
  uids_ok (__all_users w) →
  resolve user_uid user w = (w, Ok b).
Proof.
  intros [->|[-> ->]] Hb Hu Hwf; [done|]. cbn [resolve].
  apply get_phystech_object_run. by eapply find_user_uids_ok.
Qed.

Lemma assert_not_self_fails a msg w :
  assert_not_self a a msg w = (w, Raise (AssertionError msg)).
Proof. unfold assert_not_self. by rewrite bool_decide_eq_true_2. Qed.

Lemma assert_not_self_passes a b msg w :
  a ≠ b → assert_not_self a b msg w = (w, Ok tt).
Proof. intros. unfold assert_not_self. by rewrite bool_decide_eq_false_2. Qed.

(** Side conditions of the run lemmas, on a state reached from [w]. *)
Ltac side :=
  lazymatch goal with
  | |- uids_ok _ =>
      unfold logged; world_simpl; repeat apply uids_ok_touch;
      first [assumption | by apply wf_uids_ok]
  | |- is_Some _ =>
      unfold logged; look;
      first [by eauto | by (eapply wf_history; eauto)]
  | |- names _ _ _ _ => first [eassumption | unfold names; world_simpl; by eauto]
  | |- _ ≠ _ => by eauto
  | |- __uid _ = __uid _ => world_simpl; reflexivity
  | |- _ !! _ = Some _ => unfold logged; look; first [reflexivity | eassumption]
  end.


Lemma getter_run (f : Phystech → loc) r o action w :
  __all_users w !! r = Some o →
  (log_if false r action;; attr f r) w = (w, Ok (f o)).
Proof. intros H. monad_unfold. cbn [log_if]. monad_unfold. by rewrite H. Qed.

Lemma set_contains_run l x w :
  set_contains l x w = (w, Ok (bool_decide (x ∈ sets w !!! l))).
Proof. done. Qed.

Lemma set_add_run l x w :
  set_add l x w = (w_set_sets (<[l := {[x]} ∪ sets w !!! l]> (sets w)) w, Ok tt).
Proof. done. Qed.

Lemma set_remove_run l x w :
  x ∈ sets w !!! l →
  set_remove l x w = (w_set_sets (<[l := sets w !!! l ∖ {[x]}]> (sets w)) w, Ok tt).
Proof. intros H. monad_unfold. by rewrite bool_decide_eq_true_2. Qed.

Lemma set_remove_missing l x w :
  x ∉ sets w !!! l → set_remove l x w = (w, Raise (KeyError (PyInt x))).
Proof. intros H. monad_unfold. by rewrite bool_decide_eq_false_2. Qed.

Lemma print_run line w : print line w = (w_print line w, Ok tt).
Proof. done. Qed.

Lemma contents_at f w r o :
  __all_users w !! r = Some o → contents f w r = sets w !!! f o.
Proof. intros H. unfold contents. by rewrite H. Qed.

(** Deciding every lookup in an updated store: by the known differences
    between references first, by cases on what is left. *)
Ltac heap :=
  repeat first
    [ rewrite lookup_total_insert_eq
    | rewrite lookup_total_insert_ne by done
    | match goal with
      | H : context [<[?l := _]> _ !!! ?l] |- _ =>
          rewrite lookup_total_insert_eq in H
      | H : context [<[?l := _]> _ !!! ?l'] |- _ =>
          rewrite lookup_total_insert_ne in H by done
      | |- context [<[?l := _]> _ !!! ?l'] =>
          destruct (decide (l = l')) as [->|?]; [try done|]
      | H : context [<[?l := _]> _ !!! ?l'] |- _ =>
          destruct (decide (l = l')) as [->|?]; [try done|]
      end ].

Ltac forget_refs :=
  repeat match goal with
    | H : ?l ≠ ?l' |- _ =>
        lazymatch type of l with nat => clear H end
    end.

Ltac members := world_simpl; heap; forget_refs; set_solver.

(** The call of a method that returns a value, in a given state. *)
Ltac call_run :=
  first
    [ eapply update_online_status_run; side
    | eapply resolve_run; side
    | eapply attr_run; side
    | eapply assert_not_self_passes; side
    | apply set_contains_run
    | apply set_add_run
    | apply print_run
    | eapply set_remove_run; members
    | reflexivity ].

(** One step of a method, and all steps up to the next branch. *)
Ltac step :=
  cbv beta iota; cbn [negb log_if]; rewrite ?bind_assoc;
  erewrite bind_Ok by call_run.

Ltac store_simpl :=
  repeat first
    [ rewrite lookup_total_insert_eq
    | rewrite lookup_total_insert_ne by done ].

Ltac steps :=
  repeat (step; world_simpl; store_simpl);
  cbv beta iota; cbn [negb log_if]; world_simpl; store_simpl.

(** Taking the branch of a membership test. *)
Ltac branch_false := rewrite bool_decide_eq_false_2 by members; steps.
Ltac branch_true := rewrite bool_decide_eq_true_2 by members; steps.

Ltac methods :=
  unfold block_user, add_friend, get_mutual_friends, describe_human;
  unfold remove_friend, accept_friend_request, unblock_user;
  unfold get_block_users_list, get_friends_list,
    get_incoming_friend_requests_list, get_outcoming_friend_requests_list.

(** ** The layout of two accounts in a well-formed state *)

Lemma wf_own_friends w r o f :
  wf w → __all_users w !! r = Some o → own_loc f o ≠ _friends o.
Proof. intros Hwf Hr Heq. pose proof (wf_friends w Hwf r r o o f Hr Hr Heq). lia. Qed.

Lemma wf_own_inj w r o f g :
  wf w → __all_users w !! r = Some o → f ≠ g → own_loc f o ≠ own_loc g o.
Proof. intros Hwf Hr Hne Heq. by destruct (wf_own w Hwf r r o o f g Hr Hr Heq). Qed.

Lemma wf_apart w a b oa ob :
  wf w → __all_users w !! a = Some oa → __all_users w !! b = Some ob →
  a ≠ b → apart oa ob.
Proof.
  intros Hwf Ha Hb Hne. split.
  - rewrite (wf_uid w Hwf a oa Ha), (wf_uid w Hwf b ob Hb). lia.
  - intros f g Heq. by destruct (wf_own w Hwf a b oa ob f g Ha Hb Heq).
  - intros f g. by eapply wf_own_inj.
  - intros f g. by eapply wf_own_inj.
  - intros f. by eapply wf_own_friends.
  - intros f. by eapply wf_own_friends.
Qed.

Ltac apart_facts H :=
  pose proof (apart_uid _ _ H);
  pose proof (apart_own _ _ H Blocked Blocked);
  pose proof (apart_own _ _ H Blocked Incoming);
  pose proof (apart_own _ _ H Blocked Outcoming);
  pose proof (apart_own _ _ H Incoming Blocked);
  pose proof (apart_own _ _ H Incoming Incoming);
  pose proof (apart_own _ _ H Incoming Outcoming);
  pose proof (apart_own _ _ H Outcoming Blocked);
  pose proof (apart_own _ _ H Outcoming Incoming);
  pose proof (apart_own _ _ H Outcoming Outcoming);
  pose proof (apart_own_l _ _ H Blocked Incoming ltac:(done));
  pose proof (apart_own_l _ _ H Blocked Outcoming ltac:(done));
  pose proof (apart_own_l _ _ H Incoming Outcoming ltac:(done));
  pose proof (apart_own_r _ _ H Blocked Incoming ltac:(done));
  pose proof (apart_own_r _ _ H Blocked Outcoming ltac:(done));
  pose proof (apart_own_r _ _ H Incoming Outcoming ltac:(done));
  pose proof (apart_friends_l _ _ H Blocked);
  pose proof (apart_friends_l _ _ H Incoming);
  pose proof (apart_friends_l _ _ H Outcoming);
  pose proof (apart_friends_r _ _ H Blocked);
  pose proof (apart_friends_r _ _ H Incoming);
  pose proof (apart_friends_r _ _ H Outcoming);
  cbn [own_loc] in *.

(** Reading the views of accounts whose objects are at hand. *)
Ltac views :=
  unfold friends_of, blocked_of, incoming_of, outgoing_of in *;
  repeat match goal with
    | Hl : __all_users ?w !! ?r = Some ?o, H : context [contents ?f ?w ?r] |- _ =>
        rewrite (contents_at f w r o Hl) in H
    | Hl : __all_users ?w !! ?r = Some ?o |- context [contents ?f ?w ?r] =>
        rewrite (contents_at f w r o Hl)
    end.

(** Naming the attributes of an account. *)
Ltac open_account o :=
  let n := fresh "name_" in let s := fresh "status_" in
  let t := fresh "seen_" in let u := fresh "uid_" in
  let d := fresh "birthday_" in let f := fresh "friends_" in
  let b := fresh "blocked_" in let i := fresh "incoming_" in
  let x := fresh "outgoing_" in let g := fresh "year_" in
  let l := fresh "login_" in let p := fresh "password_" in
  destruct o as [n s t u d f b i x g l p];
  cbn [name status last_online __uid _birthday _friends _block_users
       _incoming_friend_requests _outcoming_friend_requests own_loc] in *.
(** ** Methods keep the state well-formed *)

Lemma extends_refl w : extends w w.
Proof. by split. Qed.

Lemma extends_trans w1 w2 w3 : extends w1 w2 → extends w2 w3 → extends w1 w3.
Proof.
  intros [U1 C1 S1 H1] [U2 C2 S2 H2]. split; [congruence|congruence|set_solver..].
Qed.

Lemma touch_touch t t' o : touch t (touch t' o) = touch t o.
Proof. done. Qed.

Lemma extends_lookup w w' r o' :
  extends w w' → __all_users w' !! r = Some o' →
  ∃ o, __all_users w !! r = Some o ∧ touch "" o = touch "" o'.
Proof.
  intros [U _ _ _] Hr.
  assert (Hm : (touch "" <$> __all_users w') !! r = Some (touch "" o'))
    by (by rewrite list_lookup_fmap, Hr).
  rewrite U, list_lookup_fmap in Hm.
  destruct (__all_users w !! r) as [o|]; [|done].
  exists o. split; [done|]. cbn in Hm. congruence.
Qed.

Lemma wf_extends w w' : wf w → extends w w' → wf w'.
Proof.
  intros Hwf Hext.
  assert (Hlen : length (__all_users w') = length (__all_users w)).
  { rewrite <-(length_fmap (touch "") (__all_users w')), (ext_users _ _ Hext).
    apply length_fmap. }
  assert (Hown : ∀ f o o', touch "" o = touch "" o' → own_loc f o = own_loc f o').
  { intros [] o o' [=]; done. }
  split.
  - intros r o' (o & Hr & [=])%(extends_lookup w); [|done].
    rewrite <-(wf_uid w Hwf r o Hr). congruence.
  - rewrite Hlen, (ext_counter _ _ Hext). by apply wf_counter.
  - intros r o' (o & Hr & [=])%(extends_lookup w); [|done].
    apply elem_of_dom, (ext_history _ _ Hext), elem_of_dom.
    replace (__uid o') with (__uid o) by done. by eapply wf_history.
  - intros r o' (o & Hr & [=])%(extends_lookup w); [|done].
    apply (ext_sets _ _ Hext).
    replace (_friends o') with (_friends o) by done. by eapply wf_alloc_friends.
  - intros r o' f (o & Hr & Ho)%(extends_lookup w); [|done].
    apply (ext_sets _ _ Hext). rewrite <-(Hown f o o' Ho). by eapply wf_alloc_own.
  - intros r1 r2 o1' o2' f1 f2 (o1 & Hr1 & Ho1)%(extends_lookup w)
      (o2 & Hr2 & Ho2)%(extends_lookup w); [|done..].
    rewrite <-(Hown f1 o1 o1' Ho1), <-(Hown f2 o2 o2' Ho2). by eapply wf_own.
  - intros r1 r2 o1' o2' f (o1 & Hr1 & Ho1)%(extends_lookup w)
      (o2 & Hr2 & Ho2)%(extends_lookup w); [|done..].
    rewrite <-(Hown f o1 o1' Ho1). injection Ho2 as _ _ _ _ <- _ _ _ _ _ _.
    by eapply wf_friends.
Qed.

Lemma stable_ret {A} (a : A) : stable (mret a : M A).
Proof. intros w. apply extends_refl. Qed.

Lemma stable_raise {A} e : stable (raise e : M A).
Proof. intros w. apply extends_refl. Qed.

Lemma stable_bind {A B} (m : M A) (f : A → M B) :
  stable m → (∀ a, stable (f a)) → stable (m ≫= f).
Proof.
  intros Hm Hf w. specialize (Hm w). monad_unfold.
  destruct (m w) as [w1 [a|e|]]; [|done..].
  eapply extends_trans; [exact Hm|apply Hf].
Qed.

Lemma stable_strftime_gmtime : stable strftime_gmtime.
Proof. by split. Qed.

Lemma stable_print line : stable (print line).
Proof. by split. Qed.

Lemma stable_deref r : stable (deref r).
Proof. intros w. unfold deref. destruct (_ !! _); apply extends_refl. Qed.

Lemma stable_attr {A} (f : Phystech → A) r : stable (attr f r).
Proof. apply stable_bind; [apply stable_deref|intros; apply stable_ret]. Qed.

Lemma fmap_touch_alter t t' r (l : list Phystech) :
  touch t <$> alter (touch t') r l = touch t <$> l.
Proof.
  apply list_eq. intros i. rewrite !list_lookup_fmap.
  destruct (decide (r = i)) as [->|].
  - rewrite list_lookup_alter_eq. by destruct (l !! i).
  - by rewrite list_lookup_alter_ne.
Qed.

Lemma stable_set_last_online r t : stable (set_last_online r t).
Proof.
  intros w. unfold set_last_online. destruct (_ !! _); [|apply extends_refl].
  split; [|done..]. apply fmap_touch_alter.
Qed.

Lemma stable_history_append uid rec : stable (history_append uid rec).
Proof.
  intros w. unfold history_append. destruct (_ !! _); [|apply extends_refl].
  split; [done..|]. cbn. set_solver.
Qed.

Lemma stable_set_read l : stable (set_read l).
Proof. intros w. apply extends_refl. Qed.

Lemma stable_set_write l s : stable (set_write l s).
Proof. intros w. split; [done..| |done]. cbn. set_solver. Qed.

Lemma stable_set_alloc s : stable (set_alloc s).
Proof. intros w. split; [done..| |done]. cbn. set_solver. Qed.

Lemma stable_get_phystech_object u : stable (_get_phystech_object u).
Proof.
  intros w. unfold _get_phystech_object.
  destruct (find_user _ _) as [[??]|]; apply extends_refl.
Qed.

Lemma stable_if {A} (b : bool) (m1 m2 : M A) :
  stable m1 → stable m2 → stable (if b then m1 else m2).
Proof. by destruct b. Qed.

Ltac stable :=
  repeat first
    [ apply stable_ret | apply stable_raise | apply stable_strftime_gmtime
    | apply stable_print | apply stable_attr | apply stable_deref
    | apply stable_set_last_online
    | apply stable_history_append | apply stable_set_read
    | apply stable_set_write | apply stable_set_alloc
    | apply stable_get_phystech_object
    | apply stable_bind; [|intros ?]
    | apply stable_if
    | match goal with |- stable (match ?x with _ => _ end) => destruct x end
    | progress unfold _update_online_status, log_if, resolve, assert_not_self,
        set_contains, set_add, set_remove, set_intersection, _get_uid, _get_name ].

Lemma stable_invoke self c : stable (invoke self c).
Proof.
  destruct c; cbn [invoke]; methods; stable.
Qed.

Theorem wf_invoke w self c : wf w → wf (invoke self c w).1.
Proof. intros Hwf. eapply wf_extends; [done|apply stable_invoke]. Qed.

(** ** The constructor *)

Lemma set_alloc_run s w :
  set_alloc s w =
    (w_set_sets (<[fresh (dom (sets w)) := s]> (sets w)) w, Ok (fresh (dom (sets w)))).
Proof. done. Qed.

Lemma w_set_sets_id w : w_set_sets (sets w) w = w.
Proof. by destruct w. Qed.

(** The store after [_initialize_friends]: the [_friends] set is in the
    store and no older set has changed. *)
Lemma initialize_friends_run friends w :
  (∀ l, friends = Some l → l ∈ dom (sets w)) →
  ∃ fr H0,
    _initialize_friends friends w = (w_set_sets H0 w, Ok fr) ∧
    fr ∈ dom H0 ∧
    dom (sets w) ⊆ dom H0 ∧
    (∀ l, l ∈ dom (sets w) → H0 !!! l = sets w !!! l) ∧
    H0 !!! fr = match friends with Some l => sets w !!! l | None => ∅ end ∧
    (∀ l, friends = Some l → sets w !!! l ≠ ∅ → fr = l) ∧
    (friends = None → fr ∉ dom (sets w)).
Proof.
  intros Hcaller.
  pose proof (is_fresh (dom (sets w))) as Hfresh.
  set (fr := fresh (dom (sets w))) in *.
  assert (fr ∈ dom (<[fr:=∅]> (sets w)) ∧
    dom (sets w) ⊆ dom (<[fr:=∅]> (sets w)) ∧
    (∀ l, l ∈ dom (sets w) → <[fr:=∅]> (sets w) !!! l = sets w !!! l) ∧
    <[fr:=∅]> (sets w) !!! fr = ∅) as (Hin & Hsub & Hold & Hempty).
  { split_and!; [set_solver|set_solver| |by rewrite lookup_total_insert_eq].
    intros l Hl. rewrite lookup_total_insert_ne; [done|]. by intros ->. }
  destruct friends as [l|]; cbn [_initialize_friends].
  - monad_unfold. case_bool_decide as Hl.
    + exists fr, (<[fr:=∅]> (sets w)).
      split_and!; [done..| |by intros ? [= ->]|done].
      by rewrite Hempty, Hl.
    + exists l, (sets w).
      split_and!; [|by apply Hcaller|done..|by intros ? [= ->]|done].
      by rewrite w_set_sets_id.
  - by exists fr, (<[fr:=∅]> (sets w)).
Qed.

(** The state [__init__] leaves behind. *)
Lemma init_run name login password graduation_year birthday status friends w :
  (∀ l, friends = Some l → l ∈ dom (sets w)) →
  ∃ fr H0,
    let l1 := fresh (dom H0) in
    let H1 := <[l1:=∅]> H0 in
    let l2 := fresh (dom H1) in
    let H2 := <[l2:=∅]> H1 in
    let l3 := fresh (dom H2) in
    let now := clock w (clock_reads w) in
    let self :=
      {| name := name; status := status; last_online := now;
         __uid := Phystech__uid w; _birthday := birthday; _friends := fr;
         _block_users := l1; _incoming_friend_requests := l2;
         _outcoming_friend_requests := l3;
         _graduation_year := graduation_year;
         __login := login; __password := password |} in
    __init__ name login password graduation_year birthday status friends w =
      ({| Phystech__uid := Phystech__uid w + 1;
          __all_users := __all_users w ++ [self];
          __user_history :=
            <[Phystech__uid w := [(now, "Create an account"%string)]]> (__user_history w);
          sets := <[l3:=∅]> H2;
          stdout := stdout w;
          clock := clock w;
          clock_reads := S (clock_reads w) |},
       Ok (length (__all_users w))) ∧
    fr ∈ dom H0 ∧
    dom (sets w) ⊆ dom H0 ∧
    (∀ l, l ∈ dom (sets w) → H0 !!! l = sets w !!! l) ∧
    H0 !!! fr = match friends with Some l => sets w !!! l | None => ∅ end ∧
    (∀ l, friends = Some l → sets w !!! l ≠ ∅ → fr = l) ∧
    (friends = None → fr ∉ dom (sets w)).
Proof.
  intros Hcaller.
  destruct (initialize_friends_run friends
    (w_set_counter (Phystech__uid w + 1) (w_tick w)) Hcaller)
    as (fr & H0 & Hrun & Hrest).
  exists fr, H0. split; [|exact Hrest].
  unfold __init__.
  erewrite bind_Ok by reflexivity.
  erewrite bind_Ok by reflexivity.
  erewrite bind_Ok by exact Hrun.
  repeat (erewrite bind_Ok by apply set_alloc_run; world_simpl).
  erewrite bind_Ok by reflexivity.
  erewrite bind_Ok by reflexivity.
  reflexivity.
Qed.

Lemma wf_class_created clk : wf (class_created clk).
Proof. split; try done; intros []; done. Qed.

Lemma wf_set_alloc s w : wf w → wf (set_alloc s w).1.
Proof. intros Hwf. eapply wf_extends; [done|apply stable_set_alloc]. Qed.

Lemma wf_init name login password graduation_year birthday status friends w :
  wf w → (∀ l, friends = Some l → l ∈ dom (sets w)) →
  wf (__init__ name login password graduation_year birthday status friends w).1.
Proof.
  intros Hwf Hcaller.
  destruct (init_run name login password graduation_year birthday status
    friends w Hcaller) as (fr & H0 & Hrun & Hfr & Hdom & _).
  cbv zeta in Hrun. rewrite Hrun. clear Hrun. cbn [fst].
  pose proof (is_fresh (dom H0)) as F1.
  pose proof (is_fresh (dom (<[fresh (dom H0):=∅]> H0))) as F2.
  pose proof (is_fresh (dom (<[fresh (dom (<[fresh (dom H0):=∅]> H0)):=∅]>
    (<[fresh (dom H0):=∅]> H0)))) as F3.
  set (l1 := fresh (dom H0)) in *.
  set (l2 := fresh (dom (<[l1:=∅]> H0))) in *.
  set (l3 := fresh (dom (<[l2:=∅]> (<[l1:=∅]> H0)))) in *.
  rewrite ?dom_insert_L in F2, F3.
  set (self := Build_Phystech _ _ _ _ _ _ _ _ _ _ _ _).
  assert (Hnew : ∀ f, (own_loc f self ∉ dom H0) ∧ own_loc f self ≠ fr).
  { intros []; cbn; split; set_solver. }
  assert (Hinj : ∀ f g, own_loc f self = own_loc g self → f = g).
  { intros [] []; cbn; set_solver. }
  assert (Hlook : ∀ r o, (__all_users w ++ [self]) !! r = Some o →
    (__all_users w !! r = Some o ∧ (r < length (__all_users w))%nat) ∨
    (r = length (__all_users w) ∧ o = self)).
  { intros r o [[??]|[??]]%lookup_snoc_Some; [left|right]; done. }
  split; cbn [__all_users Phystech__uid __user_history sets].
  - intros r o [[Hr _]|[-> ->]]%Hlook; [by eapply wf_uid|].
    cbn. by apply wf_counter.
  - rewrite length_app, (wf_counter w Hwf). cbn. lia.
  - intros r o Hr. rewrite lookup_insert.
    case_decide; [done|]. apply Hlook in Hr as [[Hr _]|[-> ->]]; [by eapply wf_history|done].
  - intros r o [[Hr _]|[-> ->]]%Hlook; rewrite !dom_insert_L.
    + pose proof (wf_alloc_friends w Hwf r o Hr). set_solver.
    + cbn. set_solver.
  - intros r o f [[Hr _]|[-> ->]]%Hlook; rewrite !dom_insert_L.
    + pose proof (wf_alloc_own w Hwf r o f Hr). set_solver.
    + destruct f; cbn; set_solver.
  - intros r1 r2 o1 o2 f1 f2 [[Hr1 _]|[-> ->]]%Hlook [[Hr2 _]|[-> ->]]%Hlook Heq.
    + by eapply wf_own.
    + pose proof (wf_alloc_own w Hwf r1 o1 f1 Hr1).
      destruct (Hnew f2) as [? _]. rewrite <-Heq in *. set_solver.
    + pose proof (wf_alloc_own w Hwf r2 o2 f2 Hr2).
      destruct (Hnew f1) as [? _]. rewrite Heq in *. set_solver.
    + split; [done|by apply Hinj].
  - intros r1 r2 o1 o2 f [[Hr1 Hlt]|[-> ->]]%Hlook [[Hr2 _]|[-> ->]]%Hlook Heq.
    + by eapply wf_friends.
    + done.
    + pose proof (wf_alloc_friends w Hwf r2 o2 Hr2).
      destruct (Hnew f) as [? _]. rewrite Heq in *. set_solver.
    + by destruct (Hnew f) as [_ ?].
Qed.

(** ** Unknown uids *)

Lemma find_user_None u l :
  find_user u l = None ↔ ∀ r o, l !! r = Some o → __uid o ≠ u.
Proof.
  unfold find_user. rewrite list_find_None, Forall_lookup. done.
Qed.

Lemma find_user_Some u l r o :
  find_user u l = Some (r, o) → l !! r = Some o ∧ __uid o = u.
Proof. unfold find_user. intros (? & ? & _)%list_find_Some. done. Qed.

Lemma get_phystech_object_missing u w :
  ¬ known w u → _get_phystech_object u w = (w, Raise (not_found u)).
Proof.
  intros Hk. unfold _get_phystech_object.
  destruct (find_user _ _) as [[r o]|] eqn:E; [|done].
  apply find_user_Some in E as [??]. destruct Hk. by exists r, o.
Qed.

Lemma known_logged w a uid action u :
  known (logged a uid action w) u ↔ known w u.
Proof.
  unfold known, logged. world_simpl. split; intros (r & o & Hr & Ho).
  - destruct (decide (a = r)) as [->|].
    + rewrite list_lookup_alter_eq in Hr.
      destruct (__all_users w !! r) as [o'|] eqn:E; simplify_eq/=. by exists r, o'.
    + rewrite list_lookup_alter_ne in Hr by done. by exists r, o.
  - destruct (decide (a = r)) as [->|].
    + exists r, (touch (clock w (clock_reads w)) o).
      by rewrite list_lookup_alter_eq, Hr.
    + exists r, o. by rewrite list_lookup_alter_ne.
Qed.

Lemma NoDup_uid_inj (l : list Phystech) o o' :
  NoDup (__uid <$> l) → o ∈ l → o' ∈ l → __uid o = __uid o' → o = o'.
Proof.
  induction l as [|x l IH]; [by intros _ ?%elem_of_nil|].
  rewrite fmap_cons, NoDup_cons, !elem_of_cons, list_elem_of_fmap.
  intros [Hx Hnd] [->|Ho] [->|Ho'] Heq; [done| | |by apply IH].
  - destruct Hx. by exists o'.
  - destruct Hx. by exists o.
Qed.

(** The order in which the objects are visited is immaterial. *)
Lemma find_user_any_order u (l l' : list Phystech) :
  l ≡ₚ l' → NoDup (__uid <$> l) →
  snd <$> find_user u l = snd <$> find_user u l'.
Proof.
  intros Hp Hnd.
  destruct (find_user u l) as [[r o]|] eqn:E, (find_user u l') as [[r' o']|] eqn:E';
    cbn; [|exfalso..|done].
  - apply find_user_Some in E as [Hr Ho], E' as [Hr' Ho'].
    f_equal. apply list_elem_of_lookup_2 in Hr, Hr'. rewrite <-Hp in Hr'.
    apply (NoDup_uid_inj l); [done..|congruence].
  - apply find_user_Some in E as [Hr Ho].
    apply list_elem_of_lookup_2 in Hr. rewrite Hp in Hr.
    apply list_elem_of_lookup_1 in Hr as [r' Hr'].
    by eapply (proj1 (find_user_None u l')).
  - apply find_user_Some in E' as [Hr Ho].
    apply list_elem_of_lookup_2 in Hr. rewrite <-Hp in Hr.
    apply list_elem_of_lookup_1 in Hr as [r0 Hr0].
    by eapply (proj1 (find_user_None u l)).
Qed.


(** ** Calls on the acting account itself *)

Lemma self_target_run w a oa c user_uid user msg :
  wf w → __all_users w !! a = Some oa →
  checks_self c = Some (user_uid, user, msg) →
  names user_uid user a oa →
  invoke a c w =
    (if logs c then logged a (__uid oa) (label c) w else w,
     Raise (AssertionError msg)).
Proof.
  intros Hwf Ha Hc Hn.
  destruct c; simplify_eq/=; methods; try destruct flag; steps;
    by erewrite bind_Raise by apply assert_not_self_fails.
Qed.

Lemma history_of_logged w a oa action :
  __all_users w !! a = Some oa →
  is_Some (__user_history w !! __uid oa) →
  history_of (logged a (__uid oa) action w) a =
    history_of w a ++ [(clock w (clock_reads w), action)].
Proof.
  intros Ha [h Hh]. unfold history_of. look.
  by rewrite (lookup_total_correct _ _ _ Hh).
Qed.

Lemma last_online_of_logged w a oa uid action :
  __all_users w !! a = Some oa →
  last_online_of (logged a uid action w) a = Some (clock w (clock_reads w)).
Proof. intros Ha. unfold last_online_of. by look. Qed.


(** ** Example states are well-formed *)

Lemma wf_after_invoke self c w : wf w → wf (after (invoke self c) w).
Proof. unfold after. apply wf_invoke. Qed.

Lemma wf_after_new_account name w : wf w → wf (after (new_account name None) w).
Proof. intros Hwf. unfold after, new_account. by apply wf_init. Qed.

Lemma wf_three_accounts : wf three_accounts.
Proof.
  unfold three_accounts. apply wf_after_new_account.
  unfold two_accounts. apply wf_after_new_account.
  unfold one_account. apply wf_after_new_account.
  apply wf_class_created.
Qed.

Lemma wf_two_accounts : wf two_accounts.
Proof.
  unfold two_accounts. apply wf_after_new_account.
  unfold one_account. apply wf_after_new_account.
  apply wf_class_created.
Qed.

Lemma wf_two_accounts_and_a_set : wf two_accounts_and_a_set.
Proof. apply wf_set_alloc, wf_two_accounts. Qed.


(** ** How the methods change friendships *)

Lemma same_layout_lookup (l l' : list Phystech) r o' :
  touch "" <$> l' = touch "" <$> l → l' !! r = Some o' →
  ∃ o, l !! r = Some o ∧ touch "" o = touch "" o'.
Proof.
  intros U Hr.
  assert (Hm : (touch "" <$> l') !! r = Some (touch "" o'))
    by (by rewrite list_lookup_fmap, Hr).
  rewrite U, list_lookup_fmap in Hm.
  destruct (l !! r) as [o|]; [|done].
  exists o. split; [done|]. cbn in Hm. congruence.
Qed.

Lemma friends_of_changed d w w' r o :
  friends_changed d w w' → __all_users w !! r = Some o →
  friends_of w' r = apply_change (d r) (friends_of w r).
Proof.
  intros [U F] Hr. unfold friends_of, contents. rewrite Hr.
  destruct (__all_users w' !! r) as [o'|] eqn:Hr'.
  - destruct (same_layout_lookup _ _ _ _ U Hr') as (o0 & Hr0 & [=]).
    rewrite Hr in Hr0. injection Hr0 as <-.
    replace (_friends o') with (_friends o) by done. by apply F.
  - apply (f_equal (fmap (touch ""))) in Hr'.
    rewrite <-list_lookup_fmap, U, list_lookup_fmap, Hr in Hr'. done.
Qed.

Lemma symmetric_changed d w w' :
  uids_ok (__all_users w) → symmetric w → friends_changed d w w' →
  (d = no_change ∨
   ∃ a b oa ob, __all_users w !! a = Some oa ∧ __all_users w !! b = Some ob ∧
     (d = befriend a b (__uid oa) (__uid ob) ∨
      d = unfriend a b (__uid oa) (__uid ob))) →
  symmetric w'.
Proof.
  intros Huid Hsym Hch Hd r1 r2 o1' o2' Hr1' Hr2'.
  destruct (same_layout_lookup _ _ _ _ (changed_users _ _ _ Hch) Hr1')
    as (o1 & Hr1 & [=]).
  destruct (same_layout_lookup _ _ _ _ (changed_users _ _ _ Hch) Hr2')
    as (o2 & Hr2 & [=]).
  rewrite (friends_of_changed d w w' r1 o1), (friends_of_changed d w w' r2 o2)
    by done.
  replace (__uid o1') with (__uid o1) by done.
  replace (__uid o2') with (__uid o2) by done.
  specialize (Hsym r1 r2 o1 o2 Hr1 Hr2).
  destruct Hd as [->|(a & b & oa & ob & Ha & Hb & [->| ->])]; [done| |].
  - pose proof (Huid _ _ Hr1). pose proof (Huid _ _ Hr2).
    pose proof (Huid _ _ Ha). pose proof (Huid _ _ Hb).
    unfold befriend. repeat case_decide; simplify_eq; cbn [apply_change];
      set_solver by lia.
  - pose proof (Huid _ _ Hr1). pose proof (Huid _ _ Hr2).
    pose proof (Huid _ _ Ha). pose proof (Huid _ _ Hb).
    unfold unfriend. repeat case_decide; simplify_eq; cbn [apply_change];
      set_solver by lia.
Qed.

(** What [resolve] does in any state. *)
Lemma resolve_cases u p w :
  uids_ok (__all_users w) →
  (∀ b, p = Some b → is_Some (__all_users w !! b)) →
  (∃ b ob, __all_users w !! b = Some ob ∧ names u p b ob ∧
     resolve u p w = (w, Ok b)) ∨
  resolve u p w = (w, Raise (not_found u)).
Proof.
  intros Huid Hp. destruct p as [b|]; cbn [resolve].
  - destruct (Hp b eq_refl) as [ob Hb]. left. exists b, ob. split_and!; [done|by left|done].
  - unfold _get_phystech_object.
    destruct (find_user u (__all_users w)) as [[b ob]|] eqn:E; [|by right].
    apply find_user_Some in E as [Hb Hu]. left. exists b, ob.
    split_and!; [done|by right|done].
Qed.

Lemma unshared_ne w r1 r2 o1 o2 :
  friends_unshared w → r1 ≠ r2 →
  __all_users w !! r1 = Some o1 → __all_users w !! r2 = Some o2 →
  _friends o1 ≠ _friends o2.
Proof. intros Hun Hne H1 H2 Heq. by apply Hne, (unshared_friends w Hun r1 r2 o1 o2). Qed.

Ltac fact H :=
  let F := fresh "F" in
  pose proof H as F; cbn [own_loc _friends] in F.

Ltac unshared_facts Hun Ha Hb :=
  fact (unshared_own _ Hun _ _ _ _ Blocked Ha Hb);
  fact (unshared_own _ Hun _ _ _ _ Incoming Ha Hb);
  fact (unshared_own _ Hun _ _ _ _ Outcoming Ha Hb).

Ltac unshared_setup Hun Ha Hb Hne :=
  unshared_facts Hun Ha Hb; unshared_facts Hun Hb Ha;
  unshared_facts Hun Ha Ha; unshared_facts Hun Hb Hb;
  fact (unshared_ne _ _ _ _ _ Hun Hne Ha Hb).

Ltac two_accounts_setup Hwf Ha Hb Hne :=
  let Hap := fresh "Hap" in
  pose proof (wf_apart _ _ _ _ _ Hwf Ha Hb Hne) as Hap; apart_facts Hap; clear Hap;
  let ha := fresh "ha" in let Hha := fresh "Hha" in
  pose proof (wf_history _ Hwf _ _ Ha) as [ha Hha];
  let hb := fresh "hb" in let Hhb := fresh "Hhb" in
  pose proof (wf_history _ Hwf _ _ Hb) as [hb Hhb];
  views.

(** The sets of an arbitrary account [r] in the final state, by cases on
    [r] being one of the two accounts of the call. *)
Ltac sets_of_any Hwf Hun a Ha b Hb r o Hr :=
  let Ea := fresh "Ea" in let Na := fresh "Na" in
  let Eb := fresh "Eb" in let Nb := fresh "Nb" in
  destruct (decide (r = a)) as [Ea|Na]; destruct (decide (r = b)) as [Eb|Nb];
  [ subst r; first [ done | rewrite Ha in Hr; injection Hr as <- ]
  | subst r; rewrite Ha in Hr; injection Hr as <-
  | subst r; rewrite Hb in Hr; injection Hr as <-
  | unshared_facts Hun Ha Hr; unshared_facts Hun Hb Hr;
    unshared_facts Hun Hr Ha; unshared_facts Hun Hr Hb;
    fact (unshared_ne _ _ _ _ _ Hun Na Hr Ha);
    fact (unshared_ne _ _ _ _ _ Hun Nb Hr Hb);
    let Hap := fresh "Hap" in
    pose proof (wf_apart _ _ _ _ _ Hwf Hr Ha Na) as Hap; apart_facts Hap; clear Hap;
    pose proof (wf_apart _ _ _ _ _ Hwf Hr Hb Nb) as Hap; apart_facts Hap; clear Hap ].

Ltac one_set Hwf Hun a Ha b Hb :=
  let r := fresh "r" in let o := fresh "o" in let Hr := fresh "Hr" in
  intros r o Hr; world_simpl;
  sets_of_any Hwf Hun a Ha b Hb r o Hr;
  cbn [on_friends on_blocked on_incoming on_outgoing];
  unfold no_change, befriend, unfriend, only;
  repeat first [rewrite decide_True by done | rewrite decide_False by done];
  cbn [apply_change _friends _block_users _incoming_friend_requests
       _outcoming_friend_requests];
  store_simpl;
  first [done | timeout 20 set_solver].

Ltac is_effect :=
  split; cbn [on_friends on_blocked on_incoming on_outgoing];
  first [ by left | by right; left | by right; right ].

(** The leaf of a path: the sets of every account in the final state. *)
Ltac effect_leaf Hwf Hun a Ha b Hb Hn e :=
  rewrite ?print_run; cbv beta iota delta [mret M_mret M_ret fst];
  exists e; split;
  [ split;
    [ world_simpl; by rewrite ?fmap_touch_alter
    | one_set Hwf Hun a Ha b Hb ..]
  | first [ by left
          | right; do 2 eexists; exists b; eexists;
            split_and!; [reflexivity|exact Hb|exact Hn|is_effect] ] ].

(** The two outcomes of [set.remove]. *)
Ltac simpl_member H :=
  cbn [Phystech__uid __all_users __user_history sets stdout clock clock_reads] in H;
  repeat first
    [ rewrite lookup_total_insert_eq in H
    | rewrite lookup_total_insert_ne in H by done ].

Ltac remove_cases :=
  rewrite ?bind_assoc;
  lazymatch goal with
  | |- context [(set_remove ?l ?x ≫= ?f) ?W] =>
      let Hin := fresh "Hin" in
      destruct (decide (x ∈ sets W !!! l)) as [Hin|Hin];
      [ erewrite (bind_Ok (set_remove l x) f W) by (apply set_remove_run; exact Hin)
      | erewrite (bind_Raise (set_remove l x) f W) by (apply set_remove_missing; exact Hin) ];
      simpl_member Hin
  | |- context [set_remove ?l ?x ?W] =>
      let Hin := fresh "Hin" in
      destruct (decide (x ∈ sets W !!! l)) as [Hin|Hin];
      [ rewrite (set_remove_run l x W Hin)
      | rewrite (set_remove_missing l x W Hin) ];
      simpl_member Hin
  end;
  world_simpl; store_simpl.

(** Entering a method: the record is written and the peer is looked up. *)
Ltac enter w a oa Hwf Ha Hp action :=
  let ha := fresh "ha" in let Hha := fresh "Hha" in
  pose proof (wf_history _ Hwf _ _ Ha) as [ha Hha];
  methods; try step;
  lazymatch goal with
  | |- context [(resolve ?u ?p ≫= _) ?W] =>
      let b := fresh "b" in let ob := fresh "ob" in
      let Hb := fresh "Hb" in let Hn := fresh "Hn" in let Hrun := fresh "Hrun" in
      destruct (resolve_cases u p W) as [(b & ob & Hb & Hn & Hrun)|Hrun];
      [ side
      | world_simpl;
        let b' := fresh b in let Hb' := fresh "Hb" in
        intros b' Hb'; destruct (Hp b' Hb') as [? ?];
        destruct (decide (a = b')) as [->|]; look; eauto
      | erewrite bind_Ok by exact Hrun; clear Hrun
      | erewrite bind_Raise by exact Hrun ]
  end.

(** The peer that [resolve] found in the state after the record was
    written, seen in the state before. *)
Lemma lookup_logged_back w a uid action b ob' u p :
  __all_users (logged a uid action w) !! b = Some ob' →
  names u p b ob' →
  ∃ ob, __all_users w !! b = Some ob ∧ names u p b ob.
Proof.
  unfold logged. world_simpl. intros Hb Hn.
  destruct (decide (a = b)) as [->|].
  - rewrite list_lookup_alter_eq in Hb.
    destruct (__all_users w !! b) as [ob|]; simplify_eq/=. by exists ob.
  - rewrite list_lookup_alter_ne in Hb by done. by exists ob'.
Qed.

Lemma add_friend_call_effect w a oa u p :
  wf w → friends_unshared w → __all_users w !! a = Some oa →
  (∀ b, p = Some b → is_Some (__all_users w !! b)) →
  call_changes a oa (Some (u, p)) w (add_friend a u p w).1.
Proof.
  intros Hwf Hun Ha Hp. enter w a oa Hwf Ha Hp "Add friend".
  2: { effect_leaf Hwf Hun a Ha a Ha Ha quiet. }
  destruct (lookup_logged_back _ _ _ _ _ _ _ _ Hb Hn) as (ob' & Hb' & Hn').
  clear Hb Hn. destruct (decide (a = b)) as [->|Hne].
  { erewrite bind_Raise by apply assert_not_self_fails.
    effect_leaf Hwf Hun b Ha b Ha Ha quiet. }
  two_accounts_setup Hwf Ha Hb' Hne.
  unshared_setup Hun Ha Hb' Hne.
  open_account oa. open_account ob'.
  steps. (case_bool_decide; steps).
  { effect_leaf Hwf Hun a Ha b Hb' Hn' quiet. }
  (case_bool_decide; steps).
  { effect_leaf Hwf Hun a Ha b Hb' Hn' quiet. }
  (case_bool_decide; steps).
  { effect_leaf Hwf Hun a Ha b Hb' Hn' quiet. }
  (case_bool_decide; steps).
  - effect_leaf Hwf Hun a Ha b Hb' Hn'
      (Build_effect no_change (only a (Remove uid_0)) (only b (Add uid_)) (only a (Add uid_0))).
  - effect_leaf Hwf Hun a Ha b Hb' Hn'
      (Build_effect no_change (only a (Remove uid_0)) (only b (Add uid_)) (only a (Add uid_0))).
Qed.

(** The acting account alone. *)
Ltac one_account_setup Hwf Ha :=
  fact (wf_own_inj _ _ _ Blocked Incoming Hwf Ha ltac:(done));
  fact (wf_own_inj _ _ _ Blocked Outcoming Hwf Ha ltac:(done));
  fact (wf_own_inj _ _ _ Incoming Outcoming Hwf Ha ltac:(done));
  fact (wf_own_friends _ _ _ Blocked Hwf Ha);
  fact (wf_own_friends _ _ _ Incoming Hwf Ha);
  fact (wf_own_friends _ _ _ Outcoming Hwf Ha).

Lemma unblock_user_call_effect w a oa u p flag :
  wf w → friends_unshared w → __all_users w !! a = Some oa →
  (∀ b, p = Some b → is_Some (__all_users w !! b)) →
  call_changes a oa (Some (u, p)) w (unblock_user a u p flag w).1.
Proof.
  intros Hwf Hun Ha Hp. destruct flag.
  - enter w a oa Hwf Ha Hp "Unblock user".
    2: { effect_leaf Hwf Hun a Ha a Ha Ha quiet. }
    destruct (lookup_logged_back _ _ _ _ _ _ _ _ Hb Hn) as (ob' & Hb' & Hn').
    clear Hb Hn. destruct (decide (a = b)) as [->|Hne].
    { erewrite bind_Raise by apply assert_not_self_fails.
      effect_leaf Hwf Hun b Ha b Ha Ha quiet. }
    two_accounts_setup Hwf Ha Hb' Hne.
    unshared_setup Hun Ha Hb' Hne.
    open_account oa. open_account ob'.
    steps. case_bool_decide; steps;
      effect_leaf Hwf Hun a Ha b Hb' Hn'
        (Build_effect no_change (only a (Remove uid_0)) no_change no_change).
  - pose proof (wf_uids_ok w Hwf). enter w a oa Hwf Ha Hp "Unblock user".
    2: { effect_leaf Hwf Hun a Ha a Ha Ha quiet. }
    destruct (decide (a = b)) as [->|Hne].
    { erewrite bind_Raise by apply assert_not_self_fails.
      effect_leaf Hwf Hun b Ha b Ha Ha quiet. }
    two_accounts_setup Hwf Ha Hb Hne.
    unshared_setup Hun Ha Hb Hne.
    open_account oa. open_account ob.
    steps. case_bool_decide; steps;
      effect_leaf Hwf Hun a Ha b Hb Hn
        (Build_effect no_change (only a (Remove uid_0)) no_change no_change).
Qed.

Lemma remove_friend_call_effect w a oa u p flag :
  wf w → friends_unshared w → __all_users w !! a = Some oa →
  (∀ b, p = Some b → is_Some (__all_users w !! b)) →
  call_changes a oa (Some (u, p)) w (remove_friend a u p flag w).1.
Proof.
  intros Hwf Hun Ha Hp. enter w a oa Hwf Ha Hp "Remove friend".
  2: { effect_leaf Hwf Hun a Ha a Ha Ha quiet. }
  destruct (lookup_logged_back _ _ _ _ _ _ _ _ Hb Hn) as (ob' & Hb' & Hn').
  clear Hb Hn. destruct (decide (a = b)) as [->|Hne].
  { erewrite bind_Raise by apply assert_not_self_fails.
    effect_leaf Hwf Hun b Ha b Ha Ha quiet. }
  two_accounts_setup Hwf Ha Hb' Hne.
  unshared_setup Hun Ha Hb' Hne.
  open_account oa. open_account ob'.
  steps. (case_bool_decide; steps).
  - remove_cases; steps;
      effect_leaf Hwf Hun a Ha b Hb' Hn'
        (Build_effect (unfriend a b uid_ uid_0) no_change no_change no_change).
  - destruct flag; steps; effect_leaf Hwf Hun a Ha b Hb' Hn' quiet.
Qed.

Lemma accept_friend_request_call_effect w a oa u decision p :
  wf w → friends_unshared w → __all_users w !! a = Some oa →
  (∀ b, p = Some b → is_Some (__all_users w !! b)) →
  call_changes a oa (Some (u, p)) w (accept_friend_request a u decision p w).1.
Proof.
  intros Hwf Hun Ha Hp. enter w a oa Hwf Ha Hp "Accept friend".
  2: { effect_leaf Hwf Hun a Ha a Ha Ha quiet. }
  destruct (lookup_logged_back _ _ _ _ _ _ _ _ Hb Hn) as (ob' & Hb' & Hn').
  clear Hb Hn. destruct (decide (a = b)) as [->|Hne].
  - rewrite Ha in Hb'. injection Hb' as <-.
    one_account_setup Hwf Ha. unshared_facts Hun Ha Ha. open_account oa.
    steps. case_bool_decide; steps.
    + destruct decision; steps; remove_cases;
        [ effect_leaf Hwf Hun b Ha b Ha Hn'
            (Build_effect (befriend b b uid_ uid_) no_change
               (only b (Remove uid_)) (only b (Remove uid_)))..
        | effect_leaf Hwf Hun b Ha b Ha Hn'
            (Build_effect no_change no_change
               (only b (Remove uid_)) (only b (Remove uid_)))
        | effect_leaf Hwf Hun b Ha b Ha Hn'
            (Build_effect no_change no_change
               (only b (Remove uid_)) (only b (Remove uid_))) ].
    + effect_leaf Hwf Hun b Ha b Ha Hn' quiet.
  - two_accounts_setup Hwf Ha Hb' Hne.
    unshared_setup Hun Ha Hb' Hne.
    open_account oa. open_account ob'.
    steps. case_bool_decide; steps.
    + destruct decision; steps; remove_cases;
        [ effect_leaf Hwf Hun a Ha b Hb' Hn'
            (Build_effect (befriend a b uid_ uid_0) no_change
               (only a (Remove uid_0)) (only b (Remove uid_)))..
        | effect_leaf Hwf Hun a Ha b Hb' Hn'
            (Build_effect no_change no_change
               (only a (Remove uid_0)) (only b (Remove uid_)))
        | effect_leaf Hwf Hun a Ha b Hb' Hn'
            (Build_effect no_change no_change
               (only a (Remove uid_0)) (only b (Remove uid_))) ].
    + effect_leaf Hwf Hun a Ha b Hb' Hn' quiet.
Qed.

Lemma block_user_call_effect w a oa u p :
  wf w → friends_unshared w → __all_users w !! a = Some oa →
  (∀ b, p = Some b → is_Some (__all_users w !! b)) →
  call_changes a oa (Some (u, p)) w (block_user a u p w).1.
Proof.
  intros Hwf Hun Ha Hp. enter w a oa Hwf Ha Hp "Block user".
  2: { effect_leaf Hwf Hun a Ha a Ha Ha quiet. }
  destruct (lookup_logged_back _ _ _ _ _ _ _ _ Hb Hn) as (ob' & Hb' & Hn').
  clear Hb Hn. destruct (decide (a = b)) as [->|Hne].
  { erewrite bind_Raise by apply assert_not_self_fails.
    effect_leaf Hwf Hun b Ha b Ha Ha quiet. }
  two_accounts_setup Hwf Ha Hb' Hne.
  unshared_setup Hun Ha Hb' Hne.
  open_account oa. open_account ob'.
  steps. case_bool_decide; steps.
  { effect_leaf Hwf Hun a Ha b Hb' Hn' quiet. }
  case_bool_decide; steps.
  - remove_cases; steps.
    2: { effect_leaf Hwf Hun a Ha b Hb' Hn'
           (Build_effect (unfriend a b uid_ uid_0) (only a (Add uid_0))
              no_change no_change). }
    case_bool_decide; steps.
    + remove_cases; steps;
        effect_leaf Hwf Hun a Ha b Hb' Hn'
          (Build_effect (unfriend a b uid_ uid_0) (only a (Add uid_0))
             (only a (Remove uid_0)) (only b (Remove uid_))).
    + effect_leaf Hwf Hun a Ha b Hb' Hn'
        (Build_effect (unfriend a b uid_ uid_0) (only a (Add uid_0))
           no_change no_change).
  - case_bool_decide; steps.
    + remove_cases; steps;
        effect_leaf Hwf Hun a Ha b Hb' Hn'
          (Build_effect no_change (only a (Add uid_0))
             (only a (Remove uid_0)) (only b (Remove uid_))).
    + effect_leaf Hwf Hun a Ha b Hb' Hn'
        (Build_effect no_change (only a (Add uid_0)) no_change no_change).
Qed.

Lemma get_mutual_friends_call_effect w a oa u p :
  wf w → friends_unshared w → __all_users w !! a = Some oa →
  (∀ b, p = Some b → is_Some (__all_users w !! b)) →
  call_changes a oa (Some (u, p)) w (get_mutual_friends a u p w).1.
Proof.
  intros Hwf Hun Ha Hp. enter w a oa Hwf Ha Hp "Get mutual friends".
  2: { effect_leaf Hwf Hun a Ha a Ha Ha quiet. }
  destruct (lookup_logged_back _ _ _ _ _ _ _ _ Hb Hn) as (ob' & Hb' & Hn').
  clear Hb Hn.
  pose proof (is_fresh (dom (sets w))) as Hfresh.
  assert (Hnew : ∀ r o, __all_users w !! r = Some o →
    fresh (dom (sets w)) ≠ _friends o ∧ ∀ f, fresh (dom (sets w)) ≠ own_loc f o).
  { intros r o Hr. split; [|intros f]; intros Heq; rewrite Heq in Hfresh;
      apply Hfresh; [by eapply wf_alloc_friends|by eapply wf_alloc_own]. }
  assert (Hquiet : ∀ t h out,
    sets_changed quiet w
      {| Phystech__uid := Phystech__uid w;
         __all_users := alter (touch t) a (__all_users w);
         __user_history := h;
         sets := <[fresh (dom (sets w)) := out]> (sets w);
         stdout := stdout w; clock := clock w;
         clock_reads := S (clock_reads w) |}).
  { intros t h out. split; world_simpl.
    - by rewrite fmap_touch_alter.
    - intros r o Hr. destruct (Hnew r o Hr) as [? _]. by store_simpl.
    - intros r o Hr. destruct (Hnew r o Hr) as [_ H]. specialize (H Blocked).
      cbn in H. by store_simpl.
    - intros r o Hr. destruct (Hnew r o Hr) as [_ H]. specialize (H Incoming).
      cbn in H. by store_simpl.
    - intros r o Hr. destruct (Hnew r o Hr) as [_ H]. specialize (H Outcoming).
      cbn in H. by store_simpl. }
  destruct (decide (a = b)) as [->|Hne].
  - steps. unfold set_intersection. steps. rewrite set_alloc_run.
    cbn [fst]. exists quiet. split; [apply Hquiet|by left].
  - steps. unfold set_intersection. steps. rewrite set_alloc_run.
    cbn [fst]. exists quiet. split; [apply Hquiet|by left].
Qed.

Lemma describe_human_call_effect w a oa u :
  wf w → friends_unshared w → __all_users w !! a = Some oa →
  call_changes a oa (Some (u, None)) w (describe_human a u w).1.
Proof.
  intros Hwf Hun Ha.
  pose proof (wf_history _ Hwf _ _ Ha) as [ha Hha].
  methods. step. unfold _get_phystech_object. world_simpl.
  destruct (find_user _ _) as [[??]|]; effect_leaf Hwf Hun a Ha a Ha Ha quiet.
Qed.

Lemma getter_call_effect (f : Phystech → loc) w a oa flag action :
  wf w → friends_unshared w → __all_users w !! a = Some oa →
  call_changes a oa None w ((log_if flag a action;; attr f a) w).1.
Proof.
  intros Hwf Hun Ha.
  pose proof (wf_history _ Hwf _ _ Ha) as [ha Hha].
  destruct flag; steps.
  - erewrite attr_run by side. effect_leaf Hwf Hun a Ha a Ha Ha quiet.
  - erewrite attr_run by side. cbn [fst]. exists quiet. split; [|by left].
    by split.
Qed.

Lemma bind_ret_fst {A} (m : M A) w : ((m ≫= λ _, mret tt) w).1 = (m w).1.
Proof. monad_unfold. by destruct (m w) as [w' [a|e|]]. Qed.

Lemma invoke_call_effect w a oa c :
  wf w → friends_unshared w → __all_users w !! a = Some oa →
  (∀ b, user_of c = Some b → is_Some (__all_users w !! b)) →
  call_changes a oa (peer_of c) w (invoke a c w).1.
Proof.
  intros Hwf Hun Ha Hp. destruct c; cbn [invoke user_of peer_of] in *;
    rewrite ?bind_ret_fst.
  - by eapply add_friend_call_effect.
  - by eapply accept_friend_request_call_effect.
  - by eapply remove_friend_call_effect.
  - by eapply block_user_call_effect.
  - by eapply unblock_user_call_effect.
  - by eapply get_mutual_friends_call_effect.
  - by eapply describe_human_call_effect.
  - by eapply getter_call_effect.
  - by eapply getter_call_effect.
  - by eapply getter_call_effect.
  - by eapply getter_call_effect.
Qed.

Lemma invoke_changes w a oa c :
  wf w → friends_unshared w → __all_users w !! a = Some oa →
  (∀ b, user_of c = Some b → is_Some (__all_users w !! b)) →
  symmetric_change w (invoke a c w).1.
Proof.
  intros Hwf Hun Ha Hp.
  destruct (invoke_call_effect w a oa c Hwf Hun Ha Hp)
    as (e & [U F _ _ _] & He).
  exists (on_friends e). split; [by split|].
  destruct He as [->|(u & p & b & ob & _ & Hb & _ & [Hf _ _])]; [by left|].
  destruct Hf as [->|Hf]; [by left|]. right. by exists a, b, oa, ob.
Qed.

Lemma symmetric_invoke w a oa c :
  wf w → friends_unshared w → __all_users w !! a = Some oa →
  (∀ b, user_of c = Some b → is_Some (__all_users w !! b)) →
  symmetric w → symmetric (after (invoke a c) w).
Proof.
  intros Hwf Hun Ha Hp Hsym.
  destruct (invoke_changes w a oa c Hwf Hun Ha Hp) as (d & Hch & Hd).
  eapply symmetric_changed; [by apply wf_uids_ok|done..].
Qed.

Lemma friends_unshared_extends w w' :
  friends_unshared w → extends w w' → friends_unshared w'.
Proof.
  intros [Hf Ho] Hext. split.
  - intros r1 r2 o1' o2' (o1 & Hr1 & [=])%(extends_lookup w)
      (o2 & Hr2 & [=])%(extends_lookup w); [|done..].
    intros Heq. apply (Hf r1 r2 o1 o2); [done..|congruence].
  - intros r1 r2 o1' o2' f (o1 & Hr1 & E1)%(extends_lookup w)
      (o2 & Hr2 & [=])%(extends_lookup w); [|done..].
    intros Heq. apply (Ho r1 r2 o1 o2 f); [done..|].
    replace (_friends o2) with (_friends o2') by done. rewrite <-Heq.
    by destruct f; injection E1.
Qed.

Lemma friends_unshared_invoke w a c :
  friends_unshared w → friends_unshared (after (invoke a c) w).
Proof. intros Hun. eapply friends_unshared_extends; [done|apply stable_invoke]. Qed.


(** ** Example states, continued *)

(** An account constructed without a friends set gets a set of its own. *)
Lemma friends_unshared_init name login password graduation_year birthday status w :
  wf w → friends_unshared w →
  friends_unshared
    (__init__ name login password graduation_year birthday status None w).1.
Proof.
  intros Hwf [Hf Ho].
  destruct (init_run name login password graduation_year birthday status
    None w) as (fr & H0 & Hrun & Hfr & Hdom & _ & _ & _ & Hfresh); [done|].
  specialize (Hfresh eq_refl).
  cbv zeta in Hrun. rewrite Hrun. clear Hrun. cbn [fst].
  pose proof (is_fresh (dom H0)) as F1.
  pose proof (is_fresh (dom (<[fresh (dom H0):=∅]> H0))) as F2.
  pose proof (is_fresh (dom (<[fresh (dom (<[fresh (dom H0):=∅]> H0)):=∅]>
    (<[fresh (dom H0):=∅]> H0)))) as F3.
  set (l1 := fresh (dom H0)) in *.
  set (l2 := fresh (dom (<[l1:=∅]> H0))) in *.
  set (l3 := fresh (dom (<[l2:=∅]> (<[l1:=∅]> H0)))) in *.
  rewrite ?dom_insert_L in F2, F3.
  set (self := Build_Phystech _ _ _ _ _ _ _ _ _ _ _ _).
  assert (Hown : ∀ f, (own_loc f self ∉ dom H0) ∧ own_loc f self ≠ fr).
  { intros []; cbn; split; set_solver. }
  assert (Hlook : ∀ r o, (__all_users w ++ [self]) !! r = Some o →
    __all_users w !! r = Some o ∨ (r = length (__all_users w) ∧ o = self)).
  { intros r o [[??]|[??]]%lookup_snoc_Some; [left|right]; done. }
  split; cbn [__all_users].
  - intros r1 r2 o1 o2 [Hr1|[-> ->]]%Hlook [Hr2|[-> ->]]%Hlook Heq.
    + by eapply Hf.
    + pose proof (wf_alloc_friends w Hwf r1 o1 Hr1) as Hin.
      cbn in Heq. by rewrite Heq in Hin.
    + pose proof (wf_alloc_friends w Hwf r2 o2 Hr2) as Hin.
      cbn in Heq. by rewrite <-Heq in Hin.
    + done.
  - intros r1 r2 o1 o2 f [Hr1|[-> ->]]%Hlook [Hr2|[-> ->]]%Hlook Heq.
    + exact (Ho r1 r2 o1 o2 f Hr1 Hr2 Heq).
    + pose proof (wf_alloc_own w Hwf r1 o1 f Hr1) as Hin.
      cbn in Heq. by rewrite Heq in Hin.
    + pose proof (wf_alloc_friends w Hwf r2 o2 Hr2) as Hin.
      destruct (Hown f) as [Hnot _]. rewrite Heq in Hnot. set_solver.
    + by destruct (Hown f) as [_ ?].
Qed.

Lemma friends_unshared_class_created clk : friends_unshared (class_created clk).
Proof. split; intros []; done. Qed.

Lemma friends_unshared_after_new_account name w :
  wf w → friends_unshared w → friends_unshared (after (new_account name None) w).
Proof. intros. unfold after, new_account. by apply friends_unshared_init. Qed.

Lemma friends_unshared_three_accounts : friends_unshared three_accounts.
Proof.
  unfold three_accounts.
  apply friends_unshared_after_new_account; [apply wf_two_accounts|].
  unfold two_accounts.
  apply friends_unshared_after_new_account.
  { unfold one_account. apply wf_after_new_account, wf_class_created. }
  unfold one_account.
  apply friends_unshared_after_new_account; [apply wf_class_created|].
  apply friends_unshared_class_created.
Qed.

Lemma symmetric_no_friends w : (∀ r, friends_of w r = ∅) → symmetric w.
Proof. intros H r1 r2 o1 o2 _ _. rewrite !H. set_solver. Qed.

Lemma symmetric_three_accounts : symmetric three_accounts.
Proof.
  apply symmetric_no_friends. intros [|[|[|r]]]; vm_compute; reflexivity.
Qed.

Lemma wf_request_sent : wf request_sent.
Proof. apply wf_after_invoke, wf_three_accounts. Qed.

Lemma wf_two_friends : wf two_friends.
Proof. apply wf_after_invoke, wf_request_sent. Qed.

Lemma friends_unshared_two_friends : friends_unshared two_friends.
Proof. do 2 apply friends_unshared_invoke. apply friends_unshared_three_accounts. Qed.

Lemma symmetric_two_friends : symmetric two_friends.
Proof.
  unfold two_friends. eapply symmetric_invoke.
  - apply wf_request_sent.
  - apply friends_unshared_invoke, friends_unshared_three_accounts.
  - vm_compute. reflexivity.
  - intros b [=].
  - unfold request_sent. eapply symmetric_invoke.
    + apply wf_three_accounts.
    + apply friends_unshared_three_accounts.
    + vm_compute. reflexivity.
    + intros b [=].
    + apply symmetric_three_accounts.
Qed.

Lemma wf_after_set_alloc s w : wf w → wf (after (set_alloc s) w).
Proof. apply wf_set_alloc. Qed.

Lemma wf_after_new_account_with name l w :
  wf w → l ∈ dom (sets w) → wf (after (new_account name (Some l)) w).
Proof.
  intros Hwf Hl. unfold after, new_account. apply wf_init; [done|].
  by intros ? [= <-].
Qed.

Lemma wf_shared_friends : wf shared_friends.
Proof.
  unfold shared_friends.
  apply wf_after_new_account_with; [|vm_compute; reflexivity].
  apply wf_after_new_account_with; [|vm_compute; reflexivity].
  apply wf_after_set_alloc.
  apply wf_after_new_account_with; [|vm_compute; reflexivity].
  apply wf_after_set_alloc, wf_class_created.
Qed.

Lemma symmetric_shared_friends : symmetric shared_friends.
Proof.
  intros r1 r2 o1 o2 H1 H2.
  destruct r1 as [|[|[|r1]]]; vm_compute in H1; [..|discriminate];
    (destruct r2 as [|[|[|r2]]]; vm_compute in H2; [..|discriminate]);
    injection H1 as <-; injection H2 as <-; vm_compute; split; done.
Qed.


(** ** Effects of single calls *)

(** Closed facts about the example states, by evaluation. *)
Ltac evaluated :=
  vm_compute;
  repeat match goal with |- _ ∧ _ => split end;
  first
    [ reflexivity
    | discriminate
    | let H := fresh in
      intros H; first [reflexivity | discriminate H | exact H] ].

Lemma wf_request_received : wf request_received.
Proof. apply wf_after_invoke, wf_three_accounts. Qed.

Lemma history_of_at w a oa h :
  __all_users w !! a = Some oa → __user_history w !! __uid oa = Some h →
  history_of w a = h.
Proof. intros Ha Hh. unfold history_of. by rewrite Ha, Hh. Qed.

(** ** Blocking *)

(** What [block_user] does to an account that is not blocked yet. *)
Lemma block_user_effect w a b oa ob u p :
  wf w → __all_users w !! a = Some oa → __all_users w !! b = Some ob → a ≠ b →
  names u p b ob →
  __uid ob ∉ blocked_of w a →
  (__uid ob ∈ friends_of w a ↔ __uid oa ∈ friends_of w b) →
  (__uid ob ∈ incoming_of w a ↔ __uid oa ∈ outgoing_of w b) →
  ∃ w',
    block_user a u p w = (w', Ok tt) ∧
    ((__uid ob ∈ blocked_of w' a) ∧
     (__uid ob ∉ friends_of w' a) ∧ (__uid oa ∉ friends_of w' b) ∧
     (__uid ob ∉ incoming_of w' a) ∧ (__uid oa ∉ outgoing_of w' b) ∧
     (__uid ob ∈ outgoing_of w' a ↔ __uid ob ∈ outgoing_of w a) ∧
     (__uid oa ∈ incoming_of w' b ↔ __uid oa ∈ incoming_of w b)) ∧
    history_of w' a =
      history_of w a ++
        [(clock w (clock_reads w), "Block user"%string);
         (clock w (S (clock_reads w)), "Remove friend"%string);
         (clock w (S (S (clock_reads w))), "Accept friend"%string)] ∧
    stdout w' =
      stdout w ++
        (if decide (__uid ob ∈ friends_of w a)
         then ["You' deleted " +:+ name ob +:+ " from your friends"] else []) ++
        (if decide (__uid ob ∈ incoming_of w a) then []
         else ["Such user isn't in your friend requests. Check id one more time"%string]) ++
        ["You blocked " +:+ name ob].
Proof.
  intros Hwf Ha Hb Hne Hn Hblk Hfr Hreq.
  two_accounts_setup Hwf Ha Hb Hne.
  rewrite (history_of_at w a oa ha Ha Hha).
  open_account oa. open_account ob.
  assert (Hhist : ∀ h (x y z : string * string),
    default [] (Some (((h ++ [x]) ++ [y]) ++ [z])) = h ++ [x; y; z]).
  { intros. cbn. by rewrite <-!app_assoc. }
  destruct (decide (uid_0 ∈ sets w !!! friends_)) as [Hf|Hf];
    destruct (decide (uid_0 ∈ sets w !!! incoming_)) as [Hi|Hi].
  - eexists. split.
    { methods. steps. branch_false. branch_true. branch_true. apply print_run. }
    world_simpl. unfold contents, history_of. look.
    rewrite (lookup_total_correct _ _ _ Hha), Hhist.
    split; [split_and!; members|]. split; [done|].
    repeat first [rewrite decide_True by done | rewrite decide_False by done].
    by rewrite <-?app_assoc.
  - eexists. split.
    { methods. steps. branch_false. branch_true. branch_false. apply print_run. }
    world_simpl. unfold contents, history_of. look.
    rewrite (lookup_total_correct _ _ _ Hha), Hhist.
    split; [split_and!; members|]. split; [done|].
    repeat first [rewrite decide_True by done | rewrite decide_False by done].
    by rewrite <-?app_assoc.
  - eexists. split.
    { methods. steps. branch_false. branch_false. branch_true. apply print_run. }
    world_simpl. unfold contents, history_of. look.
    rewrite (lookup_total_correct _ _ _ Hha), Hhist.
    split; [split_and!; members|]. split; [done|].
    repeat first [rewrite decide_True by done | rewrite decide_False by done].
    by rewrite <-?app_assoc.
  - eexists. split.
    { methods. steps. branch_false. branch_false. branch_false. apply print_run. }
    world_simpl. unfold contents, history_of. look.
    rewrite (lookup_total_correct _ _ _ Hha), Hhist.
    split; [split_and!; members|]. split; [done|].
    repeat first [rewrite decide_True by done | rewrite decide_False by done].
    by rewrite <-?app_assoc.
Qed.

(** A state with the same sets and the same objects, [last_online] apart,
    shows the same members. *)
Lemma contents_touched (f : Phystech → loc) w w' t a r :
  (∀ t o, f (touch t o) = f o) →
  sets w' = sets w →
  __all_users w' = alter (touch t) a (__all_users w) →
  contents f w' r = contents f w r.
Proof.
  intros Hf Hs Hu. unfold contents. rewrite Hs, Hu.
  destruct (decide (a = r)) as [->|].
  - rewrite list_lookup_alter_eq. destruct (__all_users w !! r); cbn; [|done].
    by rewrite Hf.
  - by rewrite list_lookup_alter_ne.
Qed.

Lemma wf_one_sided_friends : wf one_sided_friends.
Proof.
  unfold one_sided_friends. apply wf_after_new_account_with; [|evaluated].
  apply wf_two_accounts_and_a_set.
Qed.

Lemma lookup_by_uid w r o :
  wf w → __all_users w !! r = Some o →
  _get_phystech_object (__uid o) w = (w, Ok r).
Proof.
  intros Hwf Hr. apply get_phystech_object_run.
  eapply find_user_uids_ok; [by apply wf_uids_ok|done..].
Qed.


(** ** Relations that every step keeps *)

Section keeps.
Context (R : relation World) `{!PreOrder R}.

Lemma keeps_ret {A} (a : A) : keeps R (mret a : M A).
Proof. intros w. reflexivity. Qed.

Lemma keeps_raise {A} e : keeps R (raise e : M A).
Proof. intros w. reflexivity. Qed.

Lemma keeps_bind {A B} (m : M A) (f : A → M B) :
  keeps R m → (∀ a, keeps R (f a)) → keeps R (m ≫= f).
Proof.
  intros Hm Hf w. specialize (Hm w). monad_unfold.
  destruct (m w) as [w1 [a|e|]]; [|done..].
  etrans; [exact Hm|apply Hf].
Qed.

Lemma keeps_if {A} (b : bool) (m1 m2 : M A) :
  keeps R m1 → keeps R m2 → keeps R (if b then m1 else m2).
Proof. by destruct b. Qed.

Lemma keeps_inert `{!Inert R} {A} (m : M A) : stable m → inert m → keeps R m.
Proof. intros Hs Hi w. destruct (Hi w). by apply inert_related. Qed.
End keeps.

Lemma inert_ret {A} (a : A) : inert (mret a : M A).
Proof. done. Qed.
Lemma inert_raise {A} e : inert (raise e : M A).
Proof. done. Qed.
Lemma inert_bind {A B} (m : M A) (f : A → M B) :
  inert m → (∀ a, inert (f a)) → inert (m ≫= f).
Proof.
  intros Hm Hf w. specialize (Hm w). monad_unfold.
  destruct (m w) as [w1 [a|e|]]; [|done..].
  destruct Hm as [<- <-]. apply Hf.
Qed.
Lemma inert_if {A} (b : bool) (m1 m2 : M A) :
  inert m1 → inert m2 → inert (if b then m1 else m2).
Proof. by destruct b. Qed.
Lemma inert_strftime_gmtime : inert strftime_gmtime.
Proof. done. Qed.
Lemma inert_print line : inert (print line).
Proof. done. Qed.
Lemma inert_deref r : inert (deref r).
Proof. intros w. unfold deref. by destruct (_ !! _). Qed.
Lemma inert_set_read l : inert (set_read l).
Proof. done. Qed.
Lemma inert_set_write l s : inert (set_write l s).
Proof. done. Qed.
Lemma inert_set_alloc s : inert (set_alloc s).
Proof. done. Qed.
Lemma inert_get_phystech_object u : inert (_get_phystech_object u).
Proof. intros w. unfold _get_phystech_object. by destruct (find_user _ _) as [[??]|]. Qed.

(** The steps that touch neither an account nor a history list. *)
Ltac inert :=
  repeat first
    [ apply inert_ret | apply inert_raise | apply inert_strftime_gmtime
    | apply inert_print | apply inert_deref | apply inert_set_read
    | apply inert_set_write | apply inert_set_alloc
    | apply inert_get_phystech_object
    | apply inert_bind; [|intros ?]
    | apply inert_if
    | progress unfold attr, set_contains, set_add, set_remove, set_intersection,
        _get_uid, _get_name, assert_not_self ].

(** A method keeps [R] when its steps do; [prim] proves it of the steps
    that are not inert. *)
Ltac instances :=
  try match goal with
    | |- PreOrder _ => exact _
    | |- Inert _ => exact _
    end.

Ltac keeps prim :=
  repeat first
    [ apply keeps_ret; instances | apply keeps_raise; instances
    | prim
    | apply keeps_bind; instances; [|intros ?]
    | apply keeps_if
    | match goal with |- keeps _ (match ?x with _ => _ end) => destruct x end
    | apply keeps_inert; instances; [solve [stable]|solve [inert]]
    | progress unfold log_if, resolve ].

Global Instance grows_preorder : PreOrder grows.
Proof.
  split.
  - intros w k h Hk. exists []. by rewrite app_nil_r.
  - intros w1 w2 w3 H12 H23 k h Hk.
    destruct (H12 k h Hk) as [h1 Hk1]. destruct (H23 k _ Hk1) as [h2 Hk2].
    exists (h1 ++ h2). by rewrite app_assoc.
Qed.

Global Instance grows_inert : Inert grows.
Proof. intros w w' _ _ Hh k h Hk. exists []. by rewrite Hh, app_nil_r. Qed.

Global Instance same_history_preorder : PreOrder same_history.
Proof. split; [done|]. unfold same_history. intros w1 w2 w3. congruence. Qed.

Global Instance same_history_inert : Inert same_history.
Proof. by intros w w' _ _ Hh. Qed.

Lemma grows_set_last_online r t : keeps grows (set_last_online r t).
Proof.
  intros w k h Hk. exists []. rewrite app_nil_r.
  unfold set_last_online. by destruct (__all_users w !! r).
Qed.

Lemma grows_history_append uid rec : keeps grows (history_append uid rec).
Proof.
  intros w. unfold history_append.
  destruct (__user_history w !! uid) as [h0|] eqn:E; [|reflexivity].
  intros k h Hk. cbn. destruct (decide (uid = k)) as [->|].
  - rewrite lookup_insert_eq. exists [rec]. congruence.
  - rewrite lookup_insert_ne by done. exists []. by rewrite app_nil_r.
Qed.

Lemma grows_invoke self c : keeps grows (invoke self c).
Proof.
  destruct c; cbn [invoke]; methods; unfold _update_online_status;
    keeps ltac:(first [apply grows_set_last_online | apply grows_history_append]).
Qed.

Lemma same_history_set_last_online r t : keeps same_history (set_last_online r t).
Proof.
  intros w. unfold same_history, set_last_online. by destruct (__all_users w !! r).
Qed.

(** What follows a step that keeps the history lists does not show in
    them. *)
Lemma history_bind {A B} (m : M A) (f : A → M B) w :
  (∀ a, keeps same_history (f a)) →
  __user_history ((m ≫= f) w).1 = __user_history (m w).1.
Proof.
  intros Hf. monad_unfold. destruct (m w) as [w1 [a|e|]]; [|done..]. apply Hf.
Qed.

Ltac silent := keeps ltac:(apply same_history_set_last_online).

Lemma history_invoke self c w :
  (∀ u p, c ≠ BlockUser u p) →
  __user_history (invoke self c w).1 =
    __user_history (log_if (logs c) self (label c) w).1.
Proof.
  intros Hc. destruct c; try (exfalso; by eapply Hc); clear Hc;
    cbn [invoke logs label log_if]; methods;
    repeat (rewrite history_bind by (intros; silent)); try done.
Qed.

Lemma extends_uid w w' r :
  extends w w' → __uid <$> __all_users w' !! r = __uid <$> __all_users w !! r.
Proof.
  intros Hext.
  assert (H : ∀ l : list Phystech, __uid <$> l !! r = __uid <$> (touch "" <$> l) !! r).
  { intros l. rewrite list_lookup_fmap. by destruct (l !! r). }
  by rewrite (H (__all_users w')), (H (__all_users w)), (ext_users _ _ Hext).
Qed.

Lemma history_of_uid w r :
  history_of w r =
    match __uid <$> __all_users w !! r with
    | Some u => default [] (__user_history w !! u)
    | None => []
    end.
Proof. unfold history_of. by destruct (_ !! _). Qed.

Lemma history_after_invoke w a oa c r :
  wf w → __all_users w !! a = Some oa → (∀ u p, c ≠ BlockUser u p) →
  history_of (after (invoke a c) w) r =
    history_of w r ++
      (if decide (r = a) then
         if logs c then [(clock w (clock_reads w), label c)] else []
       else []).
Proof.
  intros Hwf Ha Hc. unfold after.
  rewrite !history_of_uid, (extends_uid w) by apply stable_invoke.
  rewrite (history_invoke a c w Hc).
  destruct (__all_users w !! r) as [o|] eqn:Hr; cbn [fmap option_fmap option_map];
    [|case_decide; [subst r; congruence|done]].
  destruct (logs c); cbn [log_if fst].
  - destruct (wf_history w Hwf a oa Ha) as [h Hh].
    rewrite (update_online_status_run a oa) by eauto.
    unfold logged. cbn [fst]. world_simpl. rewrite (lookup_total_correct _ _ _ Hh).
    case_decide as E.
    + subst r. assert (o = oa) as -> by congruence.
      by rewrite lookup_insert_eq, Hh.
    + rewrite lookup_insert_ne, app_nil_r; [done|].
      rewrite (wf_uid w Hwf a oa Ha), (wf_uid w Hwf r o Hr). lia.
  - case_decide; by rewrite app_nil_r.
Qed.


(** ** The time of the latest record *)

Global Instance keeps_online_preorder : PreOrder keeps_online.
Proof.
  split.
  - intros w. split; [apply extends_refl|done].
  - intros w1 w2 w3 [E12 H12] [E23 H23]. split; [by eapply extends_trans|].
    intros Hwf Hon. apply H23; [by eapply wf_extends|by apply H12].
Qed.

Global Instance keeps_online_inert : Inert keeps_online.
Proof.
  intros w w' Hext Hu Hh. split; [done|].
  intros _ Hon r o. rewrite Hu, Hh. apply Hon.
Qed.

Lemma keeps_online_update self action :
  keeps keeps_online (_update_online_status self action).
Proof.
  intros w. split; [unfold _update_online_status; stable|].
  intros Hwf Hon. destruct (__all_users w !! self) as [o|] eqn:Hs.
  - destruct (wf_history w Hwf self o Hs) as [h Hh].
    rewrite (update_online_status_run self o) by eauto.
    cbn [fst]. intros r o'. unfold logged. world_simpl.
    destruct (decide (self = r)) as [<-|Hne].
    + rewrite list_lookup_alter_eq, Hs. intros [= <-]. cbn.
      rewrite lookup_insert_eq, (lookup_total_correct _ _ _ Hh). eauto.
    + rewrite list_lookup_alter_ne by done. intros Hr.
      rewrite lookup_insert_ne; [by apply (Hon r)|].
      rewrite (wf_uid w Hwf self o Hs), (wf_uid w Hwf r o' Hr). lia.
  - unfold _update_online_status, set_last_online. monad_unfold.
    world_simpl. rewrite Hs. exact Hon.
Qed.

Lemma keeps_online_invoke self c : keeps keeps_online (invoke self c).
Proof.
  destruct c; cbn [invoke]; methods; keeps ltac:(apply keeps_online_update).
Qed.

Lemma online_class_created clk : online_at_last_record (class_created clk).
Proof. by intros r o. Qed.

Lemma online_init name login password graduation_year birthday status friends w :
  wf w → (∀ l, friends = Some l → l ∈ dom (sets w)) →
  online_at_last_record w →
  online_at_last_record
    (__init__ name login password graduation_year birthday status friends w).1.
Proof.
  intros Hwf Hcaller Hon.
  destruct (init_run name login password graduation_year birthday status
    friends w Hcaller) as (fr & H0 & Hrun & _).
  cbv zeta in Hrun. rewrite Hrun. clear Hrun. cbn [fst].
  intros r o. world_simpl. intros [[Hlt Hr]|[-> <-]]%lookup_snoc_Some.
  - rewrite lookup_insert_ne; [by apply (Hon r)|].
    rewrite (wf_uid w Hwf r o Hr), (wf_counter w Hwf). lia.
  - cbn. rewrite lookup_insert_eq. by exists [], "Create an account"%string.
Qed.

Lemma online_three_accounts : online_at_last_record three_accounts.
Proof.
  unfold three_accounts, after, new_account. apply online_init; [|done|].
  { apply wf_two_accounts. }
  unfold two_accounts, after, new_account. apply online_init; [|done|].
  { unfold one_account, after, new_account. apply wf_init; [apply wf_class_created|done]. }
  unfold one_account, after, new_account. apply online_init; [|done|].
  { apply wf_class_created. }
  apply online_class_created.
Qed.


(** ** Requests stay paired *)

(** The views of the state after a change. *)
Lemma contents_changed e w w' r o :
  sets_changed e w w' → __all_users w !! r = Some o →
  friends_of w' r = apply_change (on_friends e r) (friends_of w r) ∧
  blocked_of w' r = apply_change (on_blocked e r) (blocked_of w r) ∧
  incoming_of w' r = apply_change (on_incoming e r) (incoming_of w r) ∧
  outgoing_of w' r = apply_change (on_outgoing e r) (outgoing_of w r).
Proof.
  intros [U F B I O] Hr.
  unfold friends_of, blocked_of, incoming_of, outgoing_of, contents.
  rewrite Hr. destruct (__all_users w' !! r) as [o'|] eqn:Hr'.
  - destruct (same_layout_lookup _ _ _ _ U Hr') as (o0 & Hr0 & [=]).
    rewrite Hr in Hr0. injection Hr0 as <-.
    replace (_friends o') with (_friends o) by done.
    replace (_block_users o') with (_block_users o) by done.
    replace (_incoming_friend_requests o') with (_incoming_friend_requests o) by done.
    replace (_outcoming_friend_requests o') with (_outcoming_friend_requests o) by done.
    split_and!; [by apply F|by apply B|by apply I|by apply O].
  - apply (f_equal (fmap (touch ""))) in Hr'.
    rewrite <-list_lookup_fmap, U, list_lookup_fmap, Hr in Hr'. done.
Qed.

Lemma contents_unchanged e f w w' r :
  sets_changed e w w' → __all_users w !! r = None → contents f w' r = contents f w r.
Proof.
  intros [U _ _ _ _] Hr. unfold contents. rewrite Hr.
  destruct (__all_users w' !! r) as [o'|] eqn:Hr'; [|done].
  destruct (same_layout_lookup _ _ _ _ U Hr') as (o0 & Hr0 & _). congruence.
Qed.

Lemma sets_changed_lookup e w w' r o' :
  sets_changed e w w' → __all_users w' !! r = Some o' →
  ∃ o, __all_users w !! r = Some o ∧ __uid o = __uid o'.
Proof.
  intros [U _ _ _ _] Hr'.
  destruct (same_layout_lookup _ _ _ _ U Hr') as (o & Hr & [=]). by exists o.
Qed.

(** In a well-formed state a call names one account at most. *)
Lemma names_inj w u p b b' ob ob' :
  wf w → __all_users w !! b = Some ob → __all_users w !! b' = Some ob' →
  names u p b ob → names u p b' ob' → b = b' ∧ ob = ob'.
Proof.
  intros Hwf Hb Hb' [->|[-> ->]] [[= ->]|[[=] Hu]].
  - split; [done|congruence].
  - assert (b = b').
    { pose proof (wf_uid w Hwf b ob Hb). pose proof (wf_uid w Hwf b' ob' Hb'). lia. }
    subst b'. split; [done|congruence].
Qed.

Lemma paired_changed e w w' a b oa ob :
  uids_ok (__all_users w) → requests_paired w → sets_changed e w w' →
  __all_users w !! a = Some oa → __all_users w !! b = Some ob →
  (on_incoming e = no_change ∧ on_outgoing e = no_change) ∨
  (on_incoming e = only b (Add (__uid oa)) ∧ on_outgoing e = only a (Add (__uid ob))) ∨
  (on_incoming e = only a (Remove (__uid ob)) ∧ on_outgoing e = only b (Remove (__uid oa))) →
  requests_paired w'.
Proof.
  intros Huid Hpair Hch Ha Hb He r1 r2 o1' o2' Hr1' Hr2'.
  destruct (sets_changed_lookup _ _ _ _ _ Hch Hr1') as (o1 & Hr1 & <-).
  destruct (sets_changed_lookup _ _ _ _ _ Hch Hr2') as (o2 & Hr2 & <-).
  destruct (contents_changed e w w' r1 o1 Hch Hr1) as (_ & _ & _ & ->).
  destruct (contents_changed e w w' r2 o2 Hch Hr2) as (_ & _ & -> & _).
  specialize (Hpair r1 r2 o1 o2 Hr1 Hr2).
  pose proof (Huid _ _ Hr1). pose proof (Huid _ _ Hr2).
  pose proof (Huid _ _ Ha). pose proof (Huid _ _ Hb).
  destruct He as [[-> ->]|[[-> ->]|[-> ->]]]; unfold no_change, only;
    repeat case_decide; simplify_eq; cbn [apply_change]; set_solver by lia.
Qed.

Lemma paired_invoke w a oa c :
  wf w → friends_unshared w → __all_users w !! a = Some oa →
  (∀ b, user_of c = Some b → is_Some (__all_users w !! b)) →
  requests_paired w → requests_paired (after (invoke a c) w).
Proof.
  intros Hwf Hun Ha Hp Hpair.
  destruct (invoke_call_effect w a oa c Hwf Hun Ha Hp)
    as (e & Hch & [->|(u & p & b & ob & _ & Hb & _ & [_ _ He])]).
  - eapply (paired_changed quiet w _ a a); [by apply wf_uids_ok|done..|by left].
  - eapply (paired_changed e w _ a b); [by apply wf_uids_ok|done..].
Qed.

Lemma requests_paired_empty w :
  (∀ r, incoming_of w r = ∅ ∧ outgoing_of w r = ∅) → requests_paired w.
Proof. intros H r1 r2 o1 o2 _ _. destruct (H r1), (H r2). set_solver. Qed.

Lemma requests_paired_three_accounts : requests_paired three_accounts.
Proof.
  apply requests_paired_empty. intros [|[|[|r]]]; split; vm_compute; reflexivity.
Qed.


(** ** The sets that the getters return *)

Lemma wf_common_friend : wf common_friend.
Proof. unfold common_friend. do 4 apply wf_after_invoke. apply wf_three_accounts. Qed.

Lemma wf_one_blocked : wf one_blocked.
Proof. apply wf_after_invoke, wf_three_accounts. Qed.

Lemma extends_after_calls cs w : extends w (after_calls cs w).
Proof.
  revert w. induction cs as [|[self c] cs IH]; intros w; cbn [after_calls].
  - apply extends_refl.
  - eapply extends_trans; [apply stable_invoke|apply IH].
Qed.

(** An account refers to the same four sets in every later state. *)
Lemma contents_extends k w w' a o :
  extends w w' → __all_users w !! a = Some o →
  contents (attr_of k) w' a = sets w' !!! attr_of k o.
Proof.
  intros Hext Ha. unfold contents.
  destruct (__all_users w' !! a) as [o'|] eqn:Ha'.
  - destruct (extends_lookup w w' a o' Hext Ha') as (o0 & Ha0 & [=]).
    assert (o0 = o) as -> by congruence.
    by destruct k; cbn [attr_of]; congruence.
  - apply (f_equal (fmap (touch ""))) in Ha'.
    rewrite <-list_lookup_fmap, (ext_users _ _ Hext), list_lookup_fmap, Ha in Ha'.
    done.
Qed.

Lemma getter_logs k a flag :
  getter k a flag =
    (log_if flag a
       match k with
       | FriendsSet => "Get friends"
       | BlockedSet => "Get blocked users"
       | IncomingSet => "Get incoming requests"
       | OutcomingSet => "Get outcoming friends"
       end;; attr (attr_of k) a)%string.
Proof. by destruct k. Qed.

(** * The claims *)

(** C10.  [__init__] returns a new object whose [_friends] holds exactly
    the members of the caller's set, or nothing when no set or an empty one
    is passed; when the caller's set is not empty the attribute refers to
    that very set object.  Every account created before is the same object
    as it was and its four sets have the members they had: the constructor
    inserts the new account into nobody's friends. *)
Theorem init_stores_friends_verbatim name login password graduation_year
    birthday status friends w :
  wf w → (∀ l, friends = Some l → l ∈ dom (sets w)) →
  let self := length (__all_users w) in
  ∃ w',
    __init__ name login password graduation_year birthday status friends w =
      (w', Ok self) ∧
    friends_of w' self =
      match friends with Some l => sets w !!! l | None => ∅ end ∧
    (∀ l, friends = Some l → sets w !!! l ≠ ∅ →
       _friends <$> __all_users w' !! self = Some l) ∧
    (∀ r o, __all_users w !! r = Some o →
       __all_users w' !! r = Some o ∧
       friends_of w' r = friends_of w r ∧ blocked_of w' r = blocked_of w r ∧
       incoming_of w' r = incoming_of w r ∧ outgoing_of w' r = outgoing_of w r).
Proof.
  intros Hwf Hcaller self.
  destruct (init_run name login password graduation_year birthday status
    friends w Hcaller) as (fr & H0 & Hrun & Hfr & Hdom & Hold & Hcontent & Hsame & _).
  cbv zeta in Hrun. eexists. split; [exact Hrun|].
  pose proof (is_fresh (dom H0)) as F1.
  pose proof (is_fresh (dom (<[fresh (dom H0):=∅]> H0))) as F2.
  pose proof (is_fresh (dom (<[fresh (dom (<[fresh (dom H0):=∅]> H0)):=∅]>
    (<[fresh (dom H0):=∅]> H0)))) as F3.
  set (l1 := fresh (dom H0)) in *.
  set (l2 := fresh (dom (<[l1:=∅]> H0))) in *.
  set (l3 := fresh (dom (<[l2:=∅]> (<[l1:=∅]> H0)))) in *.
  rewrite ?dom_insert_L in F2, F3.
  assert (Hkeep : ∀ l, l ∈ dom H0 →
    <[l3:=∅]> (<[l2:=∅]> (<[l1:=∅]> H0)) !!! l = H0 !!! l).
  { intros l Hl. rewrite !lookup_total_insert_ne; [done|set_solver..]. }
  split_and!.
  - unfold friends_of, contents, self. cbn [__all_users sets].
    rewrite lookup_app_r, Nat.sub_diag by done. cbn [lookup list_lookup _friends].
    by rewrite Hkeep.
  - intros l Hl Hne. unfold self. cbn [__all_users].
    rewrite lookup_app_r, Nat.sub_diag by done. cbn. f_equal. by apply Hsame.
  - intros r o Hr.
    assert (Hr' : (__all_users w ++ [ {|
      name := name; status := status; last_online := clock w (clock_reads w);
      __uid := Phystech__uid w; _birthday := birthday; _friends := fr;
      _block_users := l1; _incoming_friend_requests := l2;
      _outcoming_friend_requests := l3; _graduation_year := graduation_year;
      __login := login; __password := password |} ]) !! r = Some o)
      by (by apply lookup_app_l_Some).
    split; [exact Hr'|].
    unfold friends_of, blocked_of, incoming_of, outgoing_of, contents.
    cbn [__all_users sets]. rewrite Hr', Hr.
    pose proof (wf_alloc_friends w Hwf r o Hr).
    pose proof (wf_alloc_own w Hwf r o Blocked Hr).
    pose proof (wf_alloc_own w Hwf r o Incoming Hr).
    pose proof (wf_alloc_own w Hwf r o Outcoming Hr).
    cbn [own_loc] in *.
    rewrite !Hkeep, !Hold by set_solver. done.
Qed.

Lemma init_stores_friends_verbatim_witness :
  ∃ w',
    __init__ "john" "login" "password" None None None (Some 8%nat)
      two_accounts_and_a_set = (w', Ok 2%nat) ∧
    friends_of w' 2 = {[0; 1]} ∧
    _friends <$> __all_users w' !! 2%nat = Some 8%nat ∧
    friends_of w' 0 = ∅ ∧ friends_of w' 1 = ∅.
Proof.
  destruct (init_stores_friends_verbatim "john" "login" "password" None None None
    (Some 8%nat) two_accounts_and_a_set wf_two_accounts_and_a_set)
    as (w' & Hrun & Hfr & Hsame & Hold).
  { intros l [= <-]. vm_compute. reflexivity. }
  assert (Hlen : length (__all_users two_accounts_and_a_set) = 2%nat)
    by (vm_compute; reflexivity).
  cbv zeta in *. rewrite Hlen in *.
  exists w'. split; [exact Hrun|]. split; [rewrite Hfr; vm_compute; reflexivity|].
  split; [apply Hsame; [reflexivity|vm_compute; discriminate]|].
  split.
  - edestruct (Hold 0%nat) as (_ & -> & _); [vm_compute; reflexivity|].
    vm_compute. reflexivity.
  - edestruct (Hold 1%nat) as (_ & -> & _); [vm_compute; reflexivity|].
    vm_compute. reflexivity.
Defined.

(** C6.  A call of [add_friend], [block_user], [unblock_user] or
    [remove_friend] whose target is the acting account itself raises
    [AssertionError] with the message of that method; no set has changed
    and nothing was printed, so it is not one of the soft outcomes. *)
Theorem self_target_raises w a oa c user_uid user msg :
  wf w → __all_users w !! a = Some oa →
  checks_self c = Some (user_uid, user, msg) →
  names user_uid user a oa →
  ∃ w', invoke a c w = (w', Raise (AssertionError msg)) ∧
        sets w' = sets w ∧ stdout w' = stdout w.
Proof.
  intros Hwf Ha Hc Hn. eexists. split; [by eapply self_target_run|].
  by destruct (logs c).
Qed.

Lemma self_target_raises_witness :
  ∃ w', invoke 0 (BlockUser 0 None) three_accounts =
          (w', Raise (AssertionError "You can't block yourself!")) ∧
        sets w' = sets three_accounts ∧ stdout w' = stdout three_accounts.
Proof.
  eapply (self_target_raises three_accounts 0 _ (BlockUser 0 None)).
  - apply wf_three_accounts.
  - vm_compute. reflexivity.
  - reflexivity.
  - right. split; reflexivity.
Defined.

(** C9.  When [add_friend], [block_user] or [remove_friend] (and
    [unblock_user] called with its default flag) is called on the acting
    account itself, the [AssertionError] is raised after
    [_update_online_status] has run: the history of the account has one more
    record, labelled with the method, and [last_online] is the time of that
    record. *)
Theorem self_target_logged_before_raising w a oa c user_uid user msg :
  wf w → __all_users w !! a = Some oa →
  checks_self c = Some (user_uid, user, msg) → logs c = true →
  names user_uid user a oa →
  ∃ w', invoke a c w = (w', Raise (AssertionError msg)) ∧
        history_of w' a = history_of w a ++ [(clock w (clock_reads w), label c)] ∧
        last_online_of w' a = Some (clock w (clock_reads w)).
Proof.
  intros Hwf Ha Hc Hl Hn. eexists. split; [by eapply self_target_run|].
  rewrite Hl. split.
  - apply history_of_logged; [done|by eapply wf_history].
  - by eapply last_online_of_logged.
Qed.

Lemma self_target_logged_before_raising_witness :
  ∃ w', invoke 1 (RemoveFriend 7 (Some 1%nat) true) three_accounts =
          (w', Raise (AssertionError "You can't remove yourself from  friends!")) ∧
        history_of w' 1 =
          history_of three_accounts 1 ++
            [(clock three_accounts (clock_reads three_accounts), "Remove friend"%string)] ∧
        last_online_of w' 1 =
          Some (clock three_accounts (clock_reads three_accounts)).
Proof.
  eapply (self_target_logged_before_raising three_accounts 1 _
            (RemoveFriend 7 (Some 1%nat) true)).
  - apply wf_three_accounts.
  - vm_compute. reflexivity.
  - reflexivity.
  - reflexivity.
  - left. reflexivity.
Defined.

(** C8.  [_get_phystech_object] raises the [KeyError] exactly when no
    account carries the uid; otherwise it returns the account that carries
    it, and no other account does.  Every method that looks its peer up by
    uid ends with that [KeyError] when the uid is unknown. *)
Theorem get_phystech_object_spec w user_uid :
  wf w →
  (_get_phystech_object user_uid w = (w, Raise (not_found user_uid)) ↔
     ¬ known w user_uid) ∧
  (∀ r o, __all_users w !! r = Some o → __uid o = user_uid →
     _get_phystech_object user_uid w = (w, Ok r) ∧
     ∀ r' o', __all_users w !! r' = Some o' → __uid o' = user_uid → r' = r) ∧
  (∀ a oa c, __all_users w !! a = Some oa →
     resolves_by_uid c = Some user_uid → ¬ known w user_uid →
     ∃ w', invoke a c w = (w', Raise (not_found user_uid))).
Proof.
  intros Hwf. split_and!.
  - split; [|apply get_phystech_object_missing].
    intros Hrun (r & o & Hr & Ho).
    rewrite (get_phystech_object_run user_uid r w) in Hrun; [done|].
    eapply find_user_uids_ok; [by apply wf_uids_ok|done..].
  - intros r o Hr Ho. split.
    + apply get_phystech_object_run.
      eapply find_user_uids_ok; [by apply wf_uids_ok|done..].
    + intros r' o' Hr' Ho'.
      apply (wf_uid w Hwf) in Hr, Hr'. lia.
  - intros a oa c Ha Hc Hk.
    pose proof (get_phystech_object_missing user_uid w Hk) as Hmiss0.
    assert (Hmiss : ∀ action,
      _get_phystech_object user_uid (logged a (__uid oa) action w) =
        (logged a (__uid oa) action w, Raise (not_found user_uid))).
    { intros action. apply get_phystech_object_missing. by rewrite known_logged. }
    destruct c as [? []|? ? []|? [] ?|? []|? [] []|? []|?| | | |];
      simplify_eq/=; eexists; methods; cbn [resolve]; steps;
      rewrite ?bind_assoc;
      by erewrite bind_Raise by first [apply Hmiss|apply Hmiss0].
Qed.

Lemma get_phystech_object_spec_witness :
  (_get_phystech_object 7 three_accounts = (three_accounts, Raise (not_found 7)) ↔
     ¬ known three_accounts 7) ∧
  _get_phystech_object 2 three_accounts = (three_accounts, Ok 2%nat) ∧
  ∃ w', invoke 0 (DescribeHuman 7) three_accounts = (w', Raise (not_found 7)).
Proof.
  destruct (get_phystech_object_spec three_accounts 7 wf_three_accounts)
    as (Hiff & _ & Hcalls).
  destruct (get_phystech_object_spec three_accounts 2 wf_three_accounts)
    as (_ & Hfound & _).
  split; [exact Hiff|]. split.
  - eapply Hfound; vm_compute; reflexivity.
  - eapply (Hcalls 0%nat _ (DescribeHuman 7)); [vm_compute; reflexivity|reflexivity|].
    apply Hiff. vm_compute. reflexivity.
Defined.

(** C7.  [a.get_mutual_friends(b)] and then [b.get_mutual_friends(a)] return
    two new sets with the same members, the members of the intersection of
    the two accounts' friends. *)
Theorem get_mutual_friends_comm w a b oa ob ua pa ub pb :
  wf w → __all_users w !! a = Some oa → __all_users w !! b = Some ob →
  names ub pb b ob → names ua pa a oa →
  ∃ w1 l1 w2 l2,
    get_mutual_friends a ub pb w = (w1, Ok l1) ∧
    get_mutual_friends b ua pa w1 = (w2, Ok l2) ∧
    sets w1 !!! l1 = friends_of w a ∩ friends_of w b ∧
    sets w2 !!! l2 = friends_of w b ∩ friends_of w a ∧
    sets w2 !!! l1 = sets w2 !!! l2.
Proof.
  intros Hwf Ha Hb Hnb Hna.
  pose proof (wf_history w Hwf a oa Ha) as [ha Hha].
  pose proof (wf_history w Hwf b ob Hb) as [hb Hhb].
  pose proof (wf_alloc_friends w Hwf a oa Ha) as Hfa.
  pose proof (wf_alloc_friends w Hwf b ob Hb) as Hfb.
  pose proof (is_fresh (dom (sets w))) as Hfresh.
  pose proof (is_fresh (dom (<[fresh (dom (sets w)) :=
    sets w !!! _friends oa ∩ sets w !!! _friends ob]> (sets w)))) as Hfresh2.
  views.
  assert (fresh (dom (sets w)) ≠ _friends oa ∧ fresh (dom (sets w)) ≠ _friends ob)
    as [??] by (split; intros Heq; by rewrite Heq in Hfresh).
  destruct (decide (a = b)) as [->|Hne]; simplify_eq.
  - eexists _, _, _, _. split; [methods; steps; unfold set_intersection; steps; reflexivity|].
    split; [methods; steps; unfold set_intersection; steps; reflexivity|].
    world_simpl. set (l1 := fresh (dom (sets w))) in *.
    set (l2 := fresh (dom (<[l1:=_]> _))) in *.
    assert (l2 ≠ l1) by (rewrite dom_insert_L in Hfresh2; set_solver).
    store_simpl. split_and!; [done| |]; set_solver.
  - assert (__uid oa ≠ __uid ob).
    { rewrite (wf_uid w Hwf a oa Ha), (wf_uid w Hwf b ob Hb). lia. }
    eexists _, _, _, _. split; [methods; steps; unfold set_intersection; steps; reflexivity|].
    split; [methods; steps; unfold set_intersection; steps; reflexivity|].
    world_simpl. set (l1 := fresh (dom (sets w))) in *.
    set (l2 := fresh (dom (<[l1:=_]> _))) in *.
    assert (l2 ≠ l1) by (rewrite dom_insert_L in Hfresh2; set_solver).
    store_simpl. split_and!; [done| |]; set_solver.
Qed.

Lemma get_mutual_friends_comm_witness :
  ∃ w1 l1 w2 l2,
    get_mutual_friends 0 1 None common_friend = (w1, Ok l1) ∧
    get_mutual_friends 1 0 (Some 0%nat) w1 = (w2, Ok l2) ∧
    sets w1 !!! l1 = {[2]} ∧
    sets w2 !!! l2 = {[2]} ∧
    sets w2 !!! l1 = sets w2 !!! l2.
Proof.
  eassert (Ha : __all_users common_friend !! 0%nat = Some _) by evaluated.
  eassert (Hb : __all_users common_friend !! 1%nat = Some _) by evaluated.
  destruct (get_mutual_friends_comm common_friend 0 1 _ _ 0 (Some 0%nat) 1 None
    wf_common_friend Ha Hb) as (w1 & l1 & w2 & l2 & H1 & H2 & H3 & H4 & H5);
    [right; split; evaluated | left; reflexivity |].
  exists w1, l1, w2, l2.
  split; [exact H1|]. split; [exact H2|].
  split; [rewrite H3; evaluated|]. split; [rewrite H4; evaluated|exact H5].
Defined.

(** * Further properties of the code *)

(** ** The constructor and the lookup by uid *)

(** X1.  In a well-formed state [__init__] returns the next object, gives
    it the value of the class counter as uid and adds one to the counter;
    the state stays well-formed.  Looking the new uid up finds the new
    object, its history is the single record [("<now>", "Create an
    account")] with the time that [last_online] holds, and its blocked,
    incoming and outcoming sets are empty.  Every older account is still
    found under its uid and has the history it had. *)
Theorem init_registers name login password graduation_year birthday status
    friends w :
  wf w → (∀ l, friends = Some l → l ∈ dom (sets w)) →
  let self := length (__all_users w) in
  let uid := Phystech__uid w in
  let now := clock w (clock_reads w) in
  ∃ w',
    __init__ name login password graduation_year birthday status friends w =
      (w', Ok self) ∧
    wf w' ∧
    Phystech__uid w' = uid + 1 ∧
    _get_uid self w' = (w', Ok uid) ∧
    _get_phystech_object uid w' = (w', Ok self) ∧
    _get_user_history uid w' = (w', Ok [(now, "Create an account"%string)]) ∧
    last_online_of w' self = Some now ∧
    blocked_of w' self = ∅ ∧ incoming_of w' self = ∅ ∧
    outgoing_of w' self = ∅ ∧
    (∀ r o, __all_users w !! r = Some o →
       _get_phystech_object (__uid o) w' = (w', Ok r) ∧
       history_of w' r = history_of w r).
Proof.
  intros Hwf Hcaller self uid now.
  pose proof (wf_init name login password graduation_year birthday status
    friends w Hwf Hcaller) as Hwf'.
  destruct (init_run name login password graduation_year birthday status
    friends w Hcaller) as (fr & H0 & Hrun & _).
  cbv zeta in Hrun. rewrite Hrun in Hwf'. eexists. split; [exact Hrun|].
  clear Hrun. cbn [fst] in Hwf'.
  set (o := Build_Phystech _ _ _ _ _ _ _ _ _ _ _ _) in *.
  set (w' := Build_World _ _ _ _ _ _ _) in *.
  assert (Hself : __all_users w' !! self = Some o).
  { subst w' self. cbn. by rewrite lookup_app_r, Nat.sub_diag. }
  assert (Hold : ∀ r o, __all_users w !! r = Some o → __all_users w' !! r = Some o).
  { intros r o' Hr. subst w'. cbn. by apply lookup_app_l_Some. }
  split; [done|]. split; [done|].
  split; [by apply (attr_run __uid self o)|].
  split; [by apply (lookup_by_uid w' self o)|].
  split.
  { unfold _get_user_history. subst w'. cbn. by rewrite lookup_insert_eq. }
  split; [unfold last_online_of; by rewrite Hself|].
  unfold blocked_of, incoming_of, outgoing_of, contents. rewrite Hself.
  subst o. cbn [_block_users _incoming_friend_requests _outcoming_friend_requests].
  pose proof (is_fresh (dom H0)) as F1.
  pose proof (is_fresh (dom (<[fresh (dom H0):=∅]> H0))) as F2.
  pose proof (is_fresh (dom (<[fresh (dom (<[fresh (dom H0):=∅]> H0)):=∅]>
    (<[fresh (dom H0):=∅]> H0)))) as F3.
  set (l1 := fresh (dom H0)) in *.
  set (l2 := fresh (dom (<[l1:=∅]> H0))) in *.
  set (l3 := fresh (dom (<[l2:=∅]> (<[l1:=∅]> H0)))) in *.
  rewrite ?dom_insert_L in F2, F3.
  assert (l1 ≠ l2 ∧ l1 ≠ l3 ∧ l2 ≠ l3) as (N12 & N13 & N23) by set_solver.
  subst w'. cbn [sets].
  split; [by rewrite lookup_total_insert_ne, lookup_total_insert_ne,
    lookup_total_insert_eq by done|].
  split; [by rewrite lookup_total_insert_ne, lookup_total_insert_eq by done|].
  split; [by rewrite lookup_total_insert_eq|].
  intros r o Hr. split.
  - by apply lookup_by_uid; [|apply Hold].
  - unfold history_of. rewrite (Hold r o Hr), Hr. cbn.
    rewrite lookup_insert_ne; [done|].
    rewrite (wf_uid w Hwf r o Hr), (wf_counter w Hwf).
    apply lookup_lt_Some in Hr. lia.
Qed.

Lemma init_registers_witness :
  ∃ w',
    __init__ "kate" "login" "password" None None None None three_accounts =
      (w', Ok 3%nat) ∧
    _get_phystech_object 3 w' = (w', Ok 3%nat) ∧
    _get_user_history 3 w' = (w', Ok [("3", "Create an account")]%string).
Proof.
  destruct (init_registers "kate" "login" "password" None None None None
    three_accounts wf_three_accounts) as (w' & H1 & _ & _ & _ & H2 & H3 & _);
    [done|].
  exists w'. split_and!; [exact H1|exact H2|exact H3].
Defined.

(** X2.  [_get_phystech_object] loops over a set, whose iteration order is
    not specified: when no two accounts carry the same uid, the account
    that the loop returns for a uid, or the absence of one, is the same for
    every order in which the accounts are visited. *)
Theorem iteration_order_immaterial u (l l' : list Phystech) :
  l ≡ₚ l' → NoDup (__uid <$> l) →
  snd <$> find_user u l = snd <$> find_user u l'.
Proof. apply find_user_any_order. Qed.

Lemma iteration_order_immaterial_witness :
  snd <$> find_user 1 (__all_users three_accounts) =
  snd <$> find_user 1 (reverse (__all_users three_accounts)).
Proof.
  apply iteration_order_immaterial.
  - by rewrite reverse_Permutation.
  - vm_compute. repeat constructor; set_solver.
Defined.

(** X3.  Every method keeps the state well-formed, whether it returns or
    raises: the n-th object carries uid n, so no two accounts share a uid;
    the class counter is the number of accounts; every account has a
    history list; the sets that an account refers to exist; the blocked,
    incoming and outcoming sets of all accounts are different objects, and
    one of them is the [_friends] set of an account only if that account
    was created later.  If moreover no [_friends] set is referred to by
    another attribute of any account, the method keeps that as well, so
    that every set stays the attribute of one account only. *)
Theorem methods_keep_well_formed w self c :
  wf w →
  wf (after (invoke self c) w) ∧
  (friends_unshared w → friends_unshared (after (invoke self c) w)).
Proof.
  intros Hwf. split; [by apply wf_invoke|apply friends_unshared_invoke].
Qed.

Lemma methods_keep_well_formed_witness :
  wf (after (invoke 0 (BlockUser 1 None)) two_friends) ∧
  friends_unshared (after (invoke 0 (BlockUser 1 None)) two_friends).
Proof.
  destruct (methods_keep_well_formed two_friends 0 (BlockUser 1 None)
    wf_two_friends) as [H1 H2].
  split; [exact H1|exact (H2 friends_unshared_two_friends)].
Defined.

(** X4.  A method that looks its peer up by a uid that no account carries
    raises [KeyError("Id <uid> wasn't found!")].  By then the acting
    account's history has the record of the call and [last_online] is
    updated, if the method logs; nothing else has changed: no set, no
    output. *)
Theorem unknown_uid_raises w a oa c u :
  wf w → __all_users w !! a = Some oa →
  resolves_by_uid c = Some u → ¬ known w u →
  invoke a c w =
    (if logs c then logged a (__uid oa) (label c) w else w,
     Raise (not_found u)).
Proof.
  intros Hwf Ha Hc Hk.
  assert (Hk' : ∀ action, ¬ known (logged a (__uid oa) action w) u).
  { intros action. by rewrite known_logged. }
  destruct c; try destruct user; simplify_eq/=; methods; try destruct flag; steps;
    rewrite ?bind_assoc; cbn [resolve];
    try (erewrite bind_Raise
      by (apply get_phystech_object_missing; first [exact Hk | apply Hk']); done).
Qed.

Lemma unknown_uid_raises_witness :
  ∃ oa,
    __all_users three_accounts !! 0%nat = Some oa ∧
    invoke 0 (RemoveFriend 7 None true) three_accounts =
      (logged 0 (__uid oa) "Remove friend" three_accounts,
       Raise (not_found 7)).
Proof.
  eassert (Ha : __all_users three_accounts !! 0%nat = Some _) by evaluated.
  eexists. split; [exact Ha|].
  apply (unknown_uid_raises three_accounts 0 _ (RemoveFriend 7 None true) 7
    wf_three_accounts Ha); [reflexivity|].
  intros (r & o & Hr & Ho).
  pose proof (wf_uid _ wf_three_accounts r o Hr) as Hu.
  apply lookup_lt_Some in Hr.
  assert (Hlen : length (__all_users three_accounts) = 3%nat) by evaluated.
  lia.
Defined.


(** ** The history lists *)

(** X5.  No method removes or rewrites a record: the history list that
    [_get_user_history] returns for a uid before a call is a prefix of the
    list it returns after the call, for every method, every acting object
    and every outcome. *)
Theorem history_only_grows w self c user_uid h :
  _get_user_history user_uid w = (w, Ok h) →
  ∃ h', _get_user_history user_uid (after (invoke self c) w) =
          (after (invoke self c) w, Ok (h ++ h')).
Proof.
  unfold _get_user_history. intros Hh.
  destruct (__user_history w !! user_uid) as [h0|] eqn:E; [|done].
  injection Hh as <-.
  destruct (grows_invoke self c w user_uid h0 E) as [h' Hh'].
  exists h'. unfold after. by rewrite Hh'.
Qed.

Lemma history_only_grows_witness :
  ∃ h', _get_user_history 0 (after (invoke 0 (BlockUser 1 None)) three_accounts) =
          (after (invoke 0 (BlockUser 1 None)) three_accounts,
           Ok ([("0", "Create an account")]%string ++ h')).
Proof.
  apply (history_only_grows three_accounts 0 (BlockUser 1 None) 0).
  vm_compute. reflexivity.
Defined.

(** X6.  A call of any method but [block_user] by an existing account
    appends exactly one record to the history of that account, the time of
    the call with the label of the method, whether the call returns or
    raises; a getter or [unblock_user] called with [flag=False] appends
    none.  The histories of all other accounts stay as they are. *)
Theorem call_appends_one_record w a oa c :
  wf w → __all_users w !! a = Some oa → (∀ u p, c ≠ BlockUser u p) →
  history_of (after (invoke a c) w) a =
    history_of w a ++
      (if logs c then [(clock w (clock_reads w), label c)] else []) ∧
  ∀ r, r ≠ a → history_of (after (invoke a c) w) r = history_of w r.
Proof.
  intros Hwf Ha Hc. split.
  - rewrite (history_after_invoke w a oa c a) by done. by rewrite decide_True.
  - intros r Hr. rewrite (history_after_invoke w a oa c r) by done.
    by rewrite decide_False, app_nil_r.
Qed.

Lemma call_appends_one_record_witness :
  history_of (after (invoke 0 (RemoveFriend 7 None true)) three_accounts) 0 =
    history_of three_accounts 0 ++ [("3", "Remove friend")]%string ∧
  ∀ r, r ≠ 0%nat →
    history_of (after (invoke 0 (RemoveFriend 7 None true)) three_accounts) r =
    history_of three_accounts r.
Proof.
  eapply (call_appends_one_record three_accounts 0 _ (RemoveFriend 7 None true)).
  - apply wf_three_accounts.
  - evaluated.
  - intros u p. discriminate.
Defined.

(** X7.  [block_user] on another account that is not blocked yet, when the
    peer lists the acting account as a friend exactly when the acting
    account lists the peer, and the peer's request is among the incoming
    requests of the acting account exactly when it is among the outcoming
    requests of the peer, returns normally and appends three records to the
    history of the acting account, at three consecutive readings of the
    clock: "Block user", then "Remove friend" and "Accept friend" from the
    two methods it calls, which log although [remove_friend] is called with
    [flag=False]. *)
Theorem block_user_three_records w a b oa ob u p :
  wf w → __all_users w !! a = Some oa → __all_users w !! b = Some ob → a ≠ b →
  names u p b ob →
  __uid ob ∉ blocked_of w a →
  (__uid ob ∈ friends_of w a ↔ __uid oa ∈ friends_of w b) →
  (__uid ob ∈ incoming_of w a ↔ __uid oa ∈ outgoing_of w b) →
  ∃ w',
    block_user a u p w = (w', Ok tt) ∧
    history_of w' a =
      history_of w a ++
        [(clock w (clock_reads w), "Block user"%string);
         (clock w (S (clock_reads w)), "Remove friend"%string);
         (clock w (S (S (clock_reads w))), "Accept friend"%string)].
Proof.
  intros Hwf Ha Hb Hne Hn Hblk Hfr Hreq.
  destruct (block_user_effect w a b oa ob u p Hwf Ha Hb Hne Hn Hblk Hfr Hreq)
    as (w' & Hrun & _ & Hhist & _).
  by exists w'.
Qed.

Lemma block_user_three_records_witness :
  ∃ w',
    block_user 0 1 None three_accounts = (w', Ok tt) ∧
    history_of w' 0 =
      [("0", "Create an account"); ("3", "Block user"); ("4", "Remove friend");
       ("5", "Accept friend")]%string.
Proof.
  eassert (Ha : __all_users three_accounts !! 0%nat = Some _) by evaluated.
  eassert (Hb : __all_users three_accounts !! 1%nat = Some _) by evaluated.
  destruct (block_user_three_records three_accounts 0 1 _ _ 1 None
    wf_three_accounts Ha Hb) as (w' & H1 & H2);
    [lia | right; split; evaluated | evaluated..|].
  exists w'. split; [exact H1|]. rewrite H2. evaluated.
Defined.

(** X8.  In a well-formed state where the [last_online] attribute of every
    account is the time of the latest record of its history, as it is
    after [__init__], it still is after a call of any method. *)
Theorem last_online_is_latest_record w self c :
  wf w → online_at_last_record w →
  online_at_last_record (after (invoke self c) w).
Proof. intros Hwf Hon. by apply (keeps_online_invoke self c w). Qed.

Lemma last_online_is_latest_record_witness :
  online_at_last_record (after (invoke 0 (BlockUser 1 None)) three_accounts).
Proof.
  apply last_online_is_latest_record.
  - apply wf_three_accounts.
  - apply online_three_accounts.
Defined.


(** ** Friend requests *)

(** X9.  [add_friend] to an account that has not blocked the sender, is not
    among the sender's friends and does not hold a request of the sender
    puts the peer's uid into the sender's outcoming requests and the
    sender's uid into the peer's incoming requests, takes the peer out of
    the sender's blocked set if it was there, prints "Your request was
    sent" and leaves the other request sets and the peer's blocked set as
    they are. *)
Theorem add_friend_sends w a b oa ob u p :
  wf w → __all_users w !! a = Some oa → __all_users w !! b = Some ob → a ≠ b →
  names u p b ob →
  __uid oa ∉ blocked_of w b → __uid ob ∉ friends_of w a →
  __uid oa ∉ incoming_of w b →
  ∃ w',
    add_friend a u p w = (w', Ok tt) ∧
    outgoing_of w' a = {[__uid ob]} ∪ outgoing_of w a ∧
    incoming_of w' b = {[__uid oa]} ∪ incoming_of w b ∧
    blocked_of w' a = blocked_of w a ∖ {[__uid ob]} ∧
    incoming_of w' a = incoming_of w a ∧
    outgoing_of w' b = outgoing_of w b ∧
    blocked_of w' b = blocked_of w b ∧
    stdout w' = stdout w ++ ["Your request was sent"%string].
Proof.
  intros Hwf Ha Hb Hne Hn Hblk Hfr Hreq.
  two_accounts_setup Hwf Ha Hb Hne.
  open_account oa. open_account ob.
  destruct (decide (uid_0 ∈ sets w !!! blocked_)) as [Hbl|Hbl].
  - eexists. split.
    { methods. steps. branch_false. branch_false. branch_false. branch_true.
      apply print_run. }
    world_simpl. unfold contents. look. split_and!; try done; members.
  - eexists. split.
    { methods. steps. branch_false. branch_false. branch_false. branch_false.
      apply print_run. }
    world_simpl. unfold contents. look. split_and!; try done; members.
Qed.

Lemma add_friend_sends_witness :
  ∃ w',
    add_friend 0 1 None three_accounts = (w', Ok tt) ∧
    outgoing_of w' 0 = {[1]} ∪ outgoing_of three_accounts 0 ∧
    incoming_of w' 1 = {[0]} ∪ incoming_of three_accounts 1.
Proof.
  eassert (Ha : __all_users three_accounts !! 0%nat = Some _) by evaluated.
  eassert (Hb : __all_users three_accounts !! 1%nat = Some _) by evaluated.
  destruct (add_friend_sends three_accounts 0 1 _ _ 1 None
    wf_three_accounts Ha Hb) as (w' & H1 & H2 & H3 & _);
    [lia | right; split; evaluated | evaluated..|].
  exists w'. split_and!; [exact H1|exact H2|exact H3].
Defined.

(** X10.  [add_friend] to an account that has blocked the sender, or is
    among the sender's friends already, or holds a request of the sender
    already, returns normally and changes no set of any account. *)
Theorem add_friend_soft_outcomes w a b oa ob u p :
  wf w → __all_users w !! a = Some oa → __all_users w !! b = Some ob → a ≠ b →
  names u p b ob →
  (__uid oa ∈ blocked_of w b) ∨ (__uid ob ∈ friends_of w a) ∨
    (__uid oa ∈ incoming_of w b) →
  ∃ w',
    add_friend a u p w = (w', Ok tt) ∧
    ∀ r, friends_of w' r = friends_of w r ∧ blocked_of w' r = blocked_of w r ∧
         incoming_of w' r = incoming_of w r ∧ outgoing_of w' r = outgoing_of w r.
Proof.
  intros Hwf Ha Hb Hne Hn Hreq.
  two_accounts_setup Hwf Ha Hb Hne.
  assert (Hframe : ∀ line t h w',
    w' = {| Phystech__uid := Phystech__uid w;
            __all_users := alter (touch t) a (__all_users w);
            __user_history := h; sets := sets w; stdout := stdout w ++ [line];
            clock := clock w; clock_reads := S (clock_reads w) |} →
    ∀ r, contents _friends w' r = contents _friends w r ∧
         contents _block_users w' r = contents _block_users w r ∧
         contents _incoming_friend_requests w' r = contents _incoming_friend_requests w r ∧
         contents _outcoming_friend_requests w' r = contents _outcoming_friend_requests w r).
  { intros line t h w' -> r. split_and!; by eapply contents_touched. }
  open_account oa. open_account ob.
  destruct (decide (uid_ ∈ sets w !!! blocked_0)) as [Hbl|Hbl];
    [|destruct (decide (uid_0 ∈ sets w !!! friends_)) as [Hf|Hf]].
  - eexists. split.
    { methods. steps. branch_true. apply print_run. }
    by eapply Hframe.
  - eexists. split.
    { methods. steps. branch_false. branch_true. apply print_run. }
    by eapply Hframe.
  - eexists. split.
    { methods. steps. branch_false. branch_false. branch_true. apply print_run. }
    by eapply Hframe.
Qed.

Lemma add_friend_soft_outcomes_witness :
  ∃ w',
    add_friend 0 1 None request_sent = (w', Ok tt) ∧
    ∀ r, friends_of w' r = friends_of request_sent r ∧
         blocked_of w' r = blocked_of request_sent r ∧
         incoming_of w' r = incoming_of request_sent r ∧
         outgoing_of w' r = outgoing_of request_sent r.
Proof.
  eapply (add_friend_soft_outcomes request_sent 0 1).
  - apply wf_request_sent.
  - evaluated.
  - evaluated.
  - lia.
  - right. split; evaluated.
  - right. right. evaluated.
Defined.

(** A request that the peer has sent does not stop [add_friend]: the
    sender's own request is recorded beside it. *)
Lemma crossing_request_is_recorded :
  (1 ∈ incoming_of request_received 0) ∧ (0 ∈ outgoing_of request_received 1) ∧
  ∃ w', add_friend 0 1 None request_received = (w', Ok tt) ∧
    (1 ∈ outgoing_of w' 0) ∧ (0 ∈ incoming_of w' 1).
Proof.
  split; [evaluated|]. split; [evaluated|].
  eexists. split; [evaluated|]. split; evaluated.
Qed.

(** X11.  When there is no relationship between two accounts and the second
    has not blocked the first, [a.add_friend(b)] followed by
    [b.accept_friend_request(a, True)] makes them friends of each other
    and leaves no request between them. *)
Theorem request_then_accept w a b oa ob u1 p1 u2 p2 :
  wf w → __all_users w !! a = Some oa → __all_users w !! b = Some ob → a ≠ b →
  names u1 p1 b ob → names u2 p2 a oa →
  __uid oa ∉ blocked_of w b →
  __uid ob ∉ friends_of w a → __uid oa ∉ friends_of w b →
  __uid oa ∉ incoming_of w b → __uid ob ∉ outgoing_of w a →
  __uid ob ∉ incoming_of w a → __uid oa ∉ outgoing_of w b →
  ∃ w1 w2,
    add_friend a u1 p1 w = (w1, Ok tt) ∧
    accept_friend_request b u2 true p2 w1 = (w2, Ok tt) ∧
    (__uid oa ∈ friends_of w2 b) ∧ (__uid ob ∈ friends_of w2 a) ∧
    (__uid oa ∉ incoming_of w2 b) ∧ (__uid ob ∉ outgoing_of w2 a) ∧
    (__uid ob ∉ incoming_of w2 a) ∧ (__uid oa ∉ outgoing_of w2 b).
Proof.
  intros Hwf Ha Hb Hne Hn1 Hn2 Hblk Hfa Hfb Hib Hoa Hia Hob.
  two_accounts_setup Hwf Ha Hb Hne.
  open_account oa. open_account ob.
  destruct (decide (uid_0 ∈ sets w !!! blocked_)) as [Hbl|Hbl].
  - eexists _, _. split.
    { methods. steps. branch_false. branch_false. branch_false. branch_true.
      apply print_run. }
    split.
    { methods. steps. branch_true. eapply set_remove_run. members. }
    world_simpl. unfold contents. look. split_and!; members.
  - eexists _, _. split.
    { methods. steps. branch_false. branch_false. branch_false. branch_false.
      apply print_run. }
    split.
    { methods. steps. branch_true. eapply set_remove_run. members. }
    world_simpl. unfold contents. look. split_and!; members.
Qed.

Lemma request_then_accept_witness :
  ∃ oa ob w1 w2,
    __all_users three_accounts !! 0%nat = Some oa ∧
    __all_users three_accounts !! 1%nat = Some ob ∧
    add_friend 0 1 None three_accounts = (w1, Ok tt) ∧
    accept_friend_request 1 0 true (Some 0%nat) w1 = (w2, Ok tt) ∧
    (__uid oa ∈ friends_of w2 1) ∧ (__uid ob ∈ friends_of w2 0).
Proof.
  eassert (Ha : __all_users three_accounts !! 0%nat = Some _) by evaluated.
  eassert (Hb : __all_users three_accounts !! 1%nat = Some _) by evaluated.
  destruct (request_then_accept three_accounts 0 1 _ _ 1 None 0 (Some 0%nat)
    wf_three_accounts Ha Hb) as (w1 & w2 & H1 & H2 & H3 & H4 & _);
    [lia | right; split; evaluated | left; reflexivity | evaluated..|].
  eexists _, _, w1, w2. split_and!; done.
Defined.

(** X12.  [accept_friend_request] with [decision=False] on a pending
    request removes it from the incoming requests of the acting account and
    from the outcoming requests of the sender, and changes neither
    account's friends nor any other set of the two, when every account's
    friends set is its own. *)
Theorem reject_clears_request w a b oa ob u p :
  wf w → friends_unshared w →
  __all_users w !! a = Some oa → __all_users w !! b = Some ob → a ≠ b →
  names u p b ob →
  __uid ob ∈ incoming_of w a → __uid oa ∈ outgoing_of w b →
  ∃ w',
    accept_friend_request a u false p w = (w', Ok tt) ∧
    incoming_of w' a = incoming_of w a ∖ {[__uid ob]} ∧
    outgoing_of w' b = outgoing_of w b ∖ {[__uid oa]} ∧
    friends_of w' a = friends_of w a ∧ friends_of w' b = friends_of w b ∧
    blocked_of w' a = blocked_of w a ∧ blocked_of w' b = blocked_of w b ∧
    outgoing_of w' a = outgoing_of w a ∧ incoming_of w' b = incoming_of w b.
Proof.
  intros Hwf Hun Ha Hb Hne Hn Hin Hout.
  unshared_setup Hun Ha Hb Hne.
  two_accounts_setup Hwf Ha Hb Hne.
  open_account oa. open_account ob.
  eexists. split.
  { methods. steps. branch_true. eapply set_remove_run. members. }
  world_simpl. unfold contents. look. split_and!; try done; members.
Qed.

Lemma reject_clears_request_witness :
  ∃ w',
    accept_friend_request 1 0 false None request_sent = (w', Ok tt) ∧
    incoming_of w' 1 = incoming_of request_sent 1 ∖ {[0]} ∧
    outgoing_of w' 0 = outgoing_of request_sent 0 ∖ {[1]} ∧
    friends_of w' 1 = friends_of request_sent 1.
Proof.
  eassert (Ha : __all_users request_sent !! 1%nat = Some _) by evaluated.
  eassert (Hb : __all_users request_sent !! 0%nat = Some _) by evaluated.
  destruct (reject_clears_request request_sent 1 0 _ _ 0 None
    wf_request_sent (friends_unshared_invoke _ _ _ friends_unshared_three_accounts)
    Ha Hb)
    as (w' & H1 & H2 & H3 & H4 & _);
    [lia | right; split; evaluated | evaluated..|].
  exists w'. split_and!; [exact H1|exact H2|exact H3|exact H4].
Defined.

(** X13.  [accept_friend_request] for an account whose request is not among
    the incoming ones prints "Such user isn't in your friend requests. Check
    id one more time" and changes no set, whatever the decision. *)
Theorem accept_unrequested_is_noop w a b oa ob u decision p :
  wf w → __all_users w !! a = Some oa → __all_users w !! b = Some ob →
  names u p b ob →
  __uid ob ∉ incoming_of w a →
  ∃ w',
    accept_friend_request a u decision p w = (w', Ok tt) ∧
    sets w' = sets w ∧
    stdout w' = stdout w ++
      ["Such user isn't in your friend requests. Check id one more time"%string].
Proof.
  intros Hwf Ha Hb Hn Hin.
  pose proof (wf_history _ Hwf _ _ Ha) as [ha Hha].
  views. destruct (decide (a = b)) as [->|Hne].
  - assert (ob = oa) as -> by congruence.
    eexists. split.
    { methods. steps. branch_false. apply print_run. }
    done.
  - eexists. split.
    { methods. steps. branch_false. apply print_run. }
    done.
Qed.

Lemma accept_unrequested_is_noop_witness :
  ∃ w',
    accept_friend_request 0 1 true None three_accounts = (w', Ok tt) ∧
    sets w' = sets three_accounts.
Proof.
  eassert (Ha : __all_users three_accounts !! 0%nat = Some _) by evaluated.
  eassert (Hb : __all_users three_accounts !! 1%nat = Some _) by evaluated.
  destruct (accept_unrequested_is_noop three_accounts 0 1 _ _ 1 true None
    wf_three_accounts Ha Hb) as (w' & H1 & H2 & _);
    [right; split; evaluated | evaluated |].
  exists w'. split; [exact H1|exact H2].
Defined.


(** ** Removing a friend *)

(** X14.  When every account's friends set is its own, [remove_friend]
    takes the peer's uid out of the acting account's friends and the
    acting account's uid out of the peer's; when the peer is not among the
    acting account's friends nothing changes.  The blocked sets and the
    requests of both stay as they are. *)
Theorem remove_friend_effect w a b oa ob u p flag :
  wf w → friends_unshared w →
  __all_users w !! a = Some oa → __all_users w !! b = Some ob → a ≠ b →
  names u p b ob →
  (__uid ob ∈ friends_of w a → __uid oa ∈ friends_of w b) →
  ∃ w',
    remove_friend a u p flag w = (w', Ok tt) ∧
    friends_of w' a = friends_of w a ∖ {[__uid ob]} ∧
    friends_of w' b =
      (if decide (__uid ob ∈ friends_of w a) then friends_of w b ∖ {[__uid oa]}
       else friends_of w b) ∧
    blocked_of w' a = blocked_of w a ∧ blocked_of w' b = blocked_of w b ∧
    incoming_of w' a = incoming_of w a ∧ incoming_of w' b = incoming_of w b ∧
    outgoing_of w' a = outgoing_of w a ∧ outgoing_of w' b = outgoing_of w b.
Proof.
  intros Hwf Hun Ha Hb Hne Hn Hsym.
  unshared_setup Hun Ha Hb Hne.
  two_accounts_setup Hwf Ha Hb Hne.
  open_account oa. open_account ob.
  destruct (decide (uid_0 ∈ sets w !!! friends_)) as [Hf|Hf].
  - eexists. split.
    { methods. steps. branch_true. apply print_run. }
    world_simpl. unfold contents. look. split_and!; try done; members.
  - destruct flag.
    + eexists. split.
      { methods. steps. branch_false. apply print_run. }
      world_simpl. unfold contents. look. split_and!; try done; members.
    + eexists. split.
      { methods. steps. branch_false. reflexivity. }
      world_simpl. unfold contents. look. split_and!; try done; members.
Qed.

Lemma remove_friend_effect_witness :
  ∃ w',
    remove_friend 0 1 None true two_friends = (w', Ok tt) ∧
    friends_of w' 0 = friends_of two_friends 0 ∖ {[1]} ∧
    friends_of w' 1 = friends_of two_friends 1 ∖ {[0]}.
Proof.
  eassert (Ha : __all_users two_friends !! 0%nat = Some _) by evaluated.
  eassert (Hb : __all_users two_friends !! 1%nat = Some _) by evaluated.
  destruct (remove_friend_effect two_friends 0 1 _ _ 1 None true
    wf_two_friends friends_unshared_two_friends Ha Hb)
    as (w' & H1 & H2 & H3 & _);
    [lia | right; split; evaluated | evaluated |].
  exists w'. split_and!; [exact H1|exact H2|].
  rewrite H3. evaluated.
Defined.

(** X15.  [remove_friend] is not atomic: when the peer is among the acting
    account's friends but does not list the acting account, the method
    raises [KeyError] with the acting account's uid, after it has removed
    the peer from the acting account's friends. *)
Theorem remove_friend_one_sided w a b oa ob u p flag :
  wf w → __all_users w !! a = Some oa → __all_users w !! b = Some ob → a ≠ b →
  names u p b ob →
  __uid ob ∈ friends_of w a → __uid oa ∉ friends_of w b →
  ∃ w',
    remove_friend a u p flag w = (w', Raise (KeyError (PyInt (__uid oa)))) ∧
    (__uid ob ∉ friends_of w' a).
Proof.
  intros Hwf Ha Hb Hne Hn Hf Hnf.
  two_accounts_setup Hwf Ha Hb Hne.
  open_account oa. open_account ob.
  eexists. split.
  { methods. steps. branch_true.
    erewrite bind_Raise by (apply set_remove_missing; members). reflexivity. }
  world_simpl. unfold contents. look. members.
Qed.

Lemma remove_friend_one_sided_witness :
  ∃ oa ob w',
    __all_users one_sided_friends !! 2%nat = Some oa ∧
    __all_users one_sided_friends !! 0%nat = Some ob ∧
    (__uid ob ∈ friends_of one_sided_friends 2) ∧
    remove_friend 2 0 None true one_sided_friends =
      (w', Raise (KeyError (PyInt (__uid oa)))) ∧
    (__uid ob ∉ friends_of w' 2).
Proof.
  eassert (Ha : __all_users one_sided_friends !! 2%nat = Some _) by evaluated.
  eassert (Hb : __all_users one_sided_friends !! 0%nat = Some _) by evaluated.
  destruct (remove_friend_one_sided one_sided_friends 2 0 _ _ 0 None true
    wf_one_sided_friends Ha Hb) as (w' & H1 & H2);
    [lia | right; split; evaluated | evaluated..|].
  eexists _, _, w'. split_and!; [exact Ha|exact Hb|evaluated|exact H1|exact H2].
Defined.


(** ** Blocking *)

(** X16.  [block_user] on an account that is not blocked yet, when the two
    agree on being friends and on the peer's request, returns normally;
    afterwards the peer is blocked, neither is among the other's friends
    and the peer's request to the acting account is gone from both sides.
    A request that the acting account itself has sent to the peer stays
    where it was. *)
Theorem block_user_clears w a b oa ob u p :
  wf w → __all_users w !! a = Some oa → __all_users w !! b = Some ob → a ≠ b →
  names u p b ob →
  __uid ob ∉ blocked_of w a →
  (__uid ob ∈ friends_of w a ↔ __uid oa ∈ friends_of w b) →
  (__uid ob ∈ incoming_of w a ↔ __uid oa ∈ outgoing_of w b) →
  ∃ w',
    block_user a u p w = (w', Ok tt) ∧
    (__uid ob ∈ blocked_of w' a) ∧
    (__uid ob ∉ friends_of w' a) ∧ (__uid oa ∉ friends_of w' b) ∧
    (__uid ob ∉ incoming_of w' a) ∧ (__uid oa ∉ outgoing_of w' b) ∧
    (__uid ob ∈ outgoing_of w' a ↔ __uid ob ∈ outgoing_of w a) ∧
    (__uid oa ∈ incoming_of w' b ↔ __uid oa ∈ incoming_of w b).
Proof.
  intros Hwf Ha Hb Hne Hn Hblk Hfr Hreq.
  destruct (block_user_effect w a b oa ob u p Hwf Ha Hb Hne Hn Hblk Hfr Hreq)
    as (w' & Hrun & Hsets & _).
  by exists w'.
Qed.

Lemma block_user_clears_witness :
  ∃ oa ob w',
    __all_users two_friends !! 1%nat = Some oa ∧
    __all_users two_friends !! 0%nat = Some ob ∧
    (__uid ob ∈ friends_of two_friends 1) ∧
    block_user 1 0 None two_friends = (w', Ok tt) ∧
    (__uid ob ∈ blocked_of w' 1) ∧
    (__uid ob ∉ friends_of w' 1) ∧ (__uid oa ∉ friends_of w' 0).
Proof.
  eassert (Ha : __all_users two_friends !! 1%nat = Some _) by evaluated.
  eassert (Hb : __all_users two_friends !! 0%nat = Some _) by evaluated.
  destruct (block_user_clears two_friends 1 0 _ _ 0 None wf_two_friends Ha Hb)
    as (w' & H1 & H2 & H3 & H4 & _);
    [lia | right; split; evaluated | evaluated..|].
  eexists _, _, w'.
  split_and!; [exact Ha|exact Hb|evaluated|exact H1|exact H2|exact H3|exact H4].
Defined.

(** The request of the acting account is still there after the block. *)
Lemma block_user_keeps_own_request :
  ∃ w', block_user 0 1 None request_sent = (w', Ok tt) ∧
    (1 ∈ blocked_of w' 0) ∧ (1 ∈ outgoing_of w' 0) ∧ (0 ∈ incoming_of w' 1).
Proof. eexists. split; [evaluated|]. split_and!; evaluated. Qed.

(** X17.  [block_user] on another account that is not blocked yet, when the
    peer lists the acting account as a friend exactly when the acting
    account lists the peer, and the peer's request is among the incoming
    requests of the acting account exactly when it is among the outcoming
    requests of the peer, returns normally and prints, in this order: "You'
    deleted <name> from your friends" when the peer was a friend; "Such
    user isn't in your friend requests. Check id one more time" when the
    peer had no request pending, a message of the nested
    [accept_friend_request]; and "You blocked <name>". *)
Theorem block_user_output w a b oa ob u p :
  wf w → __all_users w !! a = Some oa → __all_users w !! b = Some ob → a ≠ b →
  names u p b ob →
  __uid ob ∉ blocked_of w a →
  (__uid ob ∈ friends_of w a ↔ __uid oa ∈ friends_of w b) →
  (__uid ob ∈ incoming_of w a ↔ __uid oa ∈ outgoing_of w b) →
  ∃ w',
    block_user a u p w = (w', Ok tt) ∧
    stdout w' =
      stdout w ++
        (if decide (__uid ob ∈ friends_of w a)
         then ["You' deleted " +:+ name ob +:+ " from your friends"] else []) ++
        (if decide (__uid ob ∈ incoming_of w a) then []
         else ["Such user isn't in your friend requests. Check id one more time"%string]) ++
        ["You blocked " +:+ name ob].
Proof.
  intros Hwf Ha Hb Hne Hn Hblk Hfr Hreq.
  destruct (block_user_effect w a b oa ob u p Hwf Ha Hb Hne Hn Hblk Hfr Hreq)
    as (w' & Hrun & _ & _ & Hout).
  by exists w'.
Qed.

Lemma block_user_output_witness :
  ∃ w',
    block_user 0 1 None three_accounts = (w', Ok tt) ∧
    stdout w' =
      ["Such user isn't in your friend requests. Check id one more time";
       "You blocked piter"]%string.
Proof.
  eassert (Ha : __all_users three_accounts !! 0%nat = Some _) by evaluated.
  eassert (Hb : __all_users three_accounts !! 1%nat = Some _) by evaluated.
  destruct (block_user_output three_accounts 0 1 _ _ 1 None
    wf_three_accounts Ha Hb) as (w' & H1 & H2);
    [lia | right; split; evaluated | evaluated..|].
  exists w'. split; [exact H1|]. rewrite H2. evaluated.
Defined.

(** X18.  [unblock_user] takes the peer out of the acting account's blocked
    set and changes neither the peer's blocked set nor a request set of the
    two accounts; with [flag=True] it
    prints "You're unblocked <name>" when the peer was blocked and "<name>
    isn't blocked" when it was not, with [flag=False] it prints nothing. *)
Theorem unblock_user_effect w a b oa ob u p flag :
  wf w → __all_users w !! a = Some oa → __all_users w !! b = Some ob → a ≠ b →
  names u p b ob →
  ∃ w',
    unblock_user a u p flag w = (w', Ok tt) ∧
    blocked_of w' a = blocked_of w a ∖ {[__uid ob]} ∧
    incoming_of w' a = incoming_of w a ∧ outgoing_of w' a = outgoing_of w a ∧
    blocked_of w' b = blocked_of w b ∧
    incoming_of w' b = incoming_of w b ∧ outgoing_of w' b = outgoing_of w b ∧
    stdout w' = stdout w ++
      (if flag then
         [if decide (__uid ob ∈ blocked_of w a)
          then "You're unblocked " +:+ name ob
          else name ob +:+ " isn't blocked"]
       else []).
Proof.
  intros Hwf Ha Hb Hne Hn.
  two_accounts_setup Hwf Ha Hb Hne.
  open_account oa. open_account ob.
  pose proof (wf_uids_ok w Hwf).
  destruct (decide (uid_0 ∈ sets w !!! blocked_)) as [Hbl|Hbl]; destruct flag.
  - eexists. split.
    { methods. steps. branch_true. apply print_run. }
    world_simpl. unfold contents. look. split_and!; try done; members.
  - eexists. split.
    { methods. steps. branch_true. reflexivity. }
    world_simpl. unfold contents. look. rewrite app_nil_r.
    split_and!; try done; members.
  - eexists. split.
    { methods. steps. branch_false. apply print_run. }
    world_simpl. unfold contents. look. split_and!; try done; members.
  - eexists. split.
    { methods. steps. branch_false. reflexivity. }
    unfold contents. look. rewrite app_nil_r.
    split_and!; try done; members.
Qed.

Lemma unblock_user_effect_witness :
  ∃ w',
    (1 ∈ blocked_of one_blocked 0) ∧
    unblock_user 0 1 None true one_blocked = (w', Ok tt) ∧
    blocked_of w' 0 = ∅ ∧
    stdout w' = stdout one_blocked ++ ["You're unblocked piter"%string].
Proof.
  eassert (Ha : __all_users one_blocked !! 0%nat = Some _) by evaluated.
  eassert (Hb : __all_users one_blocked !! 1%nat = Some _) by evaluated.
  destruct (unblock_user_effect one_blocked 0 1 _ _ 1 None true
    wf_one_blocked Ha Hb) as (w' & H1 & H2 & _ & _ & _ & _ & _ & H3);
    [lia | right; split; evaluated |].
  exists w'. split; [evaluated|]. split; [exact H1|].
  split; [rewrite H2; evaluated|rewrite H3; evaluated].
Defined.

(** X19.  After [a.block_user(b)] has blocked [b], [b.add_friend(a)] is
    refused: it prints "You can't add <name of a> due to you're blocked"
    and changes no set. *)
Theorem block_prevents_request w a b oa ob u p u' p' :
  wf w → __all_users w !! a = Some oa → __all_users w !! b = Some ob → a ≠ b →
  names u p b ob → names u' p' a oa →
  __uid ob ∉ blocked_of w a →
  (__uid ob ∈ friends_of w a ↔ __uid oa ∈ friends_of w b) →
  (__uid ob ∈ incoming_of w a ↔ __uid oa ∈ outgoing_of w b) →
  ∃ w1 w2,
    block_user a u p w = (w1, Ok tt) ∧
    add_friend b u' p' w1 = (w2, Ok tt) ∧
    sets w2 = sets w1 ∧
    stdout w2 = stdout w1 ++
      ["You can't add " +:+ name oa +:+ " due to you're blocked"].
Proof.
  intros Hwf Ha Hb Hne Hn Hn' Hblk Hfr Hreq.
  two_accounts_setup Hwf Ha Hb Hne.
  open_account oa. open_account ob.
  destruct (decide (uid_0 ∈ sets w !!! friends_)) as [Hf|Hf];
    destruct (decide (uid_0 ∈ sets w !!! incoming_)) as [Hi|Hi].
  - eexists _, _. split.
    { methods. steps. branch_false. branch_true. branch_true. apply print_run. }
    split.
    { methods. steps. branch_true. apply print_run. }
    done.
  - eexists _, _. split.
    { methods. steps. branch_false. branch_true. branch_false. apply print_run. }
    split.
    { methods. steps. branch_true. apply print_run. }
    done.
  - eexists _, _. split.
    { methods. steps. branch_false. branch_false. branch_true. apply print_run. }
    split.
    { methods. steps. branch_true. apply print_run. }
    done.
  - eexists _, _. split.
    { methods. steps. branch_false. branch_false. branch_false. apply print_run. }
    split.
    { methods. steps. branch_true. apply print_run. }
    done.
Qed.

Lemma block_prevents_request_witness :
  ∃ w1 w2,
    block_user 1 0 None two_friends = (w1, Ok tt) ∧
    add_friend 0 1 None w1 = (w2, Ok tt) ∧
    sets w2 = sets w1.
Proof.
  eassert (Ha : __all_users two_friends !! 1%nat = Some _) by evaluated.
  eassert (Hb : __all_users two_friends !! 0%nat = Some _) by evaluated.
  destruct (block_prevents_request two_friends 1 0 _ _ 0 None 1 None
    wf_two_friends Ha Hb) as (w1 & w2 & H1 & H2 & H3 & _);
    [lia | right; split; evaluated | right; split; evaluated | evaluated..|].
  exists w1, w2. split_and!; [exact H1|exact H2|exact H3].
Defined.

(** X20.  A block does not withdraw the request of the account that blocks.
    When two different accounts are not friends of each other, neither has
    a request of the other among its incoming or outcoming requests, and
    [b] has not blocked [a], then [a.add_friend(b)], [a.block_user(b)] and
    [b.accept_friend_request(a, True)] all return normally, and afterwards
    the two are friends of each other while [b] is in the blocked set of
    [a]. *)
Theorem blocked_yet_befriended w a b oa ob u p u' p' :
  wf w → __all_users w !! a = Some oa → __all_users w !! b = Some ob → a ≠ b →
  names u p b ob → names u' p' a oa →
  __uid oa ∉ blocked_of w b →
  __uid ob ∉ friends_of w a → __uid oa ∉ friends_of w b →
  __uid oa ∉ incoming_of w b → __uid ob ∉ outgoing_of w a →
  __uid ob ∉ incoming_of w a → __uid oa ∉ outgoing_of w b →
  ∃ w1 w2 w3,
    add_friend a u p w = (w1, Ok tt) ∧
    block_user a u p w1 = (w2, Ok tt) ∧
    accept_friend_request b u' true p' w2 = (w3, Ok tt) ∧
    (__uid ob ∈ blocked_of w3 a) ∧
    (__uid ob ∈ friends_of w3 a) ∧ (__uid oa ∈ friends_of w3 b).
Proof.
  intros Hwf Ha Hb Hne Hn Hn' Hblk Hfa Hfb Hib Hoa Hia Hob.
  two_accounts_setup Hwf Ha Hb Hne.
  open_account oa. open_account ob.
  destruct (decide (uid_0 ∈ sets w !!! blocked_)) as [Hbl|Hbl].
  - eexists _, _, _. split.
    { methods. steps. branch_false. branch_false. branch_false. branch_true.
      apply print_run. }
    split.
    { methods. steps. branch_false. branch_false. branch_false. apply print_run. }
    split.
    { methods. steps. branch_true. eapply set_remove_run. members. }
    world_simpl. unfold contents. look. split_and!; members.
  - eexists _, _, _. split.
    { methods. steps. branch_false. branch_false. branch_false. branch_false.
      apply print_run. }
    split.
    { methods. steps. branch_false. branch_false. branch_false. apply print_run. }
    split.
    { methods. steps. branch_true. eapply set_remove_run. members. }
    world_simpl. unfold contents. look. split_and!; members.
Qed.

Lemma blocked_yet_befriended_witness :
  ∃ w1 w2 w3,
    add_friend 0 1 None three_accounts = (w1, Ok tt) ∧
    block_user 0 1 None w1 = (w2, Ok tt) ∧
    accept_friend_request 1 0 true None w2 = (w3, Ok tt) ∧
    (1 ∈ blocked_of w3 0) ∧ (1 ∈ friends_of w3 0) ∧ (0 ∈ friends_of w3 1).
Proof.
  eassert (Ha : __all_users three_accounts !! 0%nat = Some _) by evaluated.
  eassert (Hb : __all_users three_accounts !! 1%nat = Some _) by evaluated.
  destruct (blocked_yet_befriended three_accounts 0 1 _ _ 1 None 0 None
    wf_three_accounts Ha Hb) as (w1 & w2 & w3 & H1 & H2 & H3 & H4 & H5 & H6);
    [lia | right; split; evaluated | right; split; evaluated | evaluated..|].
  exists w1, w2, w3.
  split_and!; [exact H1|exact H2|exact H3|exact H4|exact H5|exact H6].
Defined.


(** ** Symmetric friendship *)

(** X21.  In a well-formed state where every account's [_friends] is a set
    object of its own, a call of any method by an existing account keeps
    friendship symmetric: if [a] is in [b.friends] exactly when [b] is in
    [a.friends] for all accounts before the call, then so it is after it,
    whether the call returns or raises. *)
Theorem symmetry_preserved w a oa c :
  wf w → friends_unshared w → __all_users w !! a = Some oa →
  (∀ b, user_of c = Some b → is_Some (__all_users w !! b)) →
  symmetric w → symmetric (after (invoke a c) w).
Proof. apply symmetric_invoke. Qed.

Lemma symmetry_preserved_witness :
  symmetric two_friends ∧
  (0 ∈ friends_of two_friends 1) ∧
  symmetric (after (invoke 0 (RemoveFriend 1 (Some 1%nat) true)) two_friends).
Proof.
  split; [apply symmetric_two_friends|]. split; [vm_compute; reflexivity|].
  eapply (symmetry_preserved two_friends 0).
  - apply wf_two_friends.
  - apply friends_unshared_two_friends.
  - vm_compute. reflexivity.
  - intros b [= <-]. vm_compute. eauto.
  - apply symmetric_two_friends.
Defined.

(** Symmetry is lost when two accounts were constructed with one friends
    set: removing a friend of one of them removes it from the other's
    friends as well, and the friend still lists the other account. *)
Lemma shared_friends_break_symmetry :
  wf shared_friends ∧ symmetric shared_friends ∧
  ¬ symmetric (after (invoke 1 (RemoveFriend 0 None true)) shared_friends).
Proof.
  split; [apply wf_shared_friends|]. split; [apply symmetric_shared_friends|].
  intros Hsym.
  eassert (H0 : __all_users (after (invoke 1 (RemoveFriend 0 None true))
    shared_friends) !! 0%nat = Some _) by (vm_compute; reflexivity).
  eassert (H2 : __all_users (after (invoke 1 (RemoveFriend 0 None true))
    shared_friends) !! 2%nat = Some _) by (vm_compute; reflexivity).
  pose proof (Hsym 0%nat 2%nat _ _ H0 H2) as Hiff.
  vm_compute in Hiff. destruct Hiff as [_ Hiff]. by specialize (Hiff eq_refl).
Qed.


(** ** What a call leaves alone *)

(** X22.  In a well-formed state where every account's [_friends] is a set
    object of its own, a call of any method by an existing account keeps
    the requests paired: if the uid of [a] is among the incoming requests
    of [b] exactly when the uid of [b] is among the outcoming requests of
    [a], for all accounts before the call, then so it is after it, whether
    the call returns or raises. *)
Theorem requests_stay_paired w a oa c :
  wf w → friends_unshared w → __all_users w !! a = Some oa →
  (∀ b, user_of c = Some b → is_Some (__all_users w !! b)) →
  requests_paired w → requests_paired (after (invoke a c) w).
Proof. apply paired_invoke. Qed.

Lemma requests_stay_paired_witness :
  requests_paired (after (invoke 0 (AddFriend 1 None)) three_accounts).
Proof.
  eapply (requests_stay_paired three_accounts 0).
  - apply wf_three_accounts.
  - apply friends_unshared_three_accounts.
  - evaluated.
  - intros b [=].
  - apply requests_paired_three_accounts.
Defined.

(** X23.  A call of the account [a] that names the peer [b] changes nothing
    but whether the uid of [b] is in the four sets of [a] and whether the
    uid of [a] is in the four sets of [b]: every other uid is in a set of
    every account after the call exactly when it was before, and the sets
    of a third account do not change at all. *)
Theorem call_touches_only_the_pair w a b oa ob c u p :
  wf w → friends_unshared w →
  __all_users w !! a = Some oa → __all_users w !! b = Some ob →
  peer_of c = Some (u, p) → names u p b ob →
  ∀ r x, ¬ (r = a ∧ x = __uid ob) → ¬ (r = b ∧ x = __uid oa) →
    (x ∈ friends_of (after (invoke a c) w) r ↔ x ∈ friends_of w r) ∧
    (x ∈ blocked_of (after (invoke a c) w) r ↔ x ∈ blocked_of w r) ∧
    (x ∈ incoming_of (after (invoke a c) w) r ↔ x ∈ incoming_of w r) ∧
    (x ∈ outgoing_of (after (invoke a c) w) r ↔ x ∈ outgoing_of w r).
Proof.
  intros Hwf Hun Ha Hb Hc Hn r x Hra Hrb.
  assert (Hp : ∀ b', user_of c = Some b' → is_Some (__all_users w !! b')).
  { intros b' Hb'. destruct Hn as [->|[-> _]].
    - destruct c; simplify_eq/=; eauto.
    - destruct c; simplify_eq/=. }
  destruct (invoke_call_effect w a oa c Hwf Hun Ha Hp) as (e & Hch & He).
  unfold after.
  destruct (__all_users w !! r) as [o|] eqn:Hr.
  2: { unfold friends_of, blocked_of, incoming_of, outgoing_of.
       by rewrite !(contents_unchanged e _ w _ r Hch Hr). }
  destruct (contents_changed e w _ r o Hch Hr) as (-> & -> & -> & ->).
  destruct He as [->|(u' & p' & b' & ob' & Hc' & Hb' & Hn' & [Hf Hbl Hrq])].
  { done. }
  rewrite Hc in Hc'. injection Hc' as <- <-.
  destruct (names_inj w u p b b' ob ob' Hwf Hb Hb' Hn Hn') as [<- <-].
  destruct Hf as [->|[-> | ->]], Hbl as [->|[-> | ->]],
    Hrq as [[-> ->]|[[-> ->]|[-> ->]]];
    unfold no_change, befriend, unfriend, only;
    repeat case_decide; cbn [apply_change]; set_solver.
Qed.

Lemma call_touches_only_the_pair_witness :
  (0 ∈ friends_of (after (invoke 0 (BlockUser 1 None)) two_friends) 2 ↔
     0 ∈ friends_of two_friends 2) ∧
  (0 ∈ blocked_of (after (invoke 0 (BlockUser 1 None)) two_friends) 2 ↔
     0 ∈ blocked_of two_friends 2) ∧
  (0 ∈ incoming_of (after (invoke 0 (BlockUser 1 None)) two_friends) 2 ↔
     0 ∈ incoming_of two_friends 2) ∧
  (0 ∈ outgoing_of (after (invoke 0 (BlockUser 1 None)) two_friends) 2 ↔
     0 ∈ outgoing_of two_friends 2).
Proof.
  eassert (Ha : __all_users two_friends !! 0%nat = Some _) by evaluated.
  eassert (Hb : __all_users two_friends !! 1%nat = Some _) by evaluated.
  apply (call_touches_only_the_pair two_friends 0 1 _ _ (BlockUser 1 None) 1 None
    wf_two_friends friends_unshared_two_friends Ha Hb).
  - reflexivity.
  - right. split; evaluated.
  - intros [? _]. lia.
  - intros [? _]. lia.
Defined.

(** X24.  No call changes the blocked set of an account other than the
    acting one: an account is blocked and unblocked by the owner of the set
    only. *)
Theorem blocked_set_is_the_owners w a oa c :
  wf w → friends_unshared w → __all_users w !! a = Some oa →
  (∀ b, user_of c = Some b → is_Some (__all_users w !! b)) →
  ∀ r, r ≠ a → blocked_of (after (invoke a c) w) r = blocked_of w r.
Proof.
  intros Hwf Hun Ha Hp r Hr.
  destruct (invoke_call_effect w a oa c Hwf Hun Ha Hp) as (e & Hch & He).
  unfold after.
  destruct (__all_users w !! r) as [o|] eqn:Hlook.
  2: { unfold blocked_of. by rewrite (contents_unchanged e _ w _ r Hch Hlook). }
  destruct (contents_changed e w _ r o Hch Hlook) as (_ & -> & _ & _).
  destruct He as [->|(u' & p' & b' & ob' & _ & _ & _ & [_ Hbl _])]; [done|].
  destruct Hbl as [->|[-> | ->]]; unfold no_change, only;
    repeat case_decide; done.
Qed.

Lemma blocked_set_is_the_owners_witness :
  blocked_of (after (invoke 0 (BlockUser 1 None)) two_friends) 1 =
  blocked_of two_friends 1.
Proof.
  eapply (blocked_set_is_the_owners two_friends 0 _ (BlockUser 1 None)).
  - apply wf_two_friends.
  - apply friends_unshared_two_friends.
  - evaluated.
  - intros b [=].
  - lia.
Defined.

(** X25.  [get_mutual_friends] returns a set object that did not exist
    before the call, holding the uids that are among the friends of both
    accounts; no set that existed before has changed.  The method does not
    check that the peer is another account. *)
Theorem get_mutual_friends_fresh w a b oa ob u p :
  wf w → __all_users w !! a = Some oa → __all_users w !! b = Some ob →
  names u p b ob →
  ∃ w' l,
    get_mutual_friends a u p w = (w', Ok l) ∧
    (l ∉ dom (sets w)) ∧
    sets w' !!! l = friends_of w a ∩ friends_of w b ∧
    ∀ l', l' ∈ dom (sets w) → sets w' !!! l' = sets w !!! l'.
Proof.
  intros Hwf Ha Hb Hn.
  pose proof (wf_history w Hwf a oa Ha) as [ha Hha].
  pose proof (is_fresh (dom (sets w))) as Hfresh.
  views.
  assert (Hold : ∀ l' s, l' ∈ dom (sets w) →
    <[fresh (dom (sets w)) := s]> (sets w) !!! l' = sets w !!! l').
  { intros l' s Hl'. rewrite lookup_total_insert_ne; [done|]. by intros <-. }
  destruct (decide (a = b)) as [->|Hne].
  - assert (ob = oa) as -> by congruence.
    eexists _, _. split; [methods; steps; unfold set_intersection; steps; reflexivity|].
    world_simpl. split_and!; [done|by rewrite lookup_total_insert_eq|by intros; apply Hold].
  - eexists _, _. split; [methods; steps; unfold set_intersection; steps; reflexivity|].
    world_simpl. split_and!; [done|by rewrite lookup_total_insert_eq|by intros; apply Hold].
Qed.

Lemma get_mutual_friends_fresh_witness :
  ∃ w' l,
    get_mutual_friends 0 1 None two_friends = (w', Ok l) ∧
    (l ∉ dom (sets two_friends)) ∧
    sets w' !!! l = friends_of two_friends 0 ∩ friends_of two_friends 1.
Proof.
  eassert (Ha : __all_users two_friends !! 0%nat = Some _) by evaluated.
  eassert (Hb : __all_users two_friends !! 1%nat = Some _) by evaluated.
  destruct (get_mutual_friends_fresh two_friends 0 1 _ _ 1 None
    wf_two_friends Ha Hb) as (w' & l & H1 & H2 & H3 & _);
    [right; split; evaluated|].
  exists w', l. split_and!; [exact H1|exact H2|exact H3].
Defined.

(** X26.  Each of the four getters returns the set object of the account,
    not a copy: the set it returns has the members of the account's set,
    and after any sequence of later calls of methods, by any accounts, it
    has the members that the account's set has then. *)
Theorem getters_return_live_sets w a oa k flag :
  wf w → __all_users w !! a = Some oa →
  ∃ w0 l,
    getter k a flag w = (w0, Ok l) ∧
    sets w0 !!! l = contents (attr_of k) w a ∧
    ∀ cs, sets (after_calls cs w0) !!! l =
            contents (attr_of k) (after_calls cs w0) a.
Proof.
  intros Hwf Ha.
  pose proof (wf_history _ Hwf _ _ Ha) as [ha Hha].
  rewrite getter_logs.
  assert (Hlive : ∀ w0 o0, __all_users w0 !! a = Some o0 →
    attr_of k o0 = attr_of k oa → sets w0 = sets w →
    sets w0 !!! attr_of k o0 = contents (attr_of k) w a ∧
    ∀ cs, sets (after_calls cs w0) !!! attr_of k o0 =
            contents (attr_of k) (after_calls cs w0) a).
  { intros w0 o0 Ha0 Hk Hs. split.
    - by rewrite Hs, Hk, (contents_at _ w a oa Ha).
    - intros cs.
      by rewrite (contents_extends k w0 _ a o0 (extends_after_calls cs w0) Ha0). }
  destruct flag; steps.
  - erewrite attr_run by side. eexists _, _. split; [reflexivity|].
    eapply Hlive; [side| |done]. by destruct k.
  - erewrite attr_run by side. eexists _, _. split; [reflexivity|].
    by eapply Hlive.
Qed.

Lemma getters_return_live_sets_witness :
  ∃ w0 l,
    getter OutcomingSet 0 true three_accounts = (w0, Ok l) ∧
    sets w0 !!! l = ∅ ∧
    sets (after_calls [(0%nat, AddFriend 1 None)] w0) !!! l = {[1]}.
Proof.
  eassert (Ha : __all_users three_accounts !! 0%nat = Some _) by evaluated.
  destruct (getters_return_live_sets three_accounts 0 _ OutcomingSet true
    wf_three_accounts Ha) as (w0 & l & H1 & H2 & H3).
  exists w0, l. split; [exact H1|].
  specialize (H3 [(0%nat, AddFriend 1 None)]).
  rewrite H2, H3. clear H2 H3.
  vm_compute in H1.
  injection H1 as <- <-.
  split; evaluated.
Defined.
